(** * The PixelLab gallery tools: API client and batch driver

    A shallow embedding of [pixellab_client.py] and
    [scripts/generate_gallery.py].  Python values that travel as JSON are an
    inductive type, dictionaries are association lists in insertion order,
    the file system is a finite map from paths to contents, and every effect
    of the code (clock, network, disk, standard output, exceptions) is
    threaded through a small state-and-exception monad. *)

From Stdlib Require Import ZArith Lia Ascii String List Bool.
From stdpp Require Import base strings gmap pretty.
Import ListNotations.

Local Open Scope Z_scope.
Local Set Warnings "-register-all".

(** ** Python values *)

(** What [response.json()] can return, and what is sent as a request body.
    Numbers are the integers; an object keeps its keys in insertion order. *)
Inductive JSON : Type :=
| JNull
| JBool (b : bool)
| JNum (n : Z)
| JStr (s : string)
| JArr (items : list JSON)
| JObj (fields : list (string * JSON)).

(** The exceptions the two modules raise or let through.  All of them are
    subclasses of Python's [Exception]. *)
Inductive Exn : Type :=
| ImportError
| ValueError (msg : string)
| ConnectionError
| HTTPError (status : Z)
| JSONDecodeError
| AttributeError
| KeyError
| TypeError
| IndexError
| BinasciiError
| OSError
| RuntimeError (job_id : string) (error : JSON)
| TimeoutError (job_id : string) (max_wait : Z).

Inductive Res (A : Type) : Type :=
| Ret (a : A)
| Raise (e : Exn).
Arguments Ret {A} a.
Arguments Raise {A} e.

(** [d[k]] looked up in a dictionary. *)
Fixpoint lookup_key (k : string) (d : list (string * JSON)) : option JSON :=
  match d with
  | [] => None
  | (k', v) :: rest => if String.eqb k k' then Some v else lookup_key k rest
  end.

(** [v.get(k, default)]: only a dictionary has the method; on anything else
    the attribute lookup raises. *)
Definition py_get (v : JSON) (k : string) (default : JSON) : Res JSON :=
  match v with
  | JObj d => Ret (match lookup_key k d with Some x => x | None => default end)
  | _ => Raise AttributeError
  end.

(** Python truth value of a JSON value: [None], [False], [0], the empty
    string, list and dictionary are false. *)
Definition truthy (v : JSON) : bool :=
  match v with
  | JNull => false
  | JBool b => b
  | JNum n => negb (n =? 0)
  | JStr s => negb (String.eqb s "")
  | JArr l => match l with [] => false | _ => true end
  | JObj d => match d with [] => false | _ => true end
  end.

(** ** Strings: [in], [split], slices and paths

    A Python [str] is held as its UTF-8 encoding.  A comma, a slash and the
    other ASCII characters are single bytes that occur in no longer
    character, so [in], [split] and [==] are taken byte by byte; a slice
    counts characters, and a byte of the form [10xxxxxx] continues the
    character begun before it. *)

Definition comma : ascii := ","%char.

Definition is_continuation_byte (c : ascii) : bool :=
  let n := Z.of_N (N_of_ascii c) in (128 <=? n) && (n <? 192).

(** [s[:n]]: the first [n] characters of [s], all of [s] when it has
    fewer. *)
Fixpoint py_prefix (n : nat) (s : string) : string :=
  match s with
  | EmptyString => EmptyString
  | String c rest =>
      if is_continuation_byte c then String c (py_prefix n rest)
      else match n with
           | O => EmptyString
           | S n' => String c (py_prefix n' rest)
           end
  end.

(** [v[0]] by subscript; on a string it is the first character. *)
Definition py_index0 (v : JSON) : Res JSON :=
  match v with
  | JArr (x :: _) => Ret x
  | JArr [] => Raise IndexError
  | JStr (String c rest) => Ret (JStr (py_prefix 1 (String c rest)))
  | JStr EmptyString => Raise IndexError
  | JObj _ => Raise KeyError
  | _ => Raise TypeError
  end.

(** ["," in s] for a string [s]. *)
Fixpoint contains_char (c : ascii) (s : string) : bool :=
  match s with
  | EmptyString => false
  | String x rest => if Ascii.eqb x c then true else contains_char c rest
  end.

(** [s.count(c)] for a one-character [c]. *)
Fixpoint count_char (c : ascii) (s : string) : nat :=
  match s with
  | EmptyString => 0%nat
  | String x rest => ((if Ascii.eqb x c then 1 else 0) + count_char c rest)%nat
  end.

(** [s.split(sep)] for a one-character separator: never the empty list. *)
Fixpoint split_on (sep : ascii) (s : string) : list string :=
  match s with
  | EmptyString => [EmptyString]
  | String x rest =>
      if Ascii.eqb x sep then EmptyString :: split_on sep rest
      else match split_on sep rest with
           | hd :: tl => String x hd :: tl
           | [] => [String x EmptyString]
           end
  end.

(** *** Paths: [pathlib] on a POSIX system

    A path is held as the string [str(path)].  Parsing drops the empty
    components and the components ["."]; a leading slash is the root, and
    two leading slashes (not three) are kept as they are.  Components [".."]
    stay: [pathlib] does not resolve them. *)

Definition starts_with_slash (s : string) : bool :=
  match s with
  | String "/"%char _ => true
  | _ => false
  end.

Fixpoint ends_with_slash (s : string) : bool :=
  match s with
  | EmptyString => false
  | String c EmptyString => Ascii.eqb c "/"
  | String _ rest => ends_with_slash rest
  end.

Definition path_root (s : string) : string :=
  match s with
  | String "/"%char (String "/"%char (String "/"%char _)) => "/"
  | String "/"%char (String "/"%char _) => "//"
  | String "/"%char _ => "/"
  | _ => ""
  end.

Definition is_part (x : string) : bool :=
  negb (String.eqb x "") && negb (String.eqb x ".").

Definition path_parts (s : string) : list string :=
  List.filter is_part (split_on "/"%char s).

(** ["/".join(parts)]. *)
Fixpoint join_slash (parts : list string) : string :=
  match parts with
  | [] => ""
  | x :: rest =>
      match rest with
      | [] => x
      | _ => x +:+ "/" +:+ join_slash rest
      end
  end.

(** [str(Path(s))]. *)
Definition path_str (s : string) : string :=
  let p := path_root s +:+ join_slash (path_parts s) in
  if String.eqb p "" then "." else p.

(** [os.path.join(a, b)]: an absolute right operand replaces the left
    one. *)
Definition posix_join (a b : string) : string :=
  if starts_with_slash b then b
  else if String.eqb a "" || ends_with_slash a then a +:+ b
  else a +:+ "/" +:+ b.

(** [Path(d) / name]. *)
Definition path_join (d name : string) : string :=
  path_str (posix_join d name).

(** [Path(p).name]: the last component of the path, the empty string when
    it has none. *)
Definition path_name (p : string) : string :=
  List.last (path_parts p) EmptyString.

(** ** The standard library's [base64.b64decode]

    [b64decode(s)] with its default [validate=False] first encodes a [str]
    as ASCII, then runs CPython's [binascii.a2b_base64] in its lenient mode:
    characters outside the alphabet are skipped, a pad that completes a quad
    stops the scan, and a dangling quad is an error. *)

Definition table_a2b_base64 (c : ascii) : option Z :=
  let n := Z.of_N (N_of_ascii c) in
  if (65 <=? n) && (n <=? 90) then Some (n - 65)
  else if (97 <=? n) && (n <=? 122) then Some (n - 71)
  else if (48 <=? n) && (n <=? 57) then Some (n + 4)
  else if n =? 43 then Some 62
  else if n =? 47 then Some 63
  else None.

Definition BASE64_PAD : ascii := "="%char.

Definition byte_of (z : Z) : Z := Z.land z 255.

(** The scan loop; [out] is kept in reverse. *)
Fixpoint a2b_base64_loop (s : string) (quad_pos : Z) (leftchar : Z) (pads : Z)
    (out : list Z) : Res (list Z) :=
  match s with
  | EmptyString =>
      if quad_pos =? 0 then Ret (rev out) else Raise BinasciiError
  | String this_ch rest =>
      if Ascii.eqb this_ch BASE64_PAD then
        if (2 <=? quad_pos) && (4 <=? quad_pos + (pads + 1)) then Ret (rev out)
        else a2b_base64_loop rest quad_pos leftchar
               (if 2 <=? quad_pos then pads + 1 else pads) out
      else
        match table_a2b_base64 this_ch with
        | None => a2b_base64_loop rest quad_pos leftchar pads out
        | Some v =>
            if quad_pos =? 0 then a2b_base64_loop rest 1 v 0 out
            else if quad_pos =? 1 then
              a2b_base64_loop rest 2 (Z.land v 15) 0
                (byte_of (Z.lor (Z.shiftl leftchar 2) (Z.shiftr v 4)) :: out)
            else if quad_pos =? 2 then
              a2b_base64_loop rest 3 (Z.land v 3) 0
                (byte_of (Z.lor (Z.shiftl leftchar 4) (Z.shiftr v 2)) :: out)
            else
              a2b_base64_loop rest 0 0 0
                (byte_of (Z.lor (Z.shiftl leftchar 6) v) :: out)
        end
  end.

Definition a2b_base64 (s : string) : Res (list Z) := a2b_base64_loop s 0 0 0 [].

Fixpoint is_ascii (s : string) : bool :=
  match s with
  | EmptyString => true
  | String c rest => (Z.of_N (N_of_ascii c) <? 128) && is_ascii rest
  end.

Definition b64decode (s : string) : Res (list Z) :=
  if is_ascii s then a2b_base64 s
  else Raise (ValueError "string argument should contain only ASCII characters").


(** ** The world outside the program *)

Record HttpRequest : Type := {
  req_method : string;
  req_url : string;
  req_headers : list (string * string);
  req_params : option JSON;
  req_json : option JSON
}.

(** What the [requests] call ends in: no connection, or a response with a
    status code and a body that parses as JSON or does not. *)
Inductive HttpOutcome : Type :=
| NoConnection
| Response (status : Z) (body : option JSON).

(** A reply takes [latency] milliseconds of wall-clock time. *)
Record HttpReply : Type := {
  latency : N;
  outcome : HttpOutcome
}.

Inductive DiskFault : Type := NoFault | OpenFails | WriteFails.

(** The read-only surroundings of a run: the process environment, whether
    [requests] can be imported, how the server answers the n-th request, and
    which paths the disk refuses. *)
Record Env : Type := {
  getenv : string -> option string;
  requests_installed : bool;
  server : nat -> HttpRequest -> HttpReply;
  disk : string -> DiskFault
}.

(** One entry of [metadata["images"]] and the manifest itself. *)
Record MetadataEntry : Type := {
  entry_id : string;
  entry_filename : string;
  entry_description : string;
  entry_width : Z;
  entry_height : Z;
  entry_seed : option Z;
  entry_generated_at : Z
}.

Record Metadata : Type := {
  generated_at : Z;
  images : list MetadataEntry
}.

(** A file holds raw bytes, or the JSON text that [json.dump] wrote, kept as
    the value it serialises. *)
Inductive FileContent : Type :=
| Bytes (b : list Z)
| JsonText (m : Metadata).

(** The lines the code prints, one constructor per [print] call. *)
Inductive Output : Type :=
| LiveCalling (description50 : string)
| LiveCreating (description50 : string)
| KeyMissingHelp
| CheckingBalance
| BalanceLine (balance : JSON)
| BalanceWarning (e : Exn)
| Generating (image_id : string)
| DescriptionLine (description60 : string)
| NoImagesReturned (image_id : string)
| Saved (name : string)
| FailedToSave (image_id : string)
| ErrorGenerating (image_id : string) (e : Exn)
| ErrorSavingImage (e : Exn)
| MetadataSaved
| Summary (successful failed total : Z)
| NextSteps.

(** The mutable world: the clock in milliseconds, the requests sent so far
    with the time each was sent, the files and directories on disk, and
    standard output. *)
Record State : Type := {
  now : Z;
  calls : list (Z * HttpRequest);
  files : gmap string FileContent;
  dirs : gset string;
  stdout : list Output
}.

Definition advance (ms : Z) (st : State) : State :=
  {| now := now st + ms; calls := calls st; files := files st;
     dirs := dirs st; stdout := stdout st |}.

Definition log_call (r : HttpRequest) (st : State) : State :=
  {| now := now st; calls := calls st ++ [(now st, r)]; files := files st;
     dirs := dirs st; stdout := stdout st |}.

Definition put_file (path : string) (c : FileContent) (st : State) : State :=
  {| now := now st; calls := calls st; files := <[path := c]> (files st);
     dirs := dirs st; stdout := stdout st |}.

Definition add_dirs (ds : gset string) (st : State) : State :=
  {| now := now st; calls := calls st; files := files st;
     dirs := dirs st ∪ ds; stdout := stdout st |}.

Definition emit (o : Output) (st : State) : State :=
  {| now := now st; calls := calls st; files := files st;
     dirs := dirs st; stdout := stdout st ++ [o] |}.

(** ** Computations with state and exceptions *)

Definition M (A : Type) : Type := State -> Res A * State.

Definition ret {A} (a : A) : M A := fun st => (Ret a, st).
Definition raise {A} (e : Exn) : M A := fun st => (Raise e, st).
Definition lift {A} (r : Res A) : M A := fun st => (r, st).

Definition bind {A B} (m : M A) (k : A -> M B) : M B :=
  fun st =>
    match m st with
    | (Ret a, st') => k a st'
    | (Raise e, st') => (Raise e, st')
    end.

Declare Scope py_scope.
Delimit Scope py_scope with py.
Notation "x <- m ;; k" := (bind m (fun x => k))
  (at level 62, m at next level, right associativity) : py_scope.
Notation "m ;;; k" := (bind m (fun _ => k))
  (at level 62, right associativity) : py_scope.
Local Open Scope py_scope.

Definition print (o : Output) : M unit := fun st => (Ret tt, emit o st).

(** [time.time()] and [datetime.now()], in milliseconds. *)
Definition time_time : M Z := fun st => (Ret (now st), st).

(** [time.sleep(seconds)]. *)
Definition time_sleep (seconds : Z) : M unit :=
  fun st => (Ret tt, advance (seconds * 1000) st).

(** ** [pixellab_client.py] *)

Definition BASE_URL : string := "https://api.pixellab.ai/v2".

Record PixelLabClient : Type := {
  api_key : option string;
  base_url : string
}.

(** Truth value of an optional string: [None] and [""] are false. *)
Definition str_truthy (o : option string) : bool :=
  match o with
  | Some s => negb (String.eqb s "")
  | None => false
  end.

(** [v == s] for a string literal [s]. *)
Definition is_str (s : string) (v : JSON) : bool :=
  match v with
  | JStr x => String.eqb x s
  | _ => false
  end.

(** [d[k] = v] on a dictionary: an existing key keeps its place. *)
Fixpoint dict_set (k : string) (v : JSON) (d : list (string * JSON))
    : list (string * JSON) :=
  match d with
  | [] => [(k, v)]
  | (k', v') :: rest =>
      if String.eqb k k' then (k, v) :: rest else (k', v') :: dict_set k v rest
  end.

(** The arguments of [generate_image]; [None] is an argument left out. *)
Record GenerateArgs : Type := {
  description : string;
  width : option Z;
  height : option Z;
  seed : option Z;
  no_background : option bool;
  reference_images : option (list JSON);
  style_image : option (list (string * JSON));
  style_options : option (list (string * JSON))
}.

(** The dictionary [generate_image] returns. *)
Record GenerationResult : Type := {
  result_images : JSON;
  result_usage : JSON;
  result_success : JSON
}.

(** One turn of a [while] loop either returns from the function or goes
    round again. *)
Inductive LoopStep (A : Type) : Type :=
| Return (a : A)
| Continue.
Arguments Return {A} a.
Arguments Continue {A}.

(** The body that [generate_image] posts (lines 135 to 152). *)
Definition generate_image_payload (a : GenerateArgs) : list (string * JSON) :=
  let payload :=
    [("description", JStr (description a));
     ("image_size", JObj [("width", JNum (default 64 (width a)));
                          ("height", JNum (default 64 (height a)))])] in
  let payload :=
    match seed a with
    | Some s => dict_set "seed" (JNum s) payload
    | None => payload
    end in
  let payload :=
    if default false (no_background a)
    then dict_set "no_background" (JBool true) payload else payload in
  let payload :=
    match reference_images a with
    | Some (x :: l) => dict_set "reference_images" (JArr (x :: l)) payload
    | _ => payload
    end in
  let payload :=
    match style_image a with
    | Some (x :: l) => dict_set "style_image" (JObj (x :: l)) payload
    | _ => payload
    end in
  match style_options a with
  | Some (x :: l) => dict_set "style_options" (JObj (x :: l)) payload
  | _ => payload
  end.

(** The result [generate_image] builds from the response (lines 157 to
    161). *)
Definition generation_result (response : JSON) : Res GenerationResult :=
  match py_get response "data" (JObj []) with
  | Raise e => Raise e
  | Ret data =>
      match py_get data "images" (JArr []) with
      | Raise e => Raise e
      | Ret imgs =>
          match py_get response "usage" (JObj []) with
          | Raise e => Raise e
          | Ret usage =>
              match py_get response "success" (JBool false) with
              | Raise e => Raise e
              | Ret success =>
                  Ret {| result_images := imgs; result_usage := usage;
                         result_success := success |}
              end
          end
      end
  end.

(** [{**base, **kwargs}]: the keys of [kwargs] are set one after the other. *)
Definition dict_update (base kwargs : list (string * JSON))
    : list (string * JSON) :=
  fold_left (fun d kv => dict_set (fst kv) (snd kv) d) kwargs base.

(** The body [create_character_4_directions] posts (lines 186 to 190). *)
Definition create_character_payload (description : string)
    (width height : option Z) (kwargs : list (string * JSON))
    : list (string * JSON) :=
  dict_update
    [("description", JStr description);
     ("image_size", JObj [("width", JNum (default 64 width));
                          ("height", JNum (default 64 height))])]
    kwargs.

(** The dictionary [create_character_4_directions] returns. *)
Record CharacterResult : Type := {
  character_id : JSON;
  background_job_id : JSON;
  character_usage : JSON;
  character_success : JSON
}.

(** The result built from the response (lines 198 to 203). *)
Definition character_result (response : JSON) : Res CharacterResult :=
  match py_get response "data" (JObj []) with
  | Raise e => Raise e
  | Ret data1 =>
      match py_get data1 "character_id" JNull with
      | Raise e => Raise e
      | Ret cid =>
          match py_get response "data" (JObj []) with
          | Raise e => Raise e
          | Ret data2 =>
              match py_get data2 "background_job_id" JNull with
              | Raise e => Raise e
              | Ret jid =>
                  match py_get response "usage" (JObj []) with
                  | Raise e => Raise e
                  | Ret usage =>
                      match py_get response "success" (JBool false) with
                      | Raise e => Raise e
                      | Ret success =>
                          Ret {| character_id := cid; background_job_id := jid;
                                 character_usage := usage;
                                 character_success := success |}
                      end
                  end
              end
          end
      end
  end.

Section Client.

Variable env : Env.

(** [PixelLabClient(api_key=..., base_url=...)]. *)
Definition PixelLabClient_init (key : option string) (url : option string)
    : PixelLabClient :=
  {| api_key := if str_truthy key then key else getenv env "PIXELLAB_API_KEY";
     base_url := default BASE_URL url |}.

(** [requests.get] or [requests.post]: the request goes out, the reply
    arrives [latency] milliseconds later. *)
Definition send (r : HttpRequest) : M (Z * option JSON) :=
  fun st =>
    let reply := server env (length (calls st)) r in
    let st' := advance (Z.of_N (latency reply)) (log_call r st) in
    match outcome reply with
    | NoConnection => (Raise ConnectionError, st')
    | Response status body => (Ret (status, body), st')
    end.

Definition raise_for_status (status : Z) : M unit :=
  if (400 <=? status) && (status <? 600) then raise (HTTPError status)
  else ret tt.

Definition response_json (body : option JSON) : M JSON :=
  match body with
  | Some j => ret j
  | None => raise JSONDecodeError
  end.

Definition request_headers (key : string) : list (string * string) :=
  [("Authorization", "Bearer " +:+ key); ("Content-Type", "application/json")].

Definition _make_request (self : PixelLabClient) (method endpoint : string)
    (data params : option JSON) : M JSON :=
  if negb (requests_installed env) then raise ImportError
  else if negb (str_truthy (api_key self)) then
    raise (ValueError
             "PIXELLAB_API_KEY not found. Set it in .env or pass to constructor.")
  else
    let url := base_url self +:+ endpoint in
    let headers := request_headers (default "" (api_key self)) in
    response <-
      (if String.eqb method "GET" then
         send {| req_method := "GET"; req_url := url; req_headers := headers;
                 req_params := params; req_json := None |}
       else if String.eqb method "POST" then
         send {| req_method := "POST"; req_url := url; req_headers := headers;
                 req_params := None; req_json := data |}
       else raise (ValueError ("Unsupported HTTP method: " +:+ method))) ;;
    raise_for_status (fst response) ;;;
    response_json (snd response).

(** The body of the [while] loop of [_poll_background_job]. *)
Definition poll_body (self : PixelLabClient) (job_id : string)
    : M (LoopStep JSON) :=
  response <- _make_request self "GET" ("/background-jobs/" +:+ job_id)
                None None ;;
  data <- lift (py_get response "data" (JObj [])) ;;
  status <- lift (py_get data "status" JNull) ;;
  if is_str "completed" status then
    d <- lift (py_get response "data" (JObj [])) ;;
    ret (Return d)
  else if is_str "failed" status then
    err <- lift (py_get response "error" JNull) ;;
    raise (RuntimeError job_id err)
  else
    time_sleep 2 ;;;
    ret Continue.

(** The loop, on a bound for the number of turns; [None] is the bound
    reached. *)
Fixpoint poll_loop (fuel : nat) (self : PixelLabClient) (job_id : string)
    (max_wait start_time : Z) (st : State) : option (Res JSON * State) :=
  match fuel with
  | O => None
  | S fuel' =>
      if now st - start_time <? max_wait * 1000 then
        match poll_body self job_id st with
        | (Ret (Return d), st') => Some (Ret d, st')
        | (Ret Continue, st') =>
            poll_loop fuel' self job_id max_wait start_time st'
        | (Raise e, st') => Some (Raise e, st')
        end
      else Some (Raise (TimeoutError job_id max_wait), st)
  end.

(** [_poll_background_job(job_id, max_wait=300)].  Every turn that goes
    round again sleeps two seconds, so [max_wait + 1] turns are enough. *)
Definition _poll_background_job (self : PixelLabClient) (job_id : string)
    (max_wait : option Z) (st : State) : option (Res JSON * State) :=
  let max_wait := default 300 max_wait in
  let start_time := now st in
  poll_loop (Z.to_nat max_wait + 1) self job_id max_wait start_time st.

Definition generate_image (self : PixelLabClient) (a : GenerateArgs)
    : M GenerationResult :=
  print (LiveCalling (py_prefix 50 (description a))) ;;;
  response <- _make_request self "POST" "/generate-image-v2"
                (Some (JObj (generate_image_payload a))) None ;;
  lift (generation_result response).

Definition get_balance (self : PixelLabClient) : M JSON :=
  response <- _make_request self "GET" "/balance" None None ;;
  lift (py_get response "data" (JObj [])).

(** [create_character_4_directions(description, width, height, **kwargs)];
    [kwargs] holds the keyword arguments Python did not bind to a
    parameter. *)
Definition create_character_4_directions (self : PixelLabClient)
    (description : string) (width height : option Z)
    (kwargs : list (string * JSON)) : M CharacterResult :=
  print (LiveCreating (py_prefix 50 description)) ;;;
  response <- _make_request self "POST" "/create-character-with-4-directions"
                (Some (JObj (create_character_payload description width
                               height kwargs))) None ;;
  lift (character_result response).

(** [get_client()]: the module keeps its default client in the global
    [_default_client], passed in and handed back here. *)
Definition get_client (_default_client : option PixelLabClient)
    : PixelLabClient * option PixelLabClient :=
  match _default_client with
  | Some c => (c, Some c)
  | None =>
      let c := PixelLabClient_init None None in
      (c, Some c)
  end.

(** The module-level [generate_image(description, width, height, **kwargs)]. *)
Definition module_generate_image (_default_client : option PixelLabClient)
    (a : GenerateArgs) (st : State)
    : (Res GenerationResult * State) * option PixelLabClient :=
  let (c, g) := get_client _default_client in
  (generate_image c a st, g).

End Client.

(** ** [scripts/generate_gallery.py] *)

(** Paths, written relative to the project root. *)
Definition GALLERY_DIR : string := "assets/gallery".
Definition IMAGES_DIR : string := path_join GALLERY_DIR "images".
Definition METADATA_FILE : string := path_join GALLERY_DIR "metadata.json".

(** One dictionary of [GALLERY_IMAGES]: ["id"] and ["description"] are read
    by subscript, the other keys with [get]. *)
Record Config : Type := {
  cfg_id : string;
  cfg_description : string;
  cfg_width : option Z;
  cfg_height : option Z;
  cfg_seed : option Z
}.

Definition GALLERY_IMAGES : list Config :=
  [ {| cfg_id := "wizard";
       cfg_description := "a mysterious pixel art wizard with a glowing staff and purple robes, fantasy RPG style";
       cfg_width := Some 128; cfg_height := Some 128; cfg_seed := Some 42 |};
    {| cfg_id := "knight";
       cfg_description := "a brave pixel art knight in shining armor with a sword and shield, retro game style";
       cfg_width := Some 128; cfg_height := Some 128; cfg_seed := Some 123 |};
    {| cfg_id := "dragon";
       cfg_description := "a fierce pixel art dragon breathing fire, classic 16-bit RPG style";
       cfg_width := Some 128; cfg_height := Some 128; cfg_seed := Some 456 |};
    {| cfg_id := "spaceship";
       cfg_description := "a sleek pixel art spaceship with glowing engines, retro sci-fi arcade style";
       cfg_width := Some 128; cfg_height := Some 128; cfg_seed := Some 789 |};
    {| cfg_id := "robot";
       cfg_description := "a friendly pixel art robot with antenna and digital eyes, cute retro style";
       cfg_width := Some 128; cfg_height := Some 128; cfg_seed := Some 101 |};
    {| cfg_id := "treasure";
       cfg_description := "an open pixel art treasure chest overflowing with gold coins and gems, classic RPG style";
       cfg_width := Some 128; cfg_height := Some 128; cfg_seed := Some 202 |} ].

(** The variables the loop of [generate_gallery] updates. *)
Record Tally : Type := {
  metadata_images : list MetadataEntry;
  successful : Z;
  failed : Z
}.

Definition count_failed (t : Tally) : Tally :=
  {| metadata_images := metadata_images t; successful := successful t;
     failed := failed t + 1 |}.

Definition count_successful (e : MetadataEntry) (t : Tally) : Tally :=
  {| metadata_images := metadata_images t ++ [e];
     successful := successful t + 1; failed := failed t |}.

(** How [generate_gallery] ends: [sys.exit(code)], an exception nobody
    caught, or the summary it printed. *)
Inductive Outcome : Type :=
| Exited (code : Z)
| Crashed (e : Exn)
| Finished (successful failed total : Z).

(** The string handed to [b64decode]: the part after the first comma when
    there is a comma. *)
Definition strip_data_url (base64_data : string) : Res string :=
  if contains_char comma base64_data then
    match nth_error (split_on comma base64_data) 1 with
    | Some part => Ret part
    | None => Raise IndexError
    end
  else Ret base64_data.

Section Driver.

Variable env : Env.

(** [with open(path, "wb") as f: f.write(data)]. *)
Definition write_file (path : string) (c : FileContent) : M unit :=
  fun st =>
    match disk env path with
    | NoFault => (Ret tt, put_file path c st)
    | OpenFails => (Raise OSError, st)
    | WriteFails => (Raise OSError, put_file path (Bytes []) st)
    end.

(** [Path.mkdir(parents=True, exist_ok=True)] on the images directory. *)
Definition mkdir_images : M unit :=
  fun st =>
    match disk env IMAGES_DIR with
    | NoFault => (Ret tt, add_dirs {["assets"; GALLERY_DIR; IMAGES_DIR]} st)
    | _ => (Raise OSError, st)
    end.

(** The [try] block of [save_base64_image].  A value that is no string
    fails at [in], at [split] or inside [b64decode]. *)
Definition save_base64_image_try (base64_data : JSON) (output_path : string)
    : M unit :=
  match base64_data with
  | JStr s =>
      payload <- lift (strip_data_url s) ;;
      image_bytes <- lift (b64decode payload) ;;
      write_file output_path (Bytes image_bytes)
  | JArr l =>
      if existsb (is_str ",") l then raise AttributeError else raise TypeError
  | JObj d =>
      if existsb (fun kv => String.eqb (fst kv) ",") d
      then raise AttributeError else raise TypeError
  | _ => raise TypeError
  end.

Definition save_base64_image (base64_data : JSON) (output_path : string)
    : State -> bool * State :=
  fun st =>
    match save_base64_image_try base64_data output_path st with
    | (Ret _, st') => (true, st')
    | (Raise e, st') => (false, emit (ErrorSavingImage e) st')
    end.

Definition output_name (image_id : string) (width height : Z) : string :=
  image_id +:+ "_" +:+ pretty width +:+ "x" +:+ pretty height +:+ ".png".

(** The [try] block of one turn of the loop (lines 163 to 196). *)
Definition generate_one_try (client : PixelLabClient) (config : Config)
    (t : Tally) : M Tally :=
  let image_id := cfg_id config in
  let description := cfg_description config in
  let width := default 128 (cfg_width config) in
  let height := default 128 (cfg_height config) in
  let seed := cfg_seed config in
  response <- generate_image env client
                {| description := description; width := Some width;
                   height := Some height; seed := seed;
                   no_background := None; reference_images := None;
                   style_image := None; style_options := None |} ;;
  if negb (truthy (result_images response)) then
    print (NoImagesReturned image_id) ;;;
    ret (count_failed t)
  else
    base64_image <- lift (py_index0 (result_images response)) ;;
    let output_path := path_join IMAGES_DIR (output_name image_id width height) in
    saved <- (fun st => let (b, st') := save_base64_image base64_image output_path st
                        in (Ret b, st')) ;;
    if (saved : bool) then
      print (Saved (path_name output_path)) ;;;
      stamp <- time_time ;;
      ret (count_successful
             {| entry_id := image_id; entry_filename := path_name output_path;
                entry_description := description; entry_width := width;
                entry_height := height; entry_seed := seed;
                entry_generated_at := stamp |} t)
    else
      print (FailedToSave image_id) ;;;
      ret (count_failed t).

(** One turn of the loop with its [except Exception]. *)
Definition generate_one (client : PixelLabClient) (config : Config)
    (t : Tally) (st : State) : Tally * State :=
  let st := emit (Generating (cfg_id config)) st in
  let st := emit (DescriptionLine (py_prefix 60 (cfg_description config))) st in
  match generate_one_try client config t st with
  | (Ret t', st') => (t', st')
  | (Raise e, st') =>
      (count_failed t, emit (ErrorGenerating (cfg_id config) e) st')
  end.

(** [for config in gallery: ...]. *)
Fixpoint gallery_loop (client : PixelLabClient) (gallery : list Config)
    (t : Tally) (st : State) : Tally * State :=
  match gallery with
  | [] => (t, st)
  | config :: rest =>
      let (t', st') := generate_one client config t st in
      gallery_loop client rest t' st'
  end.

(** The balance check with its [except Exception]. *)
Definition check_balance (client : PixelLabClient) (st : State) : State :=
  let st := emit CheckingBalance st in
  match get_balance env client st with
  | (Ret balance, st') => emit (BalanceLine balance) st'
  | (Raise e, st') => emit (BalanceWarning e) st'
  end.

(** [generate_gallery()], for any list in the place of [GALLERY_IMAGES]. *)
Definition generate_gallery_on (gallery : list Config) (st : State)
    : Outcome * State :=
  let key := getenv env "PIXELLAB_API_KEY" in
  if negb (str_truthy key) then (Exited 1, emit KeyMissingHelp st)
  else
    match mkdir_images st with
    | (Raise e, st1) => (Crashed e, st1)
    | (Ret _, st1) =>
        let client := PixelLabClient_init env key None in
        let st2 := check_balance client st1 in
        let metadata_generated_at := now st2 in
        let (t, st3) :=
          gallery_loop client gallery
            {| metadata_images := []; successful := 0; failed := 0 |} st2 in
        let metadata := {| generated_at := metadata_generated_at;
                           images := metadata_images t |} in
        match write_file METADATA_FILE (JsonText metadata) st3 with
        | (Raise e, st4) => (Crashed e, st4)
        | (Ret _, st4) =>
            let total := Z.of_nat (length gallery) in
            let st5 := emit (Summary (successful t) (failed t) total)
                         (emit MetadataSaved st4) in
            (Finished (successful t) (failed t) total,
             if 0 <? successful t then emit NextSteps st5 else st5)
        end
    end.

Definition generate_gallery : State -> Outcome * State :=
  generate_gallery_on GALLERY_IMAGES.

End Driver.

(** ** Sample worlds *)

Module Samples.

Definition st0 : State :=
  {| now := 0; calls := []; files := ∅; dirs := ∅; stdout := [] |}.

Definition hello_body : JSON :=
  JObj [("success", JBool true);
        ("data", JObj [("images", JArr [JStr "data:image/png;base64,aGVsbG8="])]);
        ("usage", JObj [("credits", JNum 1)])].

(** A key in the environment; the balance call is answered first, the
    second item comes back without images and the fourth with a server
    error. *)
Definition env_mixed : Env :=
  {| getenv := fun k =>
       if String.eqb k "PIXELLAB_API_KEY" then Some "secret" else None;
     requests_installed := true;
     server := fun n _ =>
       {| latency := 10;
          outcome :=
            match n with
            | 0%nat => Response 200 (Some (JObj [("data", JObj [("credits", JNum 5)])]))
            | 2%nat => Response 200 (Some (JObj [("data", JObj [("images", JArr [])])]))
            | 4%nat => Response 500 None
            | _ => Response 200 (Some hello_body)
            end |};
     disk := fun _ => NoFault |}.

(** The same world with the balance call refused by the server. *)
Definition env_no_balance : Env :=
  {| getenv := getenv env_mixed;
     requests_installed := true;
     server := fun n r =>
       match n with
       | 0%nat => {| latency := 10; outcome := Response 503 None |}
       | _ => server env_mixed n r
       end;
     disk := fun _ => NoFault |}.

(** No key anywhere. *)
Definition env_no_key : Env :=
  {| getenv := fun _ => None;
     requests_installed := true;
     server := server env_mixed;
     disk := fun _ => NoFault |}.

Definition job_reply (status : string) : HttpOutcome :=
  Response 200 (Some (JObj [("data", JObj [("status", JStr status); ("frames", JNum 4)]);
                            ("error", JStr "out of credits")])).

(** A job server that answers in half a second: [pending] three times,
    then the given final status. *)
Definition env_job (final : string) : Env :=
  {| getenv := fun _ => None;
     requests_installed := true;
     server := fun n _ =>
       {| latency := 500;
          outcome := match n with
                     | 3%nat => job_reply final
                     | _ => job_reply "pending"
                     end |};
     disk := fun _ => NoFault |}.

(** A job server that takes five seconds to say [completed]. *)
Definition env_slow_job : Env :=
  {| getenv := fun _ => None;
     requests_installed := true;
     server := fun _ _ => {| latency := 5000; outcome := job_reply "completed" |};
     disk := fun _ => NoFault |}.

(** A server whose every reply is a 200 with [null] in the place of
    ["data"]. *)
Definition env_null_data : Env :=
  {| getenv := fun _ => None;
     requests_installed := true;
     server := fun _ _ =>
       {| latency := 10;
          outcome := Response 200 (Some (JObj [("success", JBool true);
                                               ("data", JNull);
                                               ("usage", JObj [])])) |};
     disk := fun _ => NoFault |}.

Definition client : PixelLabClient :=
  {| api_key := Some "secret"; base_url := BASE_URL |}.

Definition wizard_args : GenerateArgs :=
  {| description := "wizard"; width := Some 128; height := Some 128;
     seed := Some 42; no_background := None; reference_images := None;
     style_image := None; style_options := None |}.

End Samples.

(** ** Notions used in the statements *)

(** The requests the client puts on the wire. *)
Definition post_request (self : PixelLabClient) (endpoint : string)
    (data : option JSON) : HttpRequest :=
  {| req_method := "POST"; req_url := base_url self +:+ endpoint;
     req_headers := request_headers (default "" (api_key self));
     req_params := None; req_json := data |}.

Definition get_request (self : PixelLabClient) (endpoint : string)
    (params : option JSON) : HttpRequest :=
  {| req_method := "GET"; req_url := base_url self +:+ endpoint;
     req_headers := request_headers (default "" (api_key self));
     req_params := params; req_json := None |}.

(** What [_make_request] makes of the outcome of the HTTP call. *)
Definition read_reply (o : HttpOutcome) : Res JSON :=
  match o with
  | NoConnection => Raise ConnectionError
  | Response status body =>
      if (400 <=? status) && (status <? 600) then Raise (HTTPError status)
      else match body with
           | Some j => Ret j
           | None => Raise JSONDecodeError
           end
  end.

(** The state once request [r] has been sent and answered. *)
Definition after_request (env : Env) (r : HttpRequest) (st : State) : State :=
  advance (Z.of_N (latency (server env (length (calls st)) r))) (log_call r st).

(** The arguments the driver passes to [generate_image] for one entry of
    the list, the request that results and the file it writes to. *)
Definition config_args (config : Config) : GenerateArgs :=
  {| description := cfg_description config;
     width := Some (default 128 (cfg_width config));
     height := Some (default 128 (cfg_height config));
     seed := cfg_seed config;
     no_background := None; reference_images := None;
     style_image := None; style_options := None |}.

Definition config_request (client : PixelLabClient) (config : Config)
    : HttpRequest :=
  post_request client "/generate-image-v2"
    (Some (JObj (generate_image_payload (config_args config)))).

Definition output_path (config : Config) : string :=
  path_join IMAGES_DIR
    (output_name (cfg_id config) (default 128 (cfg_width config))
       (default 128 (cfg_height config))).

(** Generation succeeded: the reply to the n-th request reads as a result
    with a first image. *)
Definition generated (env : Env) (client : PixelLabClient) (n : nat)
    (config : Config) : option JSON :=
  match read_reply (outcome (server env n (config_request client config))) with
  | Ret response =>
      match generation_result response with
      | Ret r =>
          if truthy (result_images r) then
            match py_index0 (result_images r) with
            | Ret img => Some img
            | Raise _ => None
            end
          else None
      | Raise _ => None
      end
  | Raise _ => None
  end.

(** Decoding succeeded: the image is a string whose payload is base64. *)
Definition decoded (img : JSON) : option (list Z) :=
  match img with
  | JStr s =>
      match strip_data_url s with
      | Ret payload =>
          match b64decode payload with
          | Ret b => Some b
          | Raise _ => None
          end
      | Raise _ => None
      end
  | _ => None
  end.

(** The write succeeded: the disk takes the file. *)
Definition writable (env : Env) (path : string) : bool :=
  match disk env path with
  | NoFault => true
  | _ => false
  end.

(** The entry of the list whose request is the n-th on the wire had its
    generation, its decoding and its file write all succeed. *)
Definition item_ok (env : Env) (client : PixelLabClient) (n : nat)
    (config : Config) : bool :=
  requests_installed env && str_truthy (api_key client) &&
  match generated env client n config with
  | Some img =>
      match decoded img with
      | Some _ => writable env (output_path config)
      | None => false
      end
  | None => false
  end.

(** The entries that succeed, in the order of the list, when the first of
    them is the n-th request on the wire. *)
Fixpoint successful_items (env : Env) (client : PixelLabClient) (n : nat)
    (gallery : list Config) : list Config :=
  match gallery with
  | [] => []
  | config :: rest =>
      (if item_ok env client n config then [config] else [])
        ++ successful_items env client (S n) rest
  end.

(** What a manifest entry must carry over from its request. *)
Definition entry_core (e : MetadataEntry) : string * Z * Z * option Z :=
  (entry_id e, entry_width e, entry_height e, entry_seed e).

Definition config_core (config : Config) : string * Z * Z * option Z :=
  (cfg_id config, default 128 (cfg_width config),
   default 128 (cfg_height config), cfg_seed config).

(** [st'] differs from [st] at most in the clock and the request log. *)
Definition same_disk_and_output (st st' : State) : Prop :=
  files st' = files st /\ dirs st' = dirs st /\ stdout st' = stdout st.

(** *** The driver *)

(** The exception of a client that cannot send. *)
Definition offline_error (env : Env) : Exn :=
  if requests_installed env then
    ValueError "PIXELLAB_API_KEY not found. Set it in .env or pass to constructor."
  else ImportError.

(** The manifest entry of a request, written at time [stamp]. *)
Definition entry_of (config : Config) (stamp : Z) : MetadataEntry :=
  {| entry_id := cfg_id config;
     entry_filename := path_name (output_path config);
     entry_description := cfg_description config;
     entry_width := default 128 (cfg_width config);
     entry_height := default 128 (cfg_height config);
     entry_seed := cfg_seed config;
     entry_generated_at := stamp |}.

(** The state in which one turn reaches its [try]. *)
Definition announced (config : Config) (st : State) : State :=
  emit (DescriptionLine (py_prefix 60 (cfg_description config)))
    (emit (Generating (cfg_id config)) st).

(** The tally the loop starts from. *)
Definition zero_tally : Tally :=
  {| metadata_images := []; successful := 0; failed := 0 |}.

(** *** Polling *)

(** The status request of a job. *)
Definition poll_request (self : PixelLabClient) (job_id : string)
    : HttpRequest :=
  get_request self ("/background-jobs/" +:+ job_id) None.

(** The status a reply carries: the ["status"] of its ["data"], [None] in
    Python when either is missing.  A reply that is an error, or no JSON
    object, or whose ["data"] is no object, carries none. *)
Definition polled_status (o : HttpOutcome) : option JSON :=
  match read_reply o with
  | Ret (JObj fields) =>
      match lookup_key "data" fields with
      | None => Some JNull
      | Some (JObj d) => Some (default JNull (lookup_key "status" d))
      | Some _ => None
      end
  | _ => None
  end.

(** The data payload of a reply and the error the server reports in it. *)
Definition polled_data (o : HttpOutcome) : JSON :=
  match read_reply o with
  | Ret (JObj fields) => default (JObj []) (lookup_key "data" fields)
  | _ => JObj []
  end.

Definition polled_error (o : HttpOutcome) : JSON :=
  match read_reply o with
  | Ret (JObj fields) => default JNull (lookup_key "error" fields)
  | _ => JNull
  end.

(** A reply with a status that is neither [completed] nor [failed]. *)
Definition pending (o : HttpOutcome) : bool :=
  match polled_status o with
  | Some s => negb (is_str "completed" s) && negb (is_str "failed" s)
  | None => false
  end.

(** Milliseconds from the first poll to poll number [k], when the first
    poll is request number [n] on the wire: each poll waits for its reply
    and then sleeps two seconds. *)
Fixpoint poll_time (env : Env) (r : HttpRequest) (n k : nat) : Z :=
  match k with
  | O => 0
  | S k' =>
      poll_time env r n k'
      + Z.of_N (latency (server env (n + k') r)) + 2000
  end.

(** The state after one poll that goes round again, and after [k] of
    them. *)
Definition one_poll (env : Env) (r : HttpRequest) (st : State) : State :=
  advance 2000 (after_request env r st).

Definition after_polls (env : Env) (r : HttpRequest) (k : nat) (st : State)
    : State :=
  Nat.iter k (one_poll env r) st.

(** The log entries of polls [0] to [k - 1]. *)
Definition poll_log (env : Env) (r : HttpRequest) (n : nat) (start : Z)
    (k : nat) : list (Z * HttpRequest) :=
  map (fun j => (start + poll_time env r n j, r)) (seq 0 k).

(** *** Further notions *)

(** A header looked up by name. *)
Fixpoint lookup_header (k : string) (hs : list (string * string))
    : option string :=
  match hs with
  | [] => None
  | (k', v) :: rest => if String.eqb k k' then Some v else lookup_header k rest
  end.

(** A JSON object, a dictionary in Python. *)
Definition is_object (v : JSON) : bool :=
  match v with
  | JObj _ => true
  | _ => false
  end.

(** * Properties *)

(** ** Splitting at commas *)

Lemma split_on_no_sep (c : ascii) (s : string) :
  contains_char c s = false -> split_on c s = [s].
Proof.
  induction s as [|x rest IH]; simpl; [reflexivity|].
  destruct (Ascii.eqb x c); [discriminate|].
  intros H. rewrite (IH H). reflexivity.
Qed.

Lemma split_on_segment (c : ascii) (a rest : string) :
  contains_char c a = false ->
  split_on c (a +:+ String c rest) = a :: split_on c rest.
Proof.
  induction a as [|x a IH]; simpl.
  - intros _. rewrite Ascii.eqb_refl. reflexivity.
  - destruct (Ascii.eqb x c); [discriminate|].
    intros H. rewrite (IH H). reflexivity.
Qed.

Lemma contains_char_app_sep (c : ascii) (a rest : string) :
  contains_char c (a +:+ String c rest) = true.
Proof.
  induction a as [|x a IH]; simpl.
  - rewrite Ascii.eqb_refl. reflexivity.
  - destruct (Ascii.eqb x c); [reflexivity | exact IH].
Qed.

Lemma contains_char_count (c : ascii) (s : string) :
  contains_char c s = false <-> count_char c s = 0%nat.
Proof.
  induction s as [|x rest IH]; simpl; [tauto|].
  destruct (Ascii.eqb x c); simpl; [split; discriminate | exact IH].
Qed.

(** A string with a separator in it splits at the first one. *)
Lemma first_segment (c : ascii) (s : string) :
  (1 <= count_char c s)%nat ->
  exists a rest, s = a +:+ String c rest /\ contains_char c a = false /\
                 count_char c s = S (count_char c rest).
Proof.
  induction s as [|x s IH]; simpl; [lia|].
  destruct (Ascii.eqb x c) eqn:E.
  - intros _. apply Ascii.eqb_eq in E. subst x.
    exists EmptyString, s. simpl. auto.
  - simpl. intros H. destruct (IH H) as (a & rest & -> & Ha & Hc).
    exists (String x a), rest. simpl. rewrite E. auto.
Qed.

Lemma strip_data_url_no_comma (s : string) :
  contains_char comma s = false -> strip_data_url s = Ret s.
Proof. intros H. unfold strip_data_url. rewrite H. reflexivity. Qed.

Lemma strip_data_url_segments (a b : string) (rest : list string) :
  contains_char comma a = false ->
  forall tail, split_on comma tail = b :: rest ->
  strip_data_url (a +:+ String comma tail) = Ret b.
Proof.
  intros Ha tail Ht. unfold strip_data_url.
  rewrite contains_char_app_sep, (split_on_segment _ _ _ Ha), Ht. reflexivity.
Qed.

(** [save_base64_image] looks at a string only through [strip_data_url]. *)
Lemma save_base64_image_same_payload (env : Env) (s1 s2 path : string)
    (st : State) :
  strip_data_url s1 = strip_data_url s2 ->
  save_base64_image env (JStr s1) path st = save_base64_image env (JStr s2) path st.
Proof.
  intros H. unfold save_base64_image, save_base64_image_try, bind, lift.
  rewrite H. reflexivity.
Qed.

(** What [save_base64_image] does with a string, by the payload that the
    strip step leaves: the payload is decoded, and the bytes are written to
    the path when the disk takes them. *)
Lemma save_base64_image_of_payload (env : Env) (s payload path : string)
    (st : State) :
  strip_data_url s = Ret payload ->
  save_base64_image env (JStr s) path st =
  match b64decode payload with
  | Raise e => (false, emit (ErrorSavingImage e) st)
  | Ret bytes =>
      match disk env path with
      | NoFault => (true, put_file path (Bytes bytes) st)
      | OpenFails => (false, emit (ErrorSavingImage OSError) st)
      | WriteFails =>
          (false, emit (ErrorSavingImage OSError) (put_file path (Bytes []) st))
      end
  end.
Proof.
  intros H. unfold save_base64_image, save_base64_image_try, bind, lift.
  rewrite H. destruct (b64decode payload) as [bytes|e]; [|reflexivity].
  unfold write_file. destruct (disk env path); reflexivity.
Qed.

(** C3.  A base64 payload has no comma in it, and for every string [s]
    without a comma [save_base64_image] strips the prefix of
    ["data:image/png;base64," + s] before it decodes: what it hands to
    [b64decode] is [s], so the file it writes holds the bytes that [s]
    decodes to, the bytes it writes for [s] alone, and when [s] does not
    decode it reports that error and writes nothing.  On
    ["data:image/png;base64,aGVsbG8="] and on ["aGVsbG8="] the bytes
    written are those of ["hello"]. *)
Theorem save_base64_image_strips_prefix (env : Env) (s path : string)
    (st : State) :
  contains_char comma s = false ->
  let prefixed := "data:image/png;base64," +:+ s in
  strip_data_url prefixed = Ret s /\
  strip_data_url s = Ret s /\
  save_base64_image env (JStr prefixed) path st =
    save_base64_image env (JStr s) path st /\
  (forall bytes, b64decode s = Ret bytes -> disk env path = NoFault ->
     save_base64_image env (JStr prefixed) path st =
       (true, put_file path (Bytes bytes) st) /\
     save_base64_image env (JStr s) path st =
       (true, put_file path (Bytes bytes) st) /\
     files (snd (save_base64_image env (JStr prefixed) path st)) !! path =
       Some (Bytes bytes)) /\
  (forall e, b64decode s = Raise e ->
     save_base64_image env (JStr prefixed) path st =
       (false, emit (ErrorSavingImage e) st)) /\
  strip_data_url "data:image/png;base64,aGVsbG8=" = Ret "aGVsbG8=" /\
  b64decode "aGVsbG8=" = Ret [104; 101; 108; 108; 111] /\
  (disk env path = NoFault ->
   save_base64_image env (JStr "data:image/png;base64,aGVsbG8=") path st =
     (true, put_file path (Bytes [104; 101; 108; 108; 111]) st) /\
   save_base64_image env (JStr "aGVsbG8=") path st =
     (true, put_file path (Bytes [104; 101; 108; 108; 111]) st)).
Proof.
  intros Hs prefixed.
  assert (Hp : strip_data_url prefixed = Ret s).
  { change prefixed with ("data:image/png;base64" +:+ String comma s).
    apply strip_data_url_segments with (rest := []); [reflexivity|].
    apply split_on_no_sep, Hs. }
  pose proof (strip_data_url_no_comma s Hs) as Hq.
  split; [exact Hp|]. split; [exact Hq|].
  split; [apply save_base64_image_same_payload; congruence|].
  split; [|split; [|split; [reflexivity|split; [reflexivity|]]]].
  - intros bytes Hb Hd.
    rewrite (save_base64_image_of_payload env prefixed s path st Hp),
      (save_base64_image_of_payload env s s path st Hq), Hb, Hd.
    split; [reflexivity|]. split; [reflexivity|].
    cbn [snd files put_file]. apply lookup_insert_eq.
  - intros e He.
    rewrite (save_base64_image_of_payload env prefixed s path st Hp), He.
    reflexivity.
  - intros Hd.
    rewrite (save_base64_image_of_payload env
               "data:image/png;base64,aGVsbG8=" "aGVsbG8=" path st eq_refl),
      (save_base64_image_of_payload env "aGVsbG8=" "aGVsbG8=" path st eq_refl).
    change (b64decode "aGVsbG8=") with (Ret (A := list Z) [104; 101; 108; 108; 111]).
    rewrite Hd. split; reflexivity.
Qed.

Lemma save_base64_image_strips_prefix_witness :
  contains_char comma "aGVsbG8=" = false /\
  save_base64_image Samples.env_mixed
    (JStr ("data:image/png;base64," +:+ "aGVsbG8=")) "out.png" Samples.st0 =
  (true, put_file "out.png" (Bytes [104; 101; 108; 108; 111]) Samples.st0).
Proof.
  split; [reflexivity|].
  destruct (save_base64_image_strips_prefix Samples.env_mixed "aGVsbG8="
              "out.png" Samples.st0 eq_refl) as (_ & _ & _ & H & _).
  destruct (H [104; 101; 108; 108; 111] eq_refl eq_refl) as (H1 & _).
  exact H1.
Defined.

(** C9.  When the input string has two or more commas, it is
    [a + "," + b + "," + c] with no comma in [a] and [b], and only [b], the
    segment between the first and the second comma, is base64-decoded: the
    file written holds the bytes that [b] decodes to, an error of decoding
    [b] is the error reported, and whatever stands in the place of [c]
    changes nothing. *)
Theorem save_base64_image_second_segment (env : Env) (s path : string)
    (st : State) :
  (2 <= count_char comma s)%nat ->
  exists a b c,
    s = a +:+ String comma (b +:+ String comma c) /\
    contains_char comma a = false /\
    contains_char comma b = false /\
    strip_data_url s = Ret b /\
    save_base64_image env (JStr s) path st =
      save_base64_image env (JStr b) path st /\
    (forall bytes, b64decode b = Ret bytes -> disk env path = NoFault ->
       save_base64_image env (JStr s) path st =
         (true, put_file path (Bytes bytes) st) /\
       files (snd (save_base64_image env (JStr s) path st)) !! path =
         Some (Bytes bytes)) /\
    (forall e, b64decode b = Raise e ->
       save_base64_image env (JStr s) path st =
         (false, emit (ErrorSavingImage e) st)) /\
    (forall c',
       save_base64_image env
         (JStr (a +:+ String comma (b +:+ String comma c'))) path st =
       save_base64_image env (JStr s) path st).
Proof.
  intros H.
  destruct (first_segment comma s) as (a & tail & -> & Ha & Hc); [lia|].
  destruct (first_segment comma tail) as (b & c & -> & Hb & _); [lia|].
  exists a, b, c.
  assert (Hs : forall c',
            strip_data_url (a +:+ String comma (b +:+ String comma c')) = Ret b).
  { intros c'.
    apply strip_data_url_segments with (rest := split_on comma c'); [exact Ha|].
    apply split_on_segment, Hb. }
  split; [reflexivity|]. split; [exact Ha|]. split; [exact Hb|].
  split; [apply Hs|].
  split; [|split; [|split]].
  - apply save_base64_image_same_payload.
    rewrite Hs. symmetry. apply strip_data_url_no_comma, Hb.
  - intros bytes Hbytes Hd.
    rewrite (save_base64_image_of_payload env _ b path st (Hs c)), Hbytes, Hd.
    split; [reflexivity|]. cbn [snd files put_file]. apply lookup_insert_eq.
  - intros e He.
    rewrite (save_base64_image_of_payload env _ b path st (Hs c)), He.
    reflexivity.
  - intros c'. apply save_base64_image_same_payload. rewrite !Hs. reflexivity.
Qed.

Lemma save_base64_image_second_segment_witness :
  save_base64_image Samples.env_mixed (JStr "x,aGVsbG8=,d29ybGQ=") "out.png"
    Samples.st0 =
  (true, put_file "out.png" (Bytes [104; 101; 108; 108; 111]) Samples.st0).
Proof.
  assert (Hn : (2 <= count_char comma "x,aGVsbG8=,d29ybGQ=")%nat)
    by (vm_compute; lia).
  destruct (save_base64_image_second_segment Samples.env_mixed
              "x,aGVsbG8=,d29ybGQ=" "out.png" Samples.st0 Hn)
    as (a & b & c & _ & _ & _ & Hstrip & _ & Hok & _).
  assert (Hb : b = "aGVsbG8=") by (vm_compute in Hstrip; congruence).
  destruct (Hok [104; 101; 108; 108; 111]) as (H1 & _).
  - rewrite Hb. reflexivity.
  - reflexivity.
  - exact H1.
Defined.

(** ** The client on the wire *)

Section Wire.

Variable env : Env.
Variable self : PixelLabClient.
Hypothesis Hinstalled : requests_installed env = true.
Hypothesis Hkey : str_truthy (api_key self) = true.

Lemma send_spec (r : HttpRequest) (st : State) :
  send env r st =
  (match outcome (server env (length (calls st)) r) with
   | NoConnection => Raise ConnectionError
   | Response status body => Ret (status, body)
   end, after_request env r st).
Proof.
  unfold send, after_request.
  destruct (outcome (server env (length (calls st)) r)); reflexivity.
Qed.

Lemma make_request_post (endpoint : string) (data params : option JSON)
    (st : State) :
  _make_request env self "POST" endpoint data params st =
  (read_reply (outcome (server env (length (calls st))
                          (post_request self endpoint data))),
   after_request env (post_request self endpoint data) st).
Proof.
  unfold _make_request. rewrite Hinstalled, Hkey. cbn [negb].
  change (String.eqb "POST" "GET") with false.
  change (String.eqb "POST" "POST") with true. cbv iota.
  unfold bind. fold (post_request self endpoint data). rewrite send_spec.
  unfold read_reply, raise_for_status, response_json, raise, ret.
  destruct (outcome _) as [|status body]; [reflexivity|]. cbn [fst snd].
  destruct ((400 <=? status) && (status <? 600)); [reflexivity|].
  destruct body; reflexivity.
Qed.

Lemma make_request_get (endpoint : string) (data params : option JSON)
    (st : State) :
  _make_request env self "GET" endpoint data params st =
  (read_reply (outcome (server env (length (calls st))
                          (get_request self endpoint params))),
   after_request env (get_request self endpoint params) st).
Proof.
  unfold _make_request. rewrite Hinstalled, Hkey. cbn [negb].
  change (String.eqb "GET" "GET") with true. cbv iota.
  unfold bind. fold (get_request self endpoint params). rewrite send_spec.
  unfold read_reply, raise_for_status, response_json, raise, ret.
  destruct (outcome _) as [|status body]; [reflexivity|]. cbn [fst snd].
  destruct ((400 <=? status) && (status <? 600)); [reflexivity|].
  destruct body; reflexivity.
Qed.

(** [generate_image] is one POST and a reading of its reply. *)
Lemma generate_image_spec (a : GenerateArgs) (st : State) :
  let r := post_request self "/generate-image-v2"
             (Some (JObj (generate_image_payload a))) in
  let st1 := emit (LiveCalling (py_prefix 50 (description a))) st in
  generate_image env self a st =
  (match read_reply (outcome (server env (length (calls st)) r)) with
   | Ret response => generation_result response
   | Raise e => Raise e
   end, after_request env r st1).
Proof.
  intros r st1. unfold generate_image, bind, print.
  fold st1. rewrite make_request_post. fold r.
  change (length (calls st1)) with (length (calls st)).
  destruct (read_reply _); reflexivity.
Qed.

End Wire.

(** ** The body of a generation request *)

(** C5, as the code has it.  [generate_image] sends one POST whose body is
    the payload; the payload holds [description] and an [image_size] object
    built from [width] and [height]; [seed] is in the body exactly when a
    seed was given; each of the other optional fields is in the body exactly
    when the value given is true in Python's sense ([True], a non-empty list
    or dictionary); and no key of the body holds [None]. *)
Theorem generate_image_request_body (env : Env) (self : PixelLabClient)
    (a : GenerateArgs) (st : State) :
  requests_installed env = true ->
  str_truthy (api_key self) = true ->
  let payload := generate_image_payload a in
  calls (snd (generate_image env self a st)) =
    calls st ++ [(now st, post_request self "/generate-image-v2"
                            (Some (JObj payload)))] /\
  lookup_key "description" payload = Some (JStr (description a)) /\
  lookup_key "image_size" payload =
    Some (JObj [("width", JNum (default 64 (width a)));
                ("height", JNum (default 64 (height a)))]) /\
  lookup_key "seed" payload = option_map JNum (seed a) /\
  lookup_key "no_background" payload =
    (if default false (no_background a) then Some (JBool true) else None) /\
  lookup_key "reference_images" payload =
    match reference_images a with
    | Some (x :: l) => Some (JArr (x :: l))
    | _ => None
    end /\
  lookup_key "style_image" payload =
    match style_image a with
    | Some (x :: l) => Some (JObj (x :: l))
    | _ => None
    end /\
  lookup_key "style_options" payload =
    match style_options a with
    | Some (x :: l) => Some (JObj (x :: l))
    | _ => None
    end /\
  Forall (fun kv => snd kv <> JNull) payload.
Proof.
  intros Hi Hk payload. split.
  - rewrite (generate_image_spec env self Hi Hk). reflexivity.
  - subst payload.
    destruct a as [d w h [s|] [[|]|] [[|x1 l1]|] [[|x2 l2]|] [[|x3 l3]|]];
      cbn; repeat split; repeat constructor; discriminate.
Qed.

Lemma generate_image_request_body_witness :
  calls (snd (generate_image Samples.env_mixed Samples.client
                Samples.wizard_args Samples.st0)) =
    [(0, post_request Samples.client "/generate-image-v2"
           (Some (JObj [("description", JStr "wizard");
                        ("image_size", JObj [("width", JNum 128);
                                             ("height", JNum 128)]);
                        ("seed", JNum 42)])))].
Proof.
  apply (generate_image_request_body Samples.env_mixed Samples.client
           Samples.wizard_args Samples.st0); reflexivity.
Defined.

(** C5 as stated fails: a caller who passes [reference_images=[]] has
    provided the argument, and the key is left out of the body. *)
Lemma generate_image_drops_provided_empty_list :
  ~ (forall a : GenerateArgs,
       is_Some (lookup_key "reference_images" (generate_image_payload a)) <->
       is_Some (reference_images a)).
Proof.
  intros H.
  destruct (proj2 (H {| description := "wizard"; width := None; height := None;
                        seed := None; no_background := None;
                        reference_images := Some [];
                        style_image := None; style_options := None |}))
    as [v Hv].
  - exists []. reflexivity.
  - discriminate Hv.
Qed.

(** ** The result of a generation request *)

(** C6, as the code has it.  When the server answers the POST with a
    status outside 400..599 (every 2xx is) and a JSON object,
    [generate_image] reads the result off it with a default for every key
    that is missing: [images] is [data.images], or the empty list when
    ["data"] or ["images"] is missing; [usage] is the envelope's, or the
    empty mapping; [success] is the envelope's flag, or [False].  The
    defaults stand in for missing keys only: a ["data"] that is present and
    is no object ([null] included) raises [AttributeError], and so does a
    body that is no object. *)
Theorem generate_image_result (env : Env) (self : PixelLabClient)
    (a : GenerateArgs) (st : State) (status : Z) (body : JSON) :
  requests_installed env = true ->
  str_truthy (api_key self) = true ->
  outcome (server env (length (calls st))
             (post_request self "/generate-image-v2"
                (Some (JObj (generate_image_payload a))))) =
    Response status (Some body) ->
  status < 400 \/ 600 <= status ->
  fst (generate_image env self a st) =
  match body with
  | JObj fields =>
      match lookup_key "data" fields with
      | None =>
          Ret {| result_images := JArr [];
                 result_usage := default (JObj []) (lookup_key "usage" fields);
                 result_success :=
                   default (JBool false) (lookup_key "success" fields) |}
      | Some (JObj d) =>
          Ret {| result_images := default (JArr []) (lookup_key "images" d);
                 result_usage := default (JObj []) (lookup_key "usage" fields);
                 result_success :=
                   default (JBool false) (lookup_key "success" fields) |}
      | Some _ => Raise AttributeError
      end
  | _ => Raise AttributeError
  end.
Proof.
  intros Hi Hk Hreply Hstatus.
  rewrite (generate_image_spec env self Hi Hk). cbn [fst]. rewrite Hreply.
  unfold read_reply.
  replace ((400 <=? status) && (status <? 600)) with false
    by (symmetry; apply andb_false_iff; lia).
  unfold generation_result, py_get.
  destruct body as [| | | | |fields]; try reflexivity.
  destruct (lookup_key "data" fields) as [[| | | | |d]|].
  1-5: reflexivity.
  - destruct (lookup_key "images" d), (lookup_key "usage" fields),
      (lookup_key "success" fields); reflexivity.
  - cbn. destruct (lookup_key "usage" fields), (lookup_key "success" fields);
      reflexivity.
Qed.

Lemma generate_image_result_witness :
  fst (generate_image Samples.env_no_key Samples.client Samples.wizard_args
         Samples.st0) =
  Ret {| result_images := JArr []; result_usage := JObj [];
         result_success := JBool false |}.
Proof.
  apply (generate_image_result Samples.env_no_key Samples.client
           Samples.wizard_args Samples.st0 200
           (JObj [("data", JObj [("credits", JNum 5)])])).
  - reflexivity.
  - reflexivity.
  - reflexivity.
  - left. lia.
Defined.

(** C6 as stated fails: a 200 reply whose envelope carries ["data": null]
    is a successful response, and [generate_image] raises [AttributeError]
    on it instead of returning a result. *)
Lemma generate_image_fails_on_null_data :
  ~ (forall (env : Env) (self : PixelLabClient) (a : GenerateArgs)
            (st : State) (status : Z) (fields : list (string * JSON)),
       requests_installed env = true ->
       str_truthy (api_key self) = true ->
       outcome (server env (length (calls st))
                  (post_request self "/generate-image-v2"
                     (Some (JObj (generate_image_payload a))))) =
         Response status (Some (JObj fields)) ->
       200 <= status < 300 ->
       exists r, fst (generate_image env self a st) = Ret r).
Proof.
  intros H.
  destruct (H Samples.env_null_data Samples.client Samples.wizard_args
              Samples.st0 200
              [("success", JBool true); ("data", JNull); ("usage", JObj [])])
    as [r Hr]; try reflexivity; [lia|].
  assert (E : fst (generate_image Samples.env_null_data Samples.client
                     Samples.wizard_args Samples.st0) = Raise AttributeError)
    by (vm_compute; reflexivity).
  rewrite E in Hr. discriminate Hr.
Qed.

(** ** Starting without a key *)

(** C7.  With no PIXELLAB_API_KEY in the environment, [generate_gallery]
    ends in [sys.exit(1)], a non-zero status; by then it has sent no
    request, has written no file and has created no directory. *)
Theorem generate_gallery_without_key (env : Env) (st : State) :
  getenv env "PIXELLAB_API_KEY" = None ->
  fst (generate_gallery env st) = Exited 1 /\
  (1 <> 0) /\
  calls (snd (generate_gallery env st)) = calls st /\
  files (snd (generate_gallery env st)) = files st /\
  dirs (snd (generate_gallery env st)) = dirs st /\
  stdout (snd (generate_gallery env st)) = stdout st ++ [KeyMissingHelp].
Proof.
  intros H. unfold generate_gallery, generate_gallery_on. rewrite H. cbn.
  repeat split. lia.
Qed.

Lemma generate_gallery_without_key_witness :
  fst (generate_gallery Samples.env_no_key Samples.st0) = Exited 1 /\
  calls (snd (generate_gallery Samples.env_no_key Samples.st0)) = [].
Proof.
  destruct (generate_gallery_without_key Samples.env_no_key Samples.st0)
    as (H1 & _ & H2 & _); [reflexivity|].
  split; [exact H1 | exact H2].
Defined.

(** ** What a request leaves untouched *)

Lemma make_request_cases (env : Env) (self : PixelLabClient)
    (method endpoint : string) (data params : option JSON) (st : State) :
  (exists e, _make_request env self method endpoint data params st = (Raise e, st)) \/
  (requests_installed env = true /\ str_truthy (api_key self) = true /\
   exists r, _make_request env self method endpoint data params st =
             (read_reply (outcome (server env (length (calls st)) r)),
              after_request env r st)).
Proof.
  unfold _make_request.
  destruct (requests_installed env); cbn [negb]; [|left; eexists; reflexivity].
  destruct (str_truthy (api_key self)); cbn [negb]; [|left; eexists; reflexivity].
  destruct (String.eqb method "GET"); [|destruct (String.eqb method "POST")].
  3: left; eexists; reflexivity.
  1: right; split; [reflexivity|]; split; [reflexivity|];
     exists (get_request self endpoint params).
  2: right; split; [reflexivity|]; split; [reflexivity|];
     exists (post_request self endpoint data).
  all: unfold bind, get_request, post_request; rewrite send_spec;
    unfold read_reply, raise_for_status, response_json, raise, ret;
    (destruct (outcome _) as [|status body]; [reflexivity|]); cbn [fst snd];
    (destruct ((400 <=? status) && (status <? 600)); [reflexivity|]);
    destruct body; reflexivity.
Qed.

Lemma make_request_frame (env : Env) (self : PixelLabClient)
    (method endpoint : string) (data params : option JSON) (st : State) :
  same_disk_and_output st
    (snd (_make_request env self method endpoint data params st)).
Proof.
  destruct (make_request_cases env self method endpoint data params st)
    as [[e ->] | (_ & _ & r & ->)]; repeat split.
Qed.

Lemma generate_image_cases (env : Env) (self : PixelLabClient)
    (a : GenerateArgs) (st : State) :
  let r := post_request self "/generate-image-v2"
             (Some (JObj (generate_image_payload a))) in
  let st1 := emit (LiveCalling (py_prefix 50 (description a))) st in
  (requests_installed env && str_truthy (api_key self) = false /\
   generate_image env self a st = (Raise (offline_error env), st1)) \/
  (requests_installed env = true /\ str_truthy (api_key self) = true /\
   generate_image env self a st =
   (match read_reply (outcome (server env (length (calls st)) r)) with
    | Ret response => generation_result response
    | Raise e => Raise e
    end, after_request env r st1)).
Proof.
  intros r st1. unfold offline_error.
  destruct (requests_installed env) eqn:Hi;
    [destruct (str_truthy (api_key self)) eqn:Hk|].
  - right. split; [reflexivity|]. split; [reflexivity|].
    apply generate_image_spec; assumption.
  - left. split; [reflexivity|].
    unfold generate_image, _make_request, bind, print. rewrite Hi, Hk.
    reflexivity.
  - left. split; [reflexivity|].
    unfold generate_image, _make_request, bind, print. rewrite Hi.
    reflexivity.
Qed.

(** ** Saving one image *)

Lemma save_base64_image_try_spec (env : Env) (img : JSON) (path : string)
    (st : State) :
  match decoded img with
  | Some b =>
      save_base64_image_try env img path st =
      write_file env path (Bytes b) st
  | None => exists e, save_base64_image_try env img path st = (Raise e, st)
  end.
Proof.
  unfold decoded, save_base64_image_try.
  destruct img as [| | |s|l|d]; try (eexists; reflexivity).
  - unfold bind, lift. destruct (strip_data_url s) as [payload|e];
      [|eexists; reflexivity].
    destruct (b64decode payload); [reflexivity | eexists; reflexivity].
  - destruct (existsb _ l); eexists; reflexivity.
  - destruct (existsb _ d); eexists; reflexivity.
Qed.

(** Saving answers [True] exactly when the image decodes and the disk takes
    the file; it sends nothing and only adds to standard output. *)
Lemma save_base64_image_spec (env : Env) (img : JSON) (path : string)
    (st : State) :
  let st' := snd (save_base64_image env img path st) in
  fst (save_base64_image env img path st) =
    match decoded img with
    | Some _ => writable env path
    | None => false
    end /\
  calls st' = calls st /\ now st' = now st /\ dirs st' = dirs st /\
  (exists l, stdout st' = stdout st ++ l) /\
  (forall p, p <> path -> files st' !! p = files st !! p) /\
  (decoded img = None -> files st' = files st).
Proof.
  unfold save_base64_image.
  pose proof (save_base64_image_try_spec env img path st) as H.
  destruct (decoded img) as [b|].
  - rewrite H. unfold write_file, writable.
    destruct (disk env path); cbn; repeat split;
      try (exists []; symmetry; apply app_nil_r);
      try (eexists; reflexivity);
      try discriminate;
      intros p Hp; try reflexivity; apply lookup_insert_ne; congruence.
  - destruct H as [e ->]. cbn. repeat split. eexists; reflexivity.
Qed.

(** ** One turn of the loop *)

Lemma generate_one_try_unfold (env : Env) (client : PixelLabClient)
    (config : Config) (t : Tally) (st : State) :
  generate_one_try env client config t st =
  match generate_image env client (config_args config) st with
  | (Raise e, st1) => (Raise e, st1)
  | (Ret r, st1) =>
      if truthy (result_images r) then
        match py_index0 (result_images r) with
        | Raise e => (Raise e, st1)
        | Ret img =>
            let st2 := snd (save_base64_image env img (output_path config) st1) in
            if fst (save_base64_image env img (output_path config) st1) then
              (Ret (count_successful (entry_of config (now st2)) t),
               emit (Saved (path_name (output_path config))) st2)
            else
              (Ret (count_failed t), emit (FailedToSave (cfg_id config)) st2)
        end
      else (Ret (count_failed t), emit (NoImagesReturned (cfg_id config)) st1)
  end.
Proof.
  unfold generate_one_try, bind, config_args, output_path, entry_of.
  destruct (generate_image env client _ st) as [[r|e] st1]; [|reflexivity].
  destruct (truthy (result_images r)); cbn [negb]; [|reflexivity].
  unfold lift. destruct (py_index0 (result_images r)) as [img|e]; [|reflexivity].
  destruct (save_base64_image env img _ st1) as [[|] st2]; reflexivity.
Qed.

Lemma generate_one_unfold (env : Env) (client : PixelLabClient)
    (config : Config) (t : Tally) (st : State) :
  generate_one env client config t st =
  match generate_one_try env client config t (announced config st) with
  | (Ret t', st') => (t', st')
  | (Raise e, st') =>
      (count_failed t, emit (ErrorGenerating (cfg_id config) e) st')
  end.
Proof. reflexivity. Qed.

(** The answer of [generate_image] depends on the state only through the
    number of requests sent so far. *)
Lemma generate_image_fst (env : Env) (self : PixelLabClient)
    (a : GenerateArgs) (st st' : State) :
  length (calls st) = length (calls st') ->
  fst (generate_image env self a st) = fst (generate_image env self a st').
Proof.
  intros H.
  destruct (generate_image_cases env self a st) as [(Hoff & ->) | (Hi & Hk & ->)].
  - destruct (generate_image_cases env self a st')
      as [(_ & ->) | (Hi & Hk & _)]; [reflexivity|].
    rewrite Hi, Hk in Hoff. discriminate.
  - rewrite (generate_image_spec env self Hi Hk). cbn [fst]. rewrite H.
    reflexivity.
Qed.

Lemma generate_image_frame (env : Env) (self : PixelLabClient)
    (a : GenerateArgs) (st : State) :
  let st' := snd (generate_image env self a st) in
  files st' = files st /\ dirs st' = dirs st /\
  stdout st' = stdout st ++ [LiveCalling (py_prefix 50 (description a))] /\
  length (calls st') =
    (if requests_installed env && str_truthy (api_key self)
     then S (length (calls st)) else length (calls st)).
Proof.
  destruct (generate_image_cases env self a st)
    as [(Hoff & ->) | (Hi & Hk & ->)]; cbn [snd].
  - rewrite Hoff. repeat split.
  - rewrite Hi, Hk. cbn. repeat split.
    rewrite length_app. cbn. lia.
Qed.

Lemma generate_one_eq (env : Env) (client : PixelLabClient)
    (config : Config) (t : Tally) (st : State) :
  generate_one env client config t st =
  match generate_image env client (config_args config) (announced config st) with
  | (Raise e, st1) =>
      (count_failed t, emit (ErrorGenerating (cfg_id config) e) st1)
  | (Ret r, st1) =>
      if truthy (result_images r) then
        match py_index0 (result_images r) with
        | Raise e =>
            (count_failed t, emit (ErrorGenerating (cfg_id config) e) st1)
        | Ret img =>
            let st2 := snd (save_base64_image env img (output_path config) st1) in
            if fst (save_base64_image env img (output_path config) st1) then
              (count_successful (entry_of config (now st2)) t,
               emit (Saved (path_name (output_path config))) st2)
            else
              (count_failed t, emit (FailedToSave (cfg_id config)) st2)
        end
      else (count_failed t, emit (NoImagesReturned (cfg_id config)) st1)
  end.
Proof.
  rewrite generate_one_unfold, generate_one_try_unfold.
  destruct (generate_image env client _ _) as [[r|e] st1]; [|reflexivity].
  destruct (truthy (result_images r)); [|reflexivity].
  destruct (py_index0 (result_images r)) as [img|e]; [|reflexivity].
  cbv zeta. destruct (fst (save_base64_image env img _ st1)); reflexivity.
Qed.

(** Every turn moves the tally by one failure or by one success. *)
Lemma generate_one_counts (env : Env) (client : PixelLabClient)
    (config : Config) (t : Tally) (st : State) :
  let t' := fst (generate_one env client config t st) in
  t' = count_failed t \/ exists stamp, t' = count_successful (entry_of config stamp) t.
Proof.
  cbv zeta. rewrite generate_one_eq.
  destruct (generate_image env client _ _) as [[r|e] st1]; [|left; reflexivity].
  destruct (truthy (result_images r)); [|left; reflexivity].
  destruct (py_index0 (result_images r)) as [img|e]; [|left; reflexivity].
  cbv zeta. destruct (fst (save_base64_image env img _ st1));
    [right; eexists; reflexivity | left; reflexivity].
Qed.

(** Every turn announces its request on standard output, sends at most the
    one request of [generate_image], and creates no directory. *)
Lemma generate_one_frame (env : Env) (client : PixelLabClient)
    (config : Config) (t : Tally) (st : State) :
  let st' := snd (generate_one env client config t st) in
  length (calls st') =
    (if requests_installed env && str_truthy (api_key client)
     then S (length (calls st)) else length (calls st)) /\
  dirs st' = dirs st /\
  (exists l, stdout st' = stdout st ++ Generating (cfg_id config) :: l).
Proof.
  cbv zeta. rewrite generate_one_eq.
  pose proof (generate_image_frame env client (config_args config)
                (announced config st)) as (Ff & Fd & Fo & Fc).
  destruct (generate_image env client _ _) as [[r|e] st1]; cbn [snd] in *.
  2:{ split; [exact Fc|]. split; [exact Fd|]. cbn. rewrite Fo. cbn.
      rewrite <- !app_assoc. eexists. reflexivity. }
  destruct (truthy (result_images r)).
  2:{ split; [exact Fc|]. split; [exact Fd|]. cbn. rewrite Fo. cbn.
      rewrite <- !app_assoc. eexists. reflexivity. }
  destruct (py_index0 (result_images r)) as [img|e].
  2:{ split; [exact Fc|]. split; [exact Fd|]. cbn. rewrite Fo. cbn.
      rewrite <- !app_assoc. eexists. reflexivity. }
  pose proof (save_base64_image_spec env img (output_path config) st1)
    as (_ & Sc & _ & Sd & (l & So) & _).
  cbv zeta.
  destruct (fst (save_base64_image env img _ st1)); cbn [snd];
    (split; [cbn; rewrite Sc; exact Fc|]);
    (split; [cbn; rewrite Sd; exact Fd|]);
    cbn; rewrite So, Fo; cbn; rewrite <- !app_assoc; eexists; reflexivity.
Qed.

(** A turn succeeds exactly when generation, decoding and the file write
    of its request all succeed. *)
Lemma generate_one_item_ok (env : Env) (client : PixelLabClient)
    (config : Config) (t : Tally) (st : State) :
  exists stamp,
    fst (generate_one env client config t st) =
    if item_ok env client (length (calls st)) config
    then count_successful (entry_of config stamp) t
    else count_failed t.
Proof.
  rewrite generate_one_eq. unfold item_ok, generated.
  destruct (generate_image_cases env client (config_args config)
              (announced config st)) as [(Hoff & ->) | (Hi & Hk & ->)].
  - rewrite Hoff. exists 0. reflexivity.
  - rewrite Hi, Hk. cbn [andb].
    change (length (calls (announced config st))) with (length (calls st)).
    fold (config_request client config).
    destruct (read_reply _) as [response|e]; [|exists 0; reflexivity].
    destruct (generation_result response) as [r|e]; [|exists 0; reflexivity].
    destruct (truthy (result_images r)); [|exists 0; reflexivity].
    destruct (py_index0 (result_images r)) as [img|e]; [|exists 0; reflexivity].
    cbv zeta.
    match goal with
    | |- context [save_base64_image env img (output_path config) ?s] =>
        pose proof (save_base64_image_spec env img (output_path config) s)
          as (Sf & _)
    end.
    rewrite Sf.
    destruct (decoded img); [|exists 0; reflexivity].
    destruct (writable env (output_path config));
      [eexists; reflexivity | exists 0; reflexivity].
Qed.

(** A turn whose result has no images counts a failure and leaves the disk
    as it was. *)
Lemma generate_one_no_images (env : Env) (client : PixelLabClient)
    (config : Config) (t : Tally) (st : State) (r : GenerationResult) :
  fst (generate_image env client (config_args config) st) = Ret r ->
  truthy (result_images r) = false ->
  fst (generate_one env client config t st) = count_failed t /\
  files (snd (generate_one env client config t st)) = files st /\
  In (NoImagesReturned (cfg_id config))
     (stdout (snd (generate_one env client config t st))).
Proof.
  intros Hr Htr. rewrite generate_one_eq.
  rewrite (generate_image_fst env client (config_args config) st
             (announced config st) eq_refl) in Hr.
  pose proof (generate_image_frame env client (config_args config)
                (announced config st)) as (Ff & _).
  destruct (generate_image env client _ _) as [[r'|e] st1]; cbn [fst snd] in *;
    [|discriminate].
  injection Hr as ->. rewrite Htr. cbn [fst snd].
  split; [reflexivity|]. split; [exact Ff|].
  cbn. apply in_or_app. right. left. reflexivity.
Qed.

(** ** The loop *)

Lemma gallery_loop_app (env : Env) (client : PixelLabClient)
    (l1 l2 : list Config) (t : Tally) (st : State) :
  gallery_loop env client (l1 ++ l2) t st =
  gallery_loop env client l2 (fst (gallery_loop env client l1 t st))
    (snd (gallery_loop env client l1 t st)).
Proof.
  revert t st. induction l1 as [|c l1 IH]; intros t st; [reflexivity|].
  cbn. destruct (generate_one env client c t st) as [t' st']. apply IH.
Qed.

Lemma gallery_loop_cons (env : Env) (client : PixelLabClient)
    (c : Config) (l : list Config) (t : Tally) (st : State) :
  gallery_loop env client (c :: l) t st =
  gallery_loop env client l (fst (generate_one env client c t st))
    (snd (generate_one env client c t st)).
Proof. cbn. destruct (generate_one env client c t st). reflexivity. Qed.

(** The two counters together grow by the length of the list. *)
Lemma gallery_loop_counts (env : Env) (client : PixelLabClient)
    (gallery : list Config) (t : Tally) (st : State) :
  let t' := fst (gallery_loop env client gallery t st) in
  successful t' + failed t' =
    successful t + failed t + Z.of_nat (length gallery) /\
  successful t' =
    successful t + Z.of_nat (length (metadata_images t'))
      - Z.of_nat (length (metadata_images t)).
Proof.
  revert t st. induction gallery as [|c l IH]; intros t st.
  - cbn. lia.
  - cbv zeta. rewrite gallery_loop_cons.
    destruct (IH (fst (generate_one env client c t st))
                 (snd (generate_one env client c t st))) as [IH1 IH2].
    cbv zeta in IH1, IH2. rewrite IH1, IH2.
    destruct (generate_one_counts env client c t st) as [-> | [stamp ->]];
      cbn [successful failed metadata_images count_failed count_successful length];
      rewrite ?length_app; cbn [length]; lia.
Qed.

(** The loop sends one request per entry when the client can send at all,
    creates no directory, and announces every entry of the list. *)
Lemma gallery_loop_frame (env : Env) (client : PixelLabClient)
    (gallery : list Config) (t : Tally) (st : State) :
  let st' := snd (gallery_loop env client gallery t st) in
  length (calls st') =
    (if requests_installed env && str_truthy (api_key client)
     then (length (calls st) + length gallery)%nat else length (calls st)) /\
  dirs st' = dirs st /\
  (exists l, stdout st' = stdout st ++ l) /\
  (forall c, In c gallery -> In (Generating (cfg_id c)) (stdout st')).
Proof.
  revert t st. induction gallery as [|c l IH]; intros t st.
  - cbn. repeat split; try tauto.
    + destruct (_ && _); lia.
    + exists []. symmetry. apply app_nil_r.
  - cbv zeta. rewrite gallery_loop_cons.
    destruct (generate_one_frame env client c t st) as (Hc & Hd & (o & Ho)).
    destruct (IH (fst (generate_one env client c t st))
                 (snd (generate_one env client c t st)))
      as (IHc & IHd & (o' & IHo) & IHin).
    cbv zeta in *. split; [|split; [|split]].
    + rewrite IHc, Hc. destruct (_ && _); cbn [length]; lia.
    + congruence.
    + rewrite IHo, Ho, <- app_assoc. eexists. reflexivity.
    + intros c' [<- | Hin]; [|apply IHin, Hin].
      rewrite IHo, Ho. apply in_or_app. left. apply in_or_app. right.
      left. reflexivity.
Qed.

Lemma item_ok_offline (env : Env) (client : PixelLabClient) (n : nat)
    (config : Config) :
  requests_installed env && str_truthy (api_key client) = false ->
  item_ok env client n config = false.
Proof. intros H. unfold item_ok. rewrite H. reflexivity. Qed.

Lemma entry_core_entry_of (config : Config) (stamp : Z) :
  entry_core (entry_of config stamp) = config_core config.
Proof. reflexivity. Qed.

(** The entries the loop appends are those of the successful requests, in
    the order of the list. *)
Lemma gallery_loop_manifest (env : Env) (client : PixelLabClient)
    (gallery : list Config) (t : Tally) (st : State) (n : nat) :
  (requests_installed env && str_truthy (api_key client) = true ->
   n = length (calls st)) ->
  map entry_core (metadata_images (fst (gallery_loop env client gallery t st))) =
  map entry_core (metadata_images t) ++
  map config_core (successful_items env client n gallery).
Proof.
  revert t st n. induction gallery as [|c l IH]; intros t st n Hn.
  - cbn. symmetry. apply app_nil_r.
  - rewrite gallery_loop_cons.
    destruct (generate_one_frame env client c t st) as (Hc & _).
    destruct (generate_one_item_ok env client c t st) as (stamp & Ht).
    cbv zeta in Hc.
    rewrite (IH _ _ (S n)).
    2:{ intros Hon. rewrite Hc, Hon, (Hn Hon). reflexivity. }
    rewrite Ht. cbn [successful_items].
    assert (Hsame : item_ok env client (length (calls st)) c = item_ok env client n c).
    { destruct (requests_installed env && str_truthy (api_key client)) eqn:Hon.
      - rewrite (Hn eq_refl). reflexivity.
      - rewrite !item_ok_offline by assumption. reflexivity. }
    rewrite Hsame. destruct (item_ok env client n c).
    + cbn [count_successful metadata_images]. rewrite !map_app. cbn [map].
      rewrite entry_core_entry_of, <- app_assoc. reflexivity.
    + reflexivity.
Qed.

(** ** The balance check *)

(** The answer of a request depends on the state only through the number
    of requests sent so far. *)
Lemma make_request_fst (env : Env) (self : PixelLabClient)
    (method endpoint : string) (data params : option JSON) (st st' : State) :
  length (calls st) = length (calls st') ->
  fst (_make_request env self method endpoint data params st) =
  fst (_make_request env self method endpoint data params st').
Proof.
  intros H. unfold _make_request.
  destruct (requests_installed env); cbn [negb]; [|reflexivity].
  destruct (str_truthy (api_key self)); cbn [negb]; [|reflexivity].
  destruct (String.eqb method "GET"); [|destruct (String.eqb method "POST")].
  3: reflexivity.
  all: unfold bind; rewrite !send_spec, H;
    destruct (outcome _) as [|status body]; [reflexivity|]; cbn [fst snd];
    unfold raise_for_status, raise, ret;
    destruct ((400 <=? status) && (status <? 600)); [reflexivity|];
    destruct body; reflexivity.
Qed.

Lemma make_request_calls (env : Env) (self : PixelLabClient)
    (endpoint : string) (data params : option JSON) (st : State) :
  length (calls (snd (_make_request env self "GET" endpoint data params st))) =
  (if requests_installed env && str_truthy (api_key self)
   then S (length (calls st)) else length (calls st)).
Proof.
  destruct (requests_installed env) eqn:Hi;
    [destruct (str_truthy (api_key self)) eqn:Hk|].
  - rewrite (make_request_get env self Hi Hk). cbn.
    rewrite length_app. cbn. lia.
  - unfold _make_request. rewrite Hi, Hk. reflexivity.
  - unfold _make_request. rewrite Hi. reflexivity.
Qed.

Lemma get_balance_fst (env : Env) (self : PixelLabClient) (st : State) :
  fst (get_balance env self st) =
  match fst (_make_request env self "GET" "/balance" None None st) with
  | Ret response => py_get response "data" (JObj [])
  | Raise e => Raise e
  end.
Proof.
  unfold get_balance, bind, lift.
  destruct (_make_request env self "GET" "/balance" None None st)
    as [[response|e] st1]; reflexivity.
Qed.

(** The balance check never raises: it sends its one request, prints the
    balance or a warning, and leaves the disk alone. *)
Lemma check_balance_frame (env : Env) (client : PixelLabClient) (st : State) :
  let st' := check_balance env client st in
  files st' = files st /\ dirs st' = dirs st /\
  length (calls st') =
    (if requests_installed env && str_truthy (api_key client)
     then S (length (calls st)) else length (calls st)) /\
  stdout st' =
    stdout st ++
    [CheckingBalance;
     match fst (get_balance env client st) with
     | Ret balance => BalanceLine balance
     | Raise e => BalanceWarning e
     end].
Proof.
  cbv zeta. rewrite (get_balance_fst env client st).
  rewrite (make_request_fst env client "GET" "/balance" None None st
             (emit CheckingBalance st) eq_refl).
  unfold check_balance, get_balance, bind, lift.
  pose proof (make_request_frame env client "GET" "/balance" None None
                (emit CheckingBalance st)) as (Mf & Md & Mo).
  pose proof (make_request_calls env client "/balance" None None
                (emit CheckingBalance st)) as Hcalls.
  destruct (_make_request env client "GET" "/balance" None None
              (emit CheckingBalance st)) as [[response|e] st1];
    cbn [fst snd] in *.
  - destruct (py_get response "data" (JObj [])); cbn;
      rewrite Mf, Md, Mo, Hcalls; cbn; rewrite <- app_assoc; repeat split.
  - cbn. rewrite Mf, Md, Mo, Hcalls. cbn. rewrite <- app_assoc. repeat split.
Qed.

(** ** A whole run *)

(** With a key, a directory that can be made and a manifest that can be
    written, the run goes through its four stages and finishes. *)
Lemma generate_gallery_on_run (env : Env) (gallery : list Config) (st : State) :
  str_truthy (getenv env "PIXELLAB_API_KEY") = true ->
  disk env IMAGES_DIR = NoFault ->
  disk env METADATA_FILE = NoFault ->
  let client := PixelLabClient_init env (getenv env "PIXELLAB_API_KEY") None in
  let st1 := add_dirs {["assets"; GALLERY_DIR; IMAGES_DIR]} st in
  let st2 := check_balance env client st1 in
  let t := fst (gallery_loop env client gallery zero_tally st2) in
  let st3 := snd (gallery_loop env client gallery zero_tally st2) in
  let metadata := {| generated_at := now st2; images := metadata_images t |} in
  let st4 := put_file METADATA_FILE (JsonText metadata) st3 in
  let st5 := emit (Summary (successful t) (failed t) (Z.of_nat (length gallery)))
               (emit MetadataSaved st4) in
  generate_gallery_on env gallery st =
  (Finished (successful t) (failed t) (Z.of_nat (length gallery)),
   if 0 <? successful t then emit NextSteps st5 else st5).
Proof.
  intros Hkey Hdir Hmeta. cbv zeta.
  unfold generate_gallery_on, mkdir_images, write_file.
  rewrite Hkey, Hdir, Hmeta. cbn [negb]. fold zero_tally.
  destruct (gallery_loop env _ gallery zero_tally _) as [t st3].
  reflexivity.
Qed.

Lemma client_init_key (env : Env) (key : option string) :
  str_truthy key = true ->
  api_key (PixelLabClient_init env key None) = key.
Proof. intros H. unfold PixelLabClient_init. cbn. rewrite H. reflexivity. Qed.

(** C10.  Every turn of the loop adds one to exactly one of the two
    counters, and when [generate_gallery] prints its summary the count of
    successes plus the count of failures is the total it prints, the
    length of the list. *)
Theorem tally_adds_up (env : Env) (gallery : list Config) (st st' : State)
    (s f total : Z) :
  generate_gallery_on env gallery st = (Finished s f total, st') ->
  s + f = total /\
  total = Z.of_nat (length gallery) /\
  In (Summary s f total) (stdout st') /\
  (forall client config t st0,
     let t' := fst (generate_one env client config t st0) in
     (successful t' = successful t + 1 /\ failed t' = failed t) \/
     (successful t' = successful t /\ failed t' = failed t + 1)).
Proof.
  intros H. unfold generate_gallery_on in H.
  destruct (negb (str_truthy (getenv env "PIXELLAB_API_KEY"))); [discriminate|].
  destruct (mkdir_images env st) as [[[]|e] st1]; [|discriminate].
  destruct (gallery_loop env _ gallery _ _) as [t st3] eqn:E.
  destruct (write_file env METADATA_FILE _ st3) as [[[]|e] st4]; [|discriminate].
  injection H as <- <- <- <-.
  match type of E with
  | gallery_loop _ ?c _ ?t0 ?s0 = _ =>
      pose proof (gallery_loop_counts env c gallery t0 s0) as [Hc _]
  end.
  cbv zeta in Hc. rewrite E in Hc. cbn [fst successful failed] in Hc.
  split; [lia|]. split; [reflexivity|]. split.
  - destruct (0 <? successful t); cbn; rewrite ?in_app_iff; cbn; tauto.
  - intros client config t0 st0. cbv zeta.
    destruct (generate_one_counts env client config t0 st0) as [-> | [stamp ->]];
      cbn; [right | left]; split; reflexivity.
Qed.

Lemma tally_adds_up_witness :
  4 + 2 = 6 /\ 6 = Z.of_nat (length GALLERY_IMAGES).
Proof.
  destruct (tally_adds_up Samples.env_mixed GALLERY_IMAGES Samples.st0
              (snd (generate_gallery Samples.env_mixed Samples.st0)) 4 2 6)
    as (H1 & H2 & _).
  - vm_compute. reflexivity.
  - split; [exact H1 | exact H2].
Defined.

(** C2.  In a run that gets as far as writing the manifest, the file holds
    one entry for each request of the list whose generation, decoding and
    file write all succeeded, in the order of the list and carrying that
    request's id, width, height and seed; a request that failed has no
    entry.  The fixed list [GALLERY_IMAGES] is one such list. *)
Theorem manifest_lists_successful_items (env : Env) (gallery : list Config)
    (st : State) :
  str_truthy (getenv env "PIXELLAB_API_KEY") = true ->
  disk env IMAGES_DIR = NoFault ->
  disk env METADATA_FILE = NoFault ->
  let client := PixelLabClient_init env (getenv env "PIXELLAB_API_KEY") None in
  exists m,
    files (snd (generate_gallery_on env gallery st)) !! METADATA_FILE =
      Some (JsonText m) /\
    map entry_core (images m) =
      map config_core
        (successful_items env client (S (length (calls st))) gallery).
Proof.
  intros Hkey Hdir Hmeta client.
  rewrite (generate_gallery_on_run env gallery st Hkey Hdir Hmeta). cbv zeta.
  fold client. eexists. split.
  - cbn [snd]. destruct (0 <? _); cbn; apply lookup_insert_eq.
  - cbn [images].
    rewrite (gallery_loop_manifest env client gallery zero_tally _
               (S (length (calls st)))); [reflexivity|].
    intros Hon.
    match goal with
    | |- _ = length (calls (check_balance _ _ ?s)) =>
        destruct (check_balance_frame env client s) as (_ & _ & Hc & _)
    end.
    cbv zeta in Hc. rewrite Hc, Hon. reflexivity.
Qed.

Lemma manifest_lists_successful_items_witness :
  exists m,
    files (snd (generate_gallery Samples.env_mixed Samples.st0)) !! METADATA_FILE =
      Some (JsonText m) /\
    map entry_core (images m) =
      [("wizard", 128, 128, Some 42); ("dragon", 128, 128, Some 456);
       ("robot", 128, 128, Some 101); ("treasure", 128, 128, Some 202)].
Proof.
  apply (manifest_lists_successful_items Samples.env_mixed GALLERY_IMAGES
           Samples.st0); reflexivity.
Defined.

(** C4.  When the result of an entry has an empty images list, that turn
    writes no file, appends no manifest entry, adds one to the failure
    count and none to the success count, and the loop goes on: every later
    entry is announced, and when the client can send at all every entry of
    the list gets its request. *)
Theorem empty_images_item_fails (env : Env) (client : PixelLabClient)
    (before after : list Config) (config : Config) (t : Tally) (st : State)
    (r : GenerationResult) :
  let t1 := fst (gallery_loop env client before t st) in
  let st1 := snd (gallery_loop env client before t st) in
  let t2 := fst (generate_one env client config t1 st1) in
  let st2 := snd (generate_one env client config t1 st1) in
  let final := snd (gallery_loop env client (before ++ config :: after) t st) in
  fst (generate_image env client (config_args config) st1) = Ret r ->
  result_images r = JArr [] ->
  files st2 = files st1 /\
  metadata_images t2 = metadata_images t1 /\
  failed t2 = failed t1 + 1 /\
  successful t2 = successful t1 /\
  gallery_loop env client (before ++ config :: after) t st =
    gallery_loop env client after t2 st2 /\
  (forall c, In c after -> In (Generating (cfg_id c)) (stdout final)) /\
  length (calls final) =
    (length (calls st) + length (before ++ config :: after))%nat.
Proof.
  intros t1 st1 t2 st2 final Hr Himg.
  destruct (generate_one_no_images env client config t1 st1 r Hr)
    as (Ht & Hf & _); [rewrite Himg; reflexivity|].
  fold t2 in Ht. fold st2 in Hf.
  assert (Hloop : gallery_loop env client (before ++ config :: after) t st =
                  gallery_loop env client after t2 st2).
  { rewrite gallery_loop_app, gallery_loop_cons. reflexivity. }
  split; [exact Hf|].
  split; [rewrite Ht; reflexivity|].
  split; [rewrite Ht; reflexivity|].
  split; [rewrite Ht; reflexivity|].
  split; [exact Hloop|].
  destruct (gallery_loop_frame env client (before ++ config :: after) t st)
    as (Hc & _ & _ & Hin).
  fold final in Hc, Hin. split.
  - intros c Hc'. apply Hin. apply in_or_app. right. right. exact Hc'.
  - rewrite Hc.
    destruct (generate_image_cases env client (config_args config) st1)
      as [(_ & Hoff) | (Hi & Hk & _)].
    + rewrite Hoff in Hr. discriminate.
    + rewrite Hi, Hk. reflexivity.
Qed.

Lemma empty_images_item_fails_witness :
  let env := Samples.env_mixed in
  let client := Samples.client in
  let before := firstn 2 GALLERY_IMAGES in
  let after := skipn 3 GALLERY_IMAGES in
  let config := nth 2 GALLERY_IMAGES
                  {| cfg_id := ""; cfg_description := ""; cfg_width := None;
                     cfg_height := None; cfg_seed := None |} in
  let t1 := fst (gallery_loop env client before zero_tally Samples.st0) in
  let st1 := snd (gallery_loop env client before zero_tally Samples.st0) in
  failed (fst (generate_one env client config t1 st1)) = failed t1 + 1 /\
  files (snd (generate_one env client config t1 st1)) = files st1.
Proof.
  intros env client before after config t1 st1.
  assert (H1 : fst (generate_image env client (config_args config) st1) =
               Ret {| result_images := JArr []; result_usage := JObj [];
                      result_success := JBool false |})
    by (vm_compute; reflexivity).
  destruct (empty_images_item_fails env client before after config zero_tally
              Samples.st0 _ H1 eq_refl) as (Hf & _ & Hfail & _).
  split; [exact Hfail | exact Hf].
Defined.

(** C8.  Whatever the balance call does, its failures included, the run
    carries on: the warning is printed when the call raises, every entry of
    the list is announced, the run finishes with its summary, and the
    success count is the number of requests that succeeded, so the failure
    count holds failed requests only and nothing for the balance call. *)
Theorem balance_check_is_best_effort (env : Env) (gallery : list Config)
    (st : State) :
  str_truthy (getenv env "PIXELLAB_API_KEY") = true ->
  disk env IMAGES_DIR = NoFault ->
  disk env METADATA_FILE = NoFault ->
  let client := PixelLabClient_init env (getenv env "PIXELLAB_API_KEY") None in
  let total := Z.of_nat (length gallery) in
  exists s f st',
    generate_gallery_on env gallery st = (Finished s f total, st') /\
    s = Z.of_nat (length (successful_items env client (S (length (calls st)))
                            gallery)) /\
    f = total - s /\
    (forall e,
       fst (get_balance env client st) = Raise e ->
       In (BalanceWarning e) (stdout st')) /\
    (forall c, In c gallery -> In (Generating (cfg_id c)) (stdout st')).
Proof.
  intros Hkey Hdir Hmeta client total.
  rewrite (generate_gallery_on_run env gallery st Hkey Hdir Hmeta). cbv zeta.
  fold client.
  set (st1 := add_dirs _ st).
  set (st2 := check_balance env client st1).
  destruct (check_balance_frame env client st1) as (_ & _ & Bc & Bo).
  fold st2 in Bc, Bo.
  destruct (gallery_loop_counts env client gallery zero_tally st2) as [Hsum Hs].
  destruct (gallery_loop_frame env client gallery zero_tally st2)
    as (_ & _ & (l & Ho) & Hin).
  pose proof (gallery_loop_manifest env client gallery zero_tally st2
                (S (length (calls st)))) as Hm.
  cbv zeta in *.
  set (t := fst (gallery_loop env client gallery zero_tally st2)) in *.
  set (st3 := snd (gallery_loop env client gallery zero_tally st2)) in *.
  do 3 eexists. split; [reflexivity|].
  assert (Hlen : length (metadata_images t) =
                 length (successful_items env client (S (length (calls st))) gallery)).
  { rewrite <- (length_map entry_core), Hm, length_app, !length_map; [reflexivity|].
    intros Hon. rewrite Bc, Hon. reflexivity. }
  cbn [successful failed metadata_images zero_tally length] in Hsum, Hs.
  split; [rewrite <- Hlen; lia|]. split; [fold total; lia|].
  assert (Hgrow : forall o, In o (stdout st3) ->
            In o (stdout (if 0 <? successful t
                          then emit NextSteps
                                 (emit (Summary (successful t) (failed t) total)
                                    (emit MetadataSaved
                                       (put_file METADATA_FILE
                                          (JsonText {| generated_at := now st2;
                                                       images := metadata_images t |})
                                          st3)))
                          else emit (Summary (successful t) (failed t) total)
                                 (emit MetadataSaved
                                    (put_file METADATA_FILE
                                       (JsonText {| generated_at := now st2;
                                                    images := metadata_images t |})
                                       st3))))).
  { intros o Hin'. destruct (0 <? successful t); cbn; rewrite ?in_app_iff; tauto. }
  split.
  - intros e He. apply Hgrow. rewrite Ho, Bo. apply in_or_app. left.
    apply in_or_app. right.
    rewrite (get_balance_fst env client st1),
      (make_request_fst env client "GET" "/balance" None None st1 st eq_refl),
      <- (get_balance_fst env client st), He.
    right. left. reflexivity.
  - intros c Hc. apply Hgrow, Hin, Hc.
Qed.

Lemma balance_check_is_best_effort_witness :
  exists s f st',
    generate_gallery Samples.env_no_balance Samples.st0 = (Finished s f 6, st') /\
    s = 4 /\ f = 2 /\
    In (BalanceWarning (HTTPError 503)) (stdout st').
Proof.
  destruct (balance_check_is_best_effort Samples.env_no_balance GALLERY_IMAGES
              Samples.st0 eq_refl eq_refl eq_refl)
    as (s & f & st' & Hrun & Hs & Hf & Hwarn & _).
  assert (Hs4 : s = 4) by (rewrite Hs; vm_compute; reflexivity).
  exists s, f, st'. split; [exact Hrun|].
  split; [exact Hs4|]. split; [rewrite Hf, Hs4; reflexivity|].
  apply Hwarn. vm_compute. reflexivity.
Defined.

(** ** Polling a background job *)

Section Polling.

Variable env : Env.
Variable self : PixelLabClient.
Variable job_id : string.
Hypothesis Hinstalled : requests_installed env = true.
Hypothesis Hkey : str_truthy (api_key self) = true.

Let req := poll_request self job_id.
Let reply (st : State) := outcome (server env (length (calls st)) req).

Lemma poll_body_read (st : State) :
  poll_body env self job_id st =
  match read_reply (reply st) with
  | Raise e => (Raise e, after_request env req st)
  | Ret response =>
      match py_get response "data" (JObj []) with
      | Raise e => (Raise e, after_request env req st)
      | Ret data =>
          match py_get data "status" JNull with
          | Raise e => (Raise e, after_request env req st)
          | Ret status =>
              if is_str "completed" status then
                (Ret (Return (polled_data (reply st))), after_request env req st)
              else if is_str "failed" status then
                (Raise (RuntimeError job_id (polled_error (reply st))),
                 after_request env req st)
              else (Ret Continue, one_poll env req st)
          end
      end
  end.
Proof.
  unfold poll_body, bind. rewrite (make_request_get env self Hinstalled Hkey).
  fold (poll_request self job_id). fold req. fold (reply st).
  unfold polled_data, polled_error.
  destruct (read_reply (reply st)) as [response|e]; [|reflexivity].
  unfold lift.
  destruct response as [| | | | |fields]; try reflexivity.
  cbn [py_get]. unfold default.
  destruct (lookup_key "data" fields) as [[| | | | |d]|]; try reflexivity;
    cbn [py_get];
    match goal with
    | |- context [is_str "completed" ?s] =>
        destruct (is_str "completed" s); [reflexivity|];
        destruct (is_str "failed" s); reflexivity
    end.
Qed.

Lemma poll_body_completed (st : State) :
  polled_status (reply st) = Some (JStr "completed") ->
  poll_body env self job_id st =
  (Ret (Return (polled_data (reply st))), after_request env req st).
Proof.
  intros H. rewrite poll_body_read. unfold polled_status in H.
  destruct (read_reply (reply st)) as [[| | | | |fields]|e]; try discriminate.
  cbn [py_get].
  destruct (lookup_key "data" fields) as [[| | | | |d]|]; try discriminate;
    cbn [py_get]; injection H as H.
  destruct (lookup_key "status" d) as [x|]; cbn in H;
    [subst x; reflexivity | discriminate].
Qed.

Lemma poll_body_failed (st : State) :
  polled_status (reply st) = Some (JStr "failed") ->
  poll_body env self job_id st =
  (Raise (RuntimeError job_id (polled_error (reply st))),
   after_request env req st).
Proof.
  intros H. rewrite poll_body_read. unfold polled_status in H.
  destruct (read_reply (reply st)) as [[| | | | |fields]|e]; try discriminate.
  cbn [py_get].
  destruct (lookup_key "data" fields) as [[| | | | |d]|]; try discriminate;
    cbn [py_get]; injection H as H.
  destruct (lookup_key "status" d) as [x|]; cbn in H;
    [subst x; reflexivity | discriminate].
Qed.

Lemma poll_body_pending (st : State) :
  pending (reply st) = true ->
  poll_body env self job_id st = (Ret Continue, one_poll env req st).
Proof.
  intros H. rewrite poll_body_read. unfold pending, polled_status in H.
  destruct (read_reply (reply st)) as [[| | | | |fields]|e]; try discriminate.
  cbn [py_get].
  destruct (lookup_key "data" fields) as [[| | | | |d]|]; try discriminate;
    cbn [py_get].
  - destruct (lookup_key "status" d) as [s|]; cbn [default from_option id] in H;
      apply andb_prop in H as [H1 H2];
      apply negb_true_iff in H1, H2; rewrite H1, H2; reflexivity.
  - reflexivity.
Qed.

(** A turn that goes round again has slept its two seconds. *)
Lemma poll_body_continue (st st' : State) :
  poll_body env self job_id st = (Ret Continue, st') ->
  now st + 2000 <= now st'.
Proof.
  rewrite poll_body_read.
  destruct (read_reply (reply st)) as [response|e]; [|discriminate].
  destruct (py_get response "data" (JObj [])) as [data|e]; [|discriminate].
  destruct (py_get data "status" JNull) as [status|e]; [|discriminate].
  destruct (is_str "completed" status); [discriminate|].
  destruct (is_str "failed" status); [discriminate|].
  intros H. injection H as <-. cbn. lia.
Qed.

Lemma after_polls_shift (k : nat) (st : State) :
  after_polls env req (S k) st = after_polls env req k (one_poll env req st).
Proof. apply Nat.iter_succ_r. Qed.

Lemma after_polls_S (k : nat) (st : State) :
  after_polls env req (S k) st = one_poll env req (after_polls env req k st).
Proof. reflexivity. Qed.

Lemma after_polls_calls_length (k : nat) (st : State) :
  length (calls (after_polls env req k st)) = (length (calls st) + k)%nat.
Proof.
  induction k as [|k IH]; [cbn; lia|].
  rewrite after_polls_S. unfold one_poll, after_request.
  cbn [calls advance log_call]. rewrite length_app, IH. cbn. lia.
Qed.

Lemma after_polls_now (k : nat) (st : State) :
  now (after_polls env req k st) =
  now st + poll_time env req (length (calls st)) k.
Proof.
  induction k as [|k IH]; [cbn; lia|].
  rewrite after_polls_S. unfold one_poll, after_request.
  cbn [now advance log_call poll_time].
  rewrite IH, after_polls_calls_length. lia.
Qed.

Lemma after_polls_calls (k : nat) (st : State) :
  calls (after_polls env req k st) =
  calls st ++ poll_log env req (length (calls st)) (now st) k.
Proof.
  induction k as [|k IH]; [symmetry; apply app_nil_r|].
  rewrite after_polls_S. unfold one_poll, after_request.
  cbn [calls advance log_call].
  unfold poll_log. rewrite seq_S, map_app, app_assoc. cbn [Nat.add map].
  fold (poll_log env req (length (calls st)) (now st) k).
  rewrite <- IH, after_polls_now. reflexivity.
Qed.

Lemma poll_time_lower (n k : nat) :
  2000 * Z.of_nat k <= poll_time env req n k.
Proof. induction k as [|k IH]; cbn [poll_time]; lia. Qed.

(** Polls that come in time and find the job pending are gone through one
    by one. *)
Lemma poll_loop_skip (max_wait start_time : Z) (k f : nat) (st : State) :
  (forall j, (j < k)%nat ->
     now (after_polls env req j st) - start_time < max_wait * 1000 /\
     pending (reply (after_polls env req j st)) = true) ->
  poll_loop env (k + f) self job_id max_wait start_time st =
  poll_loop env f self job_id max_wait start_time (after_polls env req k st).
Proof.
  revert st. induction k as [|k IH]; intros st H; [reflexivity|].
  destruct (H 0%nat) as [Ht Hp]; [lia|]. cbn in Ht, Hp.
  cbn [Nat.add poll_loop].
  replace (now st - start_time <? max_wait * 1000) with true
    by (symmetry; apply Z.ltb_lt; exact Ht).
  rewrite (poll_body_pending st Hp), after_polls_shift.
  apply IH. intros j Hj. rewrite <- after_polls_shift. apply H. lia.
Qed.

(** The loop returns whenever its bound covers the time that is left. *)
Lemma poll_loop_returns (max_wait start_time : Z) (f : nat) (st : State) :
  max_wait * 1000 - (now st - start_time) <= 2000 * Z.of_nat f ->
  exists res, poll_loop env (S f) self job_id max_wait start_time st = Some res.
Proof.
  revert st. induction f as [|f IH]; intros st H; cbn [poll_loop].
  - replace (now st - start_time <? max_wait * 1000) with false
      by (symmetry; apply Z.ltb_ge; lia).
    eexists. reflexivity.
  - destruct (now st - start_time <? max_wait * 1000); [|eexists; reflexivity].
    destruct (poll_body env self job_id st) as [[[d|]|e] st'] eqn:E;
      try (eexists; reflexivity).
    apply IH. apply poll_body_continue in E. lia.
Qed.

End Polling.

(** [_poll_background_job] always comes back: the bound on the turns of its
    loop is never reached. *)
Lemma poll_background_job_returns (env : Env) (self : PixelLabClient)
    (job_id : string) (max_wait : option Z) (st : State) :
  exists res, _poll_background_job env self job_id max_wait st = Some res.
Proof.
  unfold _poll_background_job. rewrite Nat.add_1_r.
  destruct (requests_installed env) eqn:Hi;
    [destruct (str_truthy (api_key self)) eqn:Hk|].
  - apply poll_loop_returns; try assumption. lia.
  - cbn [poll_loop]. unfold poll_body, bind, _make_request. rewrite Hi, Hk.
    destruct (_ <? _); eexists; reflexivity.
  - cbn [poll_loop]. unfold poll_body, bind, _make_request. rewrite Hi.
    destruct (_ <? _); eexists; reflexivity.
Qed.

Lemma poll_log_S (env : Env) (r : HttpRequest) (n : nat) (start : Z) (k : nat) :
  poll_log env r n start (S k) =
  poll_log env r n start k ++ [(start + poll_time env r n k, r)].
Proof. unfold poll_log. rewrite seq_S, map_app. reflexivity. Qed.

(** C1, as the code has it.  Let the polls [0 .. k-1] be sent in time and
    find the job pending.  If poll [k] is sent in time and its status is
    [completed], [_poll_background_job] returns the data payload of that
    reply, however late the reply comes; if it is sent in time and its
    status is [failed], the call raises [RuntimeError] (the code has no
    error class of its own) carrying the error the server reports; if
    [max_wait] seconds have passed when poll [k] is due, it raises
    [TimeoutError] and poll [k] is not sent.  Each poll is sent two seconds
    after the reply to the one before has come, so the polls are two
    seconds and a reply apart, as the request log shows; [max_wait] is 300
    when left out; and the call always returns. *)
Theorem poll_background_job_contract (env : Env) (self : PixelLabClient)
    (job_id : string) (max_wait : option Z) (st : State) (k : nat) :
  requests_installed env = true ->
  str_truthy (api_key self) = true ->
  let W := default 300 max_wait in
  let r := poll_request self job_id in
  let n := length (calls st) in
  let o := fun j => outcome (server env (n + j) r) in
  let t := fun j => poll_time env r n j in
  let run := _poll_background_job env self job_id max_wait st in
  (forall j, (j < k)%nat -> t j < W * 1000 /\ pending (o j) = true) ->
  (t k < W * 1000 -> polled_status (o k) = Some (JStr "completed") ->
   exists st', run = Some (Ret (polled_data (o k)), st') /\
               calls st' = calls st ++ poll_log env r n (now st) (S k) /\
               now st' = now st + t k + Z.of_N (latency (server env (n + k) r))) /\
  (t k < W * 1000 -> polled_status (o k) = Some (JStr "failed") ->
   exists st', run = Some (Raise (RuntimeError job_id (polled_error (o k))), st') /\
               calls st' = calls st ++ poll_log env r n (now st) (S k) /\
               now st' = now st + t k + Z.of_N (latency (server env (n + k) r))) /\
  (W * 1000 <= t k ->
   exists st', run = Some (Raise (TimeoutError job_id W), st') /\
               calls st' = calls st ++ poll_log env r n (now st) k /\
               now st' = now st + t k) /\
  (forall j, t (S j) = t j + Z.of_N (latency (server env (n + j) r)) + 2000) /\
  _poll_background_job env self job_id None st =
    _poll_background_job env self job_id (Some 300) st /\
  (exists res, run = Some res).
Proof.
  intros Hi Hk W r n o t run Hpre.
  assert (Hstate : forall j,
            now (after_polls env r j st) - now st = t j /\
            outcome (server env (length (calls (after_polls env r j st))) r) = o j).
  { intros j. unfold r. rewrite after_polls_now, after_polls_calls_length.
    split; [fold r n; unfold t; lia | reflexivity]. }
  assert (Hk' : (k <= Z.to_nat W)%nat).
  { destruct k as [|k']; [lia|].
    destruct (Hpre k') as [Ht _]; [lia|].
    pose proof (poll_time_lower env self job_id n k') as Hlow.
    fold r in Hlow. unfold t in Ht. lia. }
  assert (Hrun : run = poll_loop env (S (Z.to_nat W - k)) self job_id W (now st)
                         (after_polls env r k st)).
  { unfold run, _poll_background_job. fold W.
    replace (Z.to_nat W + 1)%nat with (k + S (Z.to_nat W - k))%nat by lia.
    apply (poll_loop_skip env self job_id Hi Hk).
    intros j Hj. fold r. destruct (Hstate j) as [-> ->]. apply Hpre, Hj. }
  destruct (Hstate k) as [Hnow Hout].
  assert (Hlog : calls (after_request env r (after_polls env r k st)) =
                 calls st ++ poll_log env r n (now st) (S k)).
  { rewrite poll_log_S, app_assoc. unfold r at 2 3.
    rewrite <- (after_polls_calls env self job_id). fold r. cbn.
    unfold r at 3. rewrite (after_polls_now env self job_id). reflexivity. }
  assert (Hend : now (after_request env r (after_polls env r k st)) =
                 now st + t k + Z.of_N (latency (server env (n + k) r))).
  { unfold after_request. cbn [now advance log_call]. unfold r at 2.
    rewrite (after_polls_calls_length env self job_id). fold r n. lia. }
  split; [|split; [|split; [|split; [|split]]]].
  - intros Ht Hs. rewrite Hrun. cbn [poll_loop]. rewrite Hnow.
    replace (t k <? W * 1000) with true by (symmetry; apply Z.ltb_lt; exact Ht).
    rewrite (poll_body_completed env self job_id Hi Hk).
    2:{ fold r. rewrite Hout. exact Hs. }
    fold r. rewrite Hout. eexists.
    split; [reflexivity | split; [exact Hlog | exact Hend]].
  - intros Ht Hs. rewrite Hrun. cbn [poll_loop]. rewrite Hnow.
    replace (t k <? W * 1000) with true by (symmetry; apply Z.ltb_lt; exact Ht).
    rewrite (poll_body_failed env self job_id Hi Hk).
    2:{ fold r. rewrite Hout. exact Hs. }
    fold r. rewrite Hout. eexists.
    split; [reflexivity | split; [exact Hlog | exact Hend]].
  - intros Ht. rewrite Hrun. cbn [poll_loop]. rewrite Hnow.
    replace (t k <? W * 1000) with false by (symmetry; apply Z.ltb_ge; exact Ht).
    eexists. split; [reflexivity|]. split.
    + unfold r. apply (after_polls_calls env self job_id).
    + lia.
  - intros j. reflexivity.
  - reflexivity.
  - apply poll_background_job_returns.
Qed.

Lemma poll_background_job_contract_witness :
  exists st',
    _poll_background_job (Samples.env_job "completed") Samples.client "job-1"
      None Samples.st0 =
    Some (Ret (JObj [("status", JStr "completed"); ("frames", JNum 4)]), st') /\
    map fst (calls st') = [0; 2500; 5000; 7500].
Proof.
  destruct (poll_background_job_contract (Samples.env_job "completed")
              Samples.client "job-1" None Samples.st0 3 eq_refl eq_refl)
    as ((st' & Hrun & Hcalls & _) & _).
  - intros j Hj.
    destruct j as [|[|[|j]]]; [split; vm_compute; reflexivity ..|lia].
  - vm_compute. reflexivity.
  - reflexivity.
  - exists st'. split; [exact Hrun|]. rewrite Hcalls. reflexivity.
Defined.

(** C1 as worded fails on two counts.  The polls are not two seconds
    apart: when the server takes half a second for a reply, the second poll
    goes out two and a half seconds after the first.  And [max_wait] does
    not bound the wait for a status: with [max_wait = 1] and a server that
    takes five seconds to say [completed], a second passes with no status
    seen, and the call returns the data after five seconds instead of
    raising [TimeoutError]. *)
Lemma poll_interval_and_deadline_as_worded_fail :
  ~ (forall (env : Env) (self : PixelLabClient) (job_id : string)
            (max_wait : option Z) (st st' : State) (res : Res JSON)
            (t1 t2 : Z) (r1 r2 : HttpRequest),
       requests_installed env = true ->
       str_truthy (api_key self) = true ->
       _poll_background_job env self job_id max_wait st = Some (res, st') ->
       nth_error (calls st') (length (calls st)) = Some (t1, r1) ->
       nth_error (calls st') (S (length (calls st))) = Some (t2, r2) ->
       t2 - t1 = 2000) /\
  ~ (forall (env : Env) (self : PixelLabClient) (job_id : string)
            (max_wait : Z) (st st' : State) (res : Res JSON),
       requests_installed env = true ->
       str_truthy (api_key self) = true ->
       _poll_background_job env self job_id (Some max_wait) st =
         Some (res, st') ->
       max_wait * 1000 < now st' - now st ->
       res = Raise (TimeoutError job_id max_wait)).
Proof.
  split; intros H.
  - destruct (_poll_background_job (Samples.env_job "completed") Samples.client
                "job-1" None Samples.st0) as [[res st']|] eqn:E.
    + pose proof (fun t1 t2 r1 r2 =>
                    H (Samples.env_job "completed") Samples.client "job-1" None
                      Samples.st0 st' res t1 t2 r1 r2 eq_refl eq_refl E) as H'.
      vm_compute in E. injection E as <- <-.
      specialize (H' 0 2500 _ _ eq_refl eq_refl). discriminate H'.
    + vm_compute in E. discriminate E.
  - destruct (_poll_background_job Samples.env_slow_job Samples.client
                "job-1" (Some 1) Samples.st0) as [[res st']|] eqn:E.
    + pose proof (H Samples.env_slow_job Samples.client "job-1" 1
                    Samples.st0 st' res eq_refl eq_refl E) as H'.
      vm_compute in E. injection E as <- <-.
      assert (Ht : 1 * 1000 < 5000 - 0) by lia.
      specialize (H' Ht). discriminate H'.
    + vm_compute in E. discriminate E.
Qed.

(** * Further properties of the client *)

(** ** Requests that cannot be sent *)

Lemma make_request_offline (env : Env) (self : PixelLabClient)
    (method endpoint : string) (data params : option JSON) (st : State) :
  requests_installed env && str_truthy (api_key self) = false ->
  _make_request env self method endpoint data params st =
  (Raise (offline_error env), st).
Proof.
  intros H. unfold _make_request, offline_error.
  destruct (requests_installed env); cbn [negb]; [|reflexivity].
  cbn in H. rewrite H. reflexivity.
Qed.

(** X1.  A client without a key never touches the network: with [requests]
    installed, [generate_image], [get_balance],
    [create_character_4_directions] and (for a positive [max_wait])
    [_poll_background_job] all raise the same [ValueError], and none of
    them sends a request.  The two methods that print first have printed
    their line by then and have changed nothing else; the other two leave
    everything as it was. *)
Theorem no_key_no_request (env : Env) (self : PixelLabClient)
    (a : GenerateArgs) (desc job_id : string) (width height : option Z)
    (kwargs : list (string * JSON)) (max_wait : Z) (st : State) :
  requests_installed env = true ->
  str_truthy (api_key self) = false ->
  0 < max_wait ->
  let err := ValueError
    "PIXELLAB_API_KEY not found. Set it in .env or pass to constructor." in
  generate_image env self a st =
    (Raise err, emit (LiveCalling (py_prefix 50 (description a))) st) /\
  create_character_4_directions env self desc width height kwargs st =
    (Raise err, emit (LiveCreating (py_prefix 50 desc)) st) /\
  get_balance env self st = (Raise err, st) /\
  _poll_background_job env self job_id (Some max_wait) st = Some (Raise err, st) /\
  calls (snd (generate_image env self a st)) = calls st /\
  calls (snd (create_character_4_directions env self desc width height
                kwargs st)) = calls st.
Proof.
  intros Hi Hk Hw err.
  assert (Hoff : requests_installed env && str_truthy (api_key self) = false)
    by (rewrite Hi, Hk; reflexivity).
  assert (Herr : offline_error env = err)
    by (unfold offline_error; rewrite Hi; reflexivity).
  assert (Hg : generate_image env self a st =
               (Raise err,
                emit (LiveCalling (py_prefix 50 (description a))) st)).
  { unfold generate_image, bind, print.
    rewrite (make_request_offline env self _ _ _ _ _ Hoff), Herr. reflexivity. }
  assert (Hc : create_character_4_directions env self desc width height
                 kwargs st =
               (Raise err, emit (LiveCreating (py_prefix 50 desc)) st)).
  { unfold create_character_4_directions, bind, print.
    rewrite (make_request_offline env self _ _ _ _ _ Hoff), Herr. reflexivity. }
  split; [exact Hg|]. split; [exact Hc|].
  split; [|split; [|split; [rewrite Hg; reflexivity | rewrite Hc; reflexivity]]].
  - unfold get_balance, bind.
    rewrite (make_request_offline env self _ _ _ _ _ Hoff), Herr. reflexivity.
  - unfold _poll_background_job. cbn [default from_option id].
    rewrite Nat.add_1_r. cbn [poll_loop].
    replace (now st - now st <? max_wait * 1000) with true
      by (symmetry; apply Z.ltb_lt; lia).
    unfold poll_body, bind.
    rewrite (make_request_offline env self _ _ _ _ _ Hoff), Herr. reflexivity.
Qed.

Lemma no_key_no_request_witness :
  create_character_4_directions Samples.env_mixed
    {| api_key := None; base_url := BASE_URL |} "knight" None None []
    Samples.st0 =
  (Raise (ValueError
     "PIXELLAB_API_KEY not found. Set it in .env or pass to constructor."),
   emit (LiveCreating (py_prefix 50 "knight")) Samples.st0).
Proof.
  apply (no_key_no_request Samples.env_mixed
           {| api_key := None; base_url := BASE_URL |}
           Samples.wizard_args "knight" "job-1" None None [] 300 Samples.st0);
    reflexivity.
Defined.

(** X2.  [_make_request] sends at most one request and never tries again: the
    log either stays as it was, or grows by one GET or POST to
    [base_url + endpoint] that carries the key as a bearer token. *)
Theorem make_request_sends_at_most_once (env : Env) (self : PixelLabClient)
    (method endpoint : string) (data params : option JSON) (st : State) :
  let st' := snd (_make_request env self method endpoint data params st) in
  (calls st' = calls st /\ now st' = now st) \/
  (exists r,
     calls st' = calls st ++ [(now st, r)] /\
     (req_method r = "GET" \/ req_method r = "POST") /\
     req_method r = method /\
     req_url r = base_url self +:+ endpoint /\
     lookup_header "Authorization" (req_headers r) =
       Some ("Bearer " +:+ default "" (api_key self)) /\
     str_truthy (api_key self) = true /\
     now st <= now st').
Proof.
  cbv zeta. unfold _make_request.
  destruct (requests_installed env); cbn [negb]; [|left; split; reflexivity].
  destruct (str_truthy (api_key self)); cbn [negb]; [|left; split; reflexivity].
  destruct (String.eqb method "GET") eqn:Eg;
    [|destruct (String.eqb method "POST") eqn:Ep].
  3: left; split; reflexivity.
  1: apply String.eqb_eq in Eg.
  2: apply String.eqb_eq in Ep.
  all: right; unfold bind; rewrite send_spec;
    match goal with
    | |- context [after_request _ ?r _] => exists r
    end;
    destruct (outcome _) as [|status body]; cbn [fst snd];
      [|unfold raise_for_status, raise, ret;
        destruct ((400 <=? status) && (status <? 600)); [|destruct body]];
    cbn; (repeat split; try reflexivity; try (left; reflexivity);
          try (right; reflexivity); try (symmetry; assumption); try lia).
Qed.

(** ** How a reply is read *)

(** X3.  The status decides before the body does: a 4xx or 5xx reply raises
    [HTTPError] with its status even when the body is good JSON; any other
    status, 1xx and 3xx included, hands back the JSON body, or raises
    [JSONDecodeError] when the body is no JSON.  No connection raises
    [ConnectionError].  Either way exactly one request has gone out. *)
Theorem make_request_reads_status_first (env : Env) (self : PixelLabClient)
    (endpoint : string) (data : option JSON) (st : State) :
  requests_installed env = true ->
  str_truthy (api_key self) = true ->
  let r := post_request self endpoint data in
  let run := _make_request env self "POST" endpoint data None st in
  calls (snd run) = calls st ++ [(now st, r)] /\
  (outcome (server env (length (calls st)) r) = NoConnection ->
   fst run = Raise ConnectionError) /\
  (forall status body,
     outcome (server env (length (calls st)) r) = Response status body ->
     400 <= status < 600 ->
     fst run = Raise (HTTPError status)) /\
  (forall status j,
     outcome (server env (length (calls st)) r) = Response status (Some j) ->
     status < 400 \/ 600 <= status ->
     fst run = Ret j) /\
  (forall status,
     outcome (server env (length (calls st)) r) = Response status None ->
     status < 400 \/ 600 <= status ->
     fst run = Raise JSONDecodeError).
Proof.
  intros Hi Hk r run. unfold run.
  rewrite (make_request_post env self Hi Hk). fold r. cbn [fst snd].
  split; [reflexivity|]. split; [intros ->; reflexivity|].
  split; [|split].
  - intros status body -> Hs. cbn.
    replace ((400 <=? status) && (status <? 600)) with true; [reflexivity|].
    symmetry. apply andb_true_iff. lia.
  - intros status j -> Hs. cbn.
    replace ((400 <=? status) && (status <? 600)) with false; [reflexivity|].
    symmetry. apply andb_false_iff. lia.
  - intros status -> Hs. cbn.
    replace ((400 <=? status) && (status <? 600)) with false; [reflexivity|].
    symmetry. apply andb_false_iff. lia.
Qed.

Lemma make_request_reads_status_first_witness :
  calls (snd (_make_request Samples.env_mixed Samples.client "POST" "/x" None
                None Samples.st0)) =
  [(0, post_request Samples.client "/x" None)].
Proof.
  apply (make_request_reads_status_first Samples.env_mixed Samples.client "/x"
           None Samples.st0); reflexivity.
Defined.

(** ** Which key a client uses *)

(** X4.  A non-empty key given to the constructor is the one sent, whatever the
    environment holds; with no key given, or the empty string, the client
    takes PIXELLAB_API_KEY from the environment, and the base URL is the
    module's unless one is given. *)
Theorem constructor_key_precedence (env : Env) (key : string)
    (url : option string) (a : GenerateArgs) (st : State) :
  requests_installed env = true ->
  key <> "" ->
  let c := PixelLabClient_init env (Some key) url in
  (exists r,
     calls (snd (generate_image env c a st)) = calls st ++ [(now st, r)] /\
     lookup_header "Authorization" (req_headers r) = Some ("Bearer " +:+ key) /\
     req_url r = default BASE_URL url +:+ "/generate-image-v2") /\
  api_key (PixelLabClient_init env None url) = getenv env "PIXELLAB_API_KEY" /\
  api_key (PixelLabClient_init env (Some "") url) = getenv env "PIXELLAB_API_KEY".
Proof.
  intros Hi Hkey c.
  assert (Hk : str_truthy (Some key) = true).
  { cbn. apply negb_true_iff, String.eqb_neq, Hkey. }
  assert (Hc : api_key c = Some key).
  { unfold c, PixelLabClient_init. cbn [api_key]. rewrite Hk. reflexivity. }
  assert (Hb : base_url c = default BASE_URL url) by reflexivity.
  split; [|split; reflexivity].
  assert (Hk' : str_truthy (api_key c) = true) by (rewrite Hc; exact Hk).
  clearbody c.
  rewrite (generate_image_spec env c Hi Hk'). cbn [snd].
  eexists. split; [reflexivity|].
  cbn. rewrite Hc, Hb. split; reflexivity.
Qed.

Lemma constructor_key_precedence_witness :
  api_key (PixelLabClient_init Samples.env_mixed None None) = Some "secret".
Proof.
  destruct (constructor_key_precedence Samples.env_mixed "other" None
              Samples.wizard_args Samples.st0 eq_refl) as (_ & H & _).
  - discriminate.
  - exact H.
Defined.

(** ** Results that are not dictionaries *)

(** X5.  [generate_image] does fail on a substructure of the wrong kind: when
    the body of a good reply is no JSON object, or its ["data"] is present
    and is no object ([null] included), the call raises [AttributeError]
    after its one request. *)
Theorem generate_image_needs_objects (env : Env) (self : PixelLabClient)
    (a : GenerateArgs) (st : State) (status : Z) (body : JSON) :
  requests_installed env = true ->
  str_truthy (api_key self) = true ->
  outcome (server env (length (calls st))
             (post_request self "/generate-image-v2"
                (Some (JObj (generate_image_payload a))))) =
    Response status (Some body) ->
  status < 400 \/ 600 <= status ->
  is_object body = false \/
    (exists fields v, body = JObj fields /\
                      lookup_key "data" fields = Some v /\
                      is_object v = false) ->
  fst (generate_image env self a st) = Raise AttributeError /\
  length (calls (snd (generate_image env self a st))) = S (length (calls st)).
Proof.
  intros Hi Hk Hreply Hstatus Hbad.
  rewrite (generate_image_spec env self Hi Hk). cbn [fst snd]. rewrite Hreply.
  unfold read_reply.
  replace ((400 <=? status) && (status <? 600)) with false
    by (symmetry; apply andb_false_iff; lia).
  split; [|cbn; rewrite length_app; cbn; lia].
  destruct Hbad as [Hb | (fields & v & -> & Hd & Hv)].
  - destruct body; try reflexivity. discriminate.
  - unfold generation_result. cbn [py_get]. rewrite Hd.
    destruct v; try reflexivity. discriminate.
Qed.

Lemma generate_image_needs_objects_witness :
  fst (generate_image
         {| getenv := fun _ => None; requests_installed := true;
            server := fun _ _ =>
              {| latency := 1;
                 outcome := Response 200 (Some (JObj [("data", JNull)])) |};
            disk := fun _ => NoFault |}
         Samples.client Samples.wizard_args Samples.st0) =
  Raise AttributeError.
Proof.
  apply (generate_image_needs_objects
           {| getenv := fun _ => None; requests_installed := true;
              server := fun _ _ =>
                {| latency := 1;
                   outcome := Response 200 (Some (JObj [("data", JNull)])) |};
              disk := fun _ => NoFault |}
           Samples.client Samples.wizard_args Samples.st0 200
           (JObj [("data", JNull)])).
  - reflexivity.
  - reflexivity.
  - reflexivity.
  - left. lia.
  - right. exists [("data", JNull)], JNull. repeat split.
Defined.

(** X6.  [get_balance] is one GET of [/balance] with no parameters and no body;
    from a good reply it hands back the value of ["data"] as it is
    ([null] included), the empty dictionary when the key is missing, and
    it raises [AttributeError] when the body is no JSON object. *)
Theorem get_balance_result (env : Env) (self : PixelLabClient) (st : State)
    (status : Z) (body : JSON) :
  requests_installed env = true ->
  str_truthy (api_key self) = true ->
  outcome (server env (length (calls st)) (get_request self "/balance" None)) =
    Response status (Some body) ->
  status < 400 \/ 600 <= status ->
  calls (snd (get_balance env self st)) =
    calls st ++ [(now st, get_request self "/balance" None)] /\
  (forall fields, body = JObj fields ->
     fst (get_balance env self st) =
     Ret (default (JObj []) (lookup_key "data" fields))) /\
  (is_object body = false ->
   fst (get_balance env self st) = Raise AttributeError).
Proof.
  intros Hi Hk Hreply Hstatus. unfold get_balance, bind, lift.
  rewrite (make_request_get env self Hi Hk), Hreply. unfold read_reply.
  replace ((400 <=? status) && (status <? 600)) with false
    by (symmetry; apply andb_false_iff; lia).
  cbn [fst snd]. split; [reflexivity|]. split.
  - intros fields ->. cbn. destruct (lookup_key "data" fields); reflexivity.
  - intros Hb. destruct body; try reflexivity. discriminate.
Qed.

Lemma get_balance_result_witness :
  fst (get_balance Samples.env_mixed Samples.client Samples.st0) =
  Ret (JObj [("credits", JNum 5)]).
Proof.
  destruct (get_balance_result Samples.env_mixed Samples.client Samples.st0 200
              (JObj [("data", JObj [("credits", JNum 5)])]))
    as (_ & H & _).
  - reflexivity.
  - reflexivity.
  - reflexivity.
  - left. lia.
  - exact (H _ eq_refl).
Defined.

(** ** More on polling *)

(** After [k] polls that came in time and found the job pending, the call
    stands at its loop again, [poll_time k] milliseconds after its start. *)
Lemma poll_run_after_pending (env : Env) (self : PixelLabClient)
    (job_id : string) (max_wait : option Z) (st : State) (k : nat) :
  requests_installed env = true ->
  str_truthy (api_key self) = true ->
  let W := default 300 max_wait in
  let r := poll_request self job_id in
  let n := length (calls st) in
  (forall j, (j < k)%nat ->
     poll_time env r n j < W * 1000 /\
     pending (outcome (server env (n + j) r)) = true) ->
  let stk := after_polls env r k st in
  _poll_background_job env self job_id max_wait st =
    poll_loop env (S (Z.to_nat W - k)) self job_id W (now st) stk /\
  now stk - now st = poll_time env r n k /\
  length (calls stk) = (n + k)%nat /\
  calls stk = calls st ++ poll_log env r n (now st) k /\
  calls (after_request env r stk) = calls st ++ poll_log env r n (now st) (S k).
Proof.
  intros Hi Hk W r n Hpre stk.
  assert (Hnow : forall j, now (after_polls env r j st) - now st =
                           poll_time env r n j).
  { intros j. unfold r. rewrite after_polls_now. fold r n. lia. }
  assert (Hlen : forall j, length (calls (after_polls env r j st)) = (n + j)%nat).
  { intros j. unfold r. apply after_polls_calls_length. }
  assert (Hk' : (k <= Z.to_nat W)%nat).
  { destruct k as [|k']; [lia|].
    destruct (Hpre k') as [Ht _]; [lia|].
    pose proof (poll_time_lower env self job_id n k') as Hlow.
    fold r in Hlow. lia. }
  assert (Hcalls : calls stk = calls st ++ poll_log env r n (now st) k).
  { unfold stk, r. apply (after_polls_calls env self job_id). }
  split; [|split; [apply Hnow|split; [apply Hlen|split; [exact Hcalls|]]]].
  - unfold _poll_background_job. fold W.
    replace (Z.to_nat W + 1)%nat with (k + S (Z.to_nat W - k))%nat by lia.
    apply (poll_loop_skip env self job_id Hi Hk).
    intros j Hj. fold r. rewrite Hnow, Hlen. apply Hpre, Hj.
  - rewrite poll_log_S, app_assoc, <- Hcalls. cbn.
    replace (now stk) with (now st + poll_time env r n k)
      by (rewrite <- (Hnow k); fold stk; lia).
    reflexivity.
Qed.

(** X7.  A [max_wait] of zero or less times out at once: [TimeoutError], no
    request, nothing changed, even for a client that could not send. *)
Theorem poll_with_no_time_left (env : Env) (self : PixelLabClient)
    (job_id : string) (max_wait : Z) (st : State) :
  max_wait <= 0 ->
  _poll_background_job env self job_id (Some max_wait) st =
  Some (Raise (TimeoutError job_id max_wait), st).
Proof.
  intros H. unfold _poll_background_job. cbn [default from_option id].
  rewrite Nat.add_1_r. cbn [poll_loop].
  replace (now st - now st <? max_wait * 1000) with false
    by (symmetry; apply Z.ltb_ge; lia).
  reflexivity.
Qed.

Lemma poll_with_no_time_left_witness :
  _poll_background_job (Samples.env_job "completed") Samples.client "job-1"
    (Some 0) Samples.st0 =
  Some (Raise (TimeoutError "job-1" 0), Samples.st0).
Proof.
  apply (poll_with_no_time_left (Samples.env_job "completed") Samples.client
           "job-1" 0 Samples.st0).
  lia.
Defined.

(** X8.  An error on a poll ends the call: when poll [k], in time after [k]
    pending ones, cannot be read (no connection, an error status, a body
    that is no JSON), that exception comes out; when it reads as something
    without a usable status (no object, or ["data"] no object), it is
    [AttributeError].  Either way poll [k] was the last request. *)
Theorem poll_error_is_not_retried (env : Env) (self : PixelLabClient)
    (job_id : string) (max_wait : option Z) (st : State) (k : nat) :
  requests_installed env = true ->
  str_truthy (api_key self) = true ->
  let W := default 300 max_wait in
  let r := poll_request self job_id in
  let n := length (calls st) in
  let o := fun j => outcome (server env (n + j) r) in
  let run := _poll_background_job env self job_id max_wait st in
  (forall j, (j < k)%nat ->
     poll_time env r n j < W * 1000 /\ pending (o j) = true) ->
  poll_time env r n k < W * 1000 ->
  (forall e, read_reply (o k) = Raise e ->
     exists st', run = Some (Raise e, st') /\
                 calls st' = calls st ++ poll_log env r n (now st) (S k)) /\
  (forall v, read_reply (o k) = Ret v -> polled_status (o k) = None ->
     exists st', run = Some (Raise AttributeError, st') /\
                 calls st' = calls st ++ poll_log env r n (now st) (S k)).
Proof.
  intros Hi Hk W r n o run Hpre Ht.
  destruct (poll_run_after_pending env self job_id max_wait st k Hi Hk Hpre)
    as (Hrun & Hnow & Hlen & _ & Hlog).
  fold W r n in Hrun, Hnow, Hlen, Hlog. fold run in Hrun.
  set (stk := after_polls env r k st) in *.
  assert (Hbody : poll_loop env (S (Z.to_nat W - k)) self job_id W (now st) stk =
                  match poll_body env self job_id stk with
                  | (Ret (Return d), st') => Some (Ret d, st')
                  | (Ret Continue, st') =>
                      poll_loop env (Z.to_nat W - k) self job_id W (now st) st'
                  | (Raise e, st') => Some (Raise e, st')
                  end).
  { cbn [poll_loop]. rewrite Hnow.
    replace (poll_time env r n k <? W * 1000) with true
      by (symmetry; apply Z.ltb_lt; exact Ht).
    reflexivity. }
  rewrite Hrun, Hbody, (poll_body_read env self job_id Hi Hk).
  fold r. rewrite Hlen. fold (o k).
  split.
  - intros e ->. eexists. split; [reflexivity | exact Hlog].
  - intros v Hv Hs. unfold polled_status in Hs. rewrite Hv in *.
    destruct v as [| | | | |fields];
      try (eexists; split; [reflexivity | exact Hlog]).
    cbn [py_get].
    destruct (lookup_key "data" fields) as [[| | | | |d]|];
      try discriminate;
      eexists; (split; [reflexivity | exact Hlog]).
Qed.

Lemma poll_error_is_not_retried_witness :
  exists st',
    _poll_background_job Samples.env_mixed Samples.client "job-1" (Some 10)
      (after_polls Samples.env_mixed (poll_request Samples.client "job-1") 4
         Samples.st0) =
    Some (Raise (HTTPError 500), st').
Proof.
  destruct (poll_error_is_not_retried Samples.env_mixed Samples.client "job-1"
              (Some 10)
              (after_polls Samples.env_mixed
                 (poll_request Samples.client "job-1") 4 Samples.st0)
              0 eq_refl eq_refl) as (H & _).
  - intros j Hj. lia.
  - vm_compute. reflexivity.
  - destruct (H (HTTPError 500)) as (st' & Hrun & _);
      [vm_compute; reflexivity|].
    exists st'. exact Hrun.
Defined.

(** One turn of the polling loop sends at most one request, and a turn
    that goes round again has taken at least the two seconds of its
    sleep. *)
Lemma poll_body_step (env : Env) (self : PixelLabClient) (job_id : string)
    (st : State) :
  let res := fst (poll_body env self job_id st) in
  let st' := snd (poll_body env self job_id st) in
  (length (calls st') <= S (length (calls st)))%nat /\
  (res = Ret Continue -> now st + 2000 <= now st').
Proof.
  cbv zeta.
  destruct (requests_installed env && str_truthy (api_key self)) eqn:Hon.
  - apply andb_prop in Hon as [Hi Hk].
    split.
    + rewrite (poll_body_read env self job_id Hi Hk).
      destruct (read_reply _) as [response|e];
        [|cbn; rewrite length_app; cbn; lia].
      destruct (py_get response "data" (JObj [])) as [data|e];
        [|cbn; rewrite length_app; cbn; lia].
      destruct (py_get data "status" JNull) as [status|e];
        [|cbn; rewrite length_app; cbn; lia].
      destruct (is_str "completed" status);
        [cbn; rewrite length_app; cbn; lia|].
      destruct (is_str "failed" status); cbn; rewrite length_app; cbn; lia.
    + intros H. apply (poll_body_continue env self job_id Hi Hk).
      destruct (poll_body env self job_id st) as [res st']. cbn in *.
      congruence.
  - unfold poll_body, bind.
    rewrite (make_request_offline env self _ _ _ _ _ Hon). cbn.
    split; [lia | discriminate].
Qed.

Lemma poll_loop_request_bound (env : Env) (self : PixelLabClient)
    (job_id : string) (max_wait start_time : Z) (f : nat) :
  forall (st st' : State) (res : Res JSON),
  poll_loop env f self job_id max_wait start_time st = Some (res, st') ->
  2000 * (Z.of_nat (length (calls st')) - Z.of_nat (length (calls st))) <=
  Z.max 0 (max_wait * 1000 - (now st - start_time) + 1999).
Proof.
  induction f as [|f IH]; intros st st' res H; [discriminate|].
  cbn [poll_loop] in H.
  destruct (now st - start_time <? max_wait * 1000) eqn:Ht.
  - apply Z.ltb_lt in Ht.
    destruct (poll_body_step env self job_id st) as [Hc Hn].
    destruct (poll_body env self job_id st) as [[[d|]|e] st1]; cbn [fst snd] in *.
    + injection H as <- <-. lia.
    + specialize (Hn eq_refl). specialize (IH _ _ _ H). lia.
    + injection H as <- <-. lia.
  - injection H as <- <-. lia.
Qed.

(** X9.  However the server answers, a call sends at most half of [max_wait]
    (rounded up) status requests: 150 with the default of 300 seconds. *)
Theorem poll_sends_at_most_half_max_wait (env : Env) (self : PixelLabClient)
    (job_id : string) (max_wait : option Z) (st st' : State) (res : Res JSON) :
  _poll_background_job env self job_id max_wait st = Some (res, st') ->
  2 * (Z.of_nat (length (calls st')) - Z.of_nat (length (calls st))) <=
  Z.max 0 (default 300 max_wait + 1).
Proof.
  intros H. unfold _poll_background_job in H.
  apply poll_loop_request_bound in H. lia.
Qed.

Lemma poll_sends_at_most_half_max_wait_witness :
  let run := _poll_background_job (Samples.env_job "pending") Samples.client
               "job-1" (Some 7) Samples.st0 in
  let st' := match run with Some (_, s) => s | None => Samples.st0 end in
  (length (calls st') <= 4)%nat.
Proof.
  intros run st'.
  assert (H : run = Some (Raise (TimeoutError "job-1" 7), st'))
    by (vm_compute; reflexivity).
  pose proof (poll_sends_at_most_half_max_wait (Samples.env_job "pending")
                Samples.client "job-1" (Some 7) Samples.st0 st' _ H) as B.
  cbn in B. lia.
Defined.

(** ** Creating a character *)

Lemma lookup_dict_set (k k' : string) (v : JSON) (d : list (string * JSON)) :
  lookup_key k (dict_set k' v d) =
  if String.eqb k k' then Some v else lookup_key k d.
Proof.
  induction d as [|[k0 v0] d IH]; cbn.
  - reflexivity.
  - destruct (String.eqb k' k0) eqn:E0; cbn.
    + apply String.eqb_eq in E0. subst k0.
      destruct (String.eqb k k'); reflexivity.
    + destruct (String.eqb k k0) eqn:E1.
      * apply String.eqb_eq in E1. subst k0.
        rewrite String.eqb_sym, E0. reflexivity.
      * exact IH.
Qed.

Lemma lookup_key_not_in (k : string) (d : list (string * JSON)) :
  ~ In k (map fst d) -> lookup_key k d = None.
Proof.
  induction d as [|[k0 v0] d IH]; cbn; [reflexivity|].
  intros H. destruct (String.eqb k k0) eqn:E.
  - apply String.eqb_eq in E. subst k0. exfalso. apply H. left. reflexivity.
  - apply IH. intros Hin. apply H. right. exact Hin.
Qed.

(** Merging keyword arguments whose names are all different: a name that
    is among them gets their value, any other keeps the one it had. *)
Lemma lookup_dict_update (k : string) (kwargs : list (string * JSON)) :
  List.NoDup (map fst kwargs) ->
  forall base,
    lookup_key k (dict_update base kwargs) =
    match lookup_key k kwargs with
    | Some v => Some v
    | None => lookup_key k base
    end.
Proof.
  unfold dict_update.
  induction kwargs as [|[k0 v0] rest IH]; intros Hnd base; [reflexivity|].
  cbn [fold_left fst snd lookup_key]. cbn [map fst] in Hnd.
  apply NoDup_cons_iff in Hnd as [Hnot Hnd].
  rewrite (IH Hnd), lookup_dict_set.
  destruct (String.eqb k k0) eqn:E.
  - apply String.eqb_eq in E. subst k0.
    rewrite (lookup_key_not_in k rest Hnot). reflexivity.
  - reflexivity.
Qed.

Lemma dict_set_keys (k : string) (v : JSON) (d : list (string * JSON)) :
  List.NoDup (map fst d) -> List.NoDup (map fst (dict_set k v d)).
Proof.
  induction d as [|[k0 v0] d IH]; cbn [dict_set map fst]; intros Hnd.
  - repeat constructor. intros [].
  - apply NoDup_cons_iff in Hnd as [Hnot Hnd].
    destruct (String.eqb k k0) eqn:E; cbn [map fst]; apply NoDup_cons_iff.
    + apply String.eqb_eq in E. subst k0. split; assumption.
    + split; [|exact (IH Hnd)].
      intros Hin. apply Hnot. clear - Hin E.
      induction d as [|[k1 v1] d IH]; cbn [dict_set map fst] in Hin.
      * destruct Hin as [<- | []]. rewrite String.eqb_refl in E. discriminate.
      * destruct (String.eqb k k1) eqn:E1; cbn [map fst] in Hin |- *.
        -- apply String.eqb_eq in E1. subst k1. exact Hin.
        -- destruct Hin as [<- | Hin]; [left; reflexivity | right; exact (IH Hin)].
Qed.

Lemma dict_update_keys (kwargs base : list (string * JSON)) :
  List.NoDup (map fst base) -> List.NoDup (map fst (dict_update base kwargs)).
Proof.
  unfold dict_update. revert base.
  induction kwargs as [|[k v] rest IH]; intros base Hnd; [exact Hnd|].
  cbn [fold_left fst snd]. apply IH, dict_set_keys, Hnd.
Qed.

(** X10.  The body of a character request: every extra keyword argument is in
    it under its own name, [description] is the description given (Python
    never lets it into [kwargs]), an extra argument called [image_size]
    replaces the object built from [width] and [height], and the body has no
    other key and no key twice. *)
Theorem create_character_payload_merges_kwargs (description : string)
    (width height : option Z) (kwargs : list (string * JSON)) :
  List.NoDup (map fst kwargs) ->
  lookup_key "description" kwargs = None ->
  let payload := create_character_payload description width height kwargs in
  (forall k v, lookup_key k kwargs = Some v -> lookup_key k payload = Some v) /\
  lookup_key "description" payload = Some (JStr description) /\
  lookup_key "image_size" payload =
    Some (default (JObj [("width", JNum (default 64 width));
                         ("height", JNum (default 64 height))])
            (lookup_key "image_size" kwargs)) /\
  (forall k, lookup_key k payload = None <->
     lookup_key k kwargs = None /\ k <> "description" /\ k <> "image_size") /\
  List.NoDup (map fst payload).
Proof.
  intros Hnd Hdesc payload. unfold payload, create_character_payload.
  split; [|split; [|split; [|split]]].
  - intros k v Hk. rewrite (lookup_dict_update k kwargs Hnd), Hk. reflexivity.
  - rewrite (lookup_dict_update _ kwargs Hnd), Hdesc. reflexivity.
  - rewrite (lookup_dict_update _ kwargs Hnd).
    destruct (lookup_key "image_size" kwargs); reflexivity.
  - intros k. rewrite (lookup_dict_update k kwargs Hnd). split.
    + intros Hk. destruct (lookup_key k kwargs); [discriminate|].
      split; [reflexivity|]. split; intros ->; discriminate.
    + intros (-> & Hd & Hs). cbn [lookup_key].
      destruct (String.eqb k "description") eqn:E1;
        [apply String.eqb_eq in E1; contradiction|].
      destruct (String.eqb k "image_size") eqn:E2;
        [apply String.eqb_eq in E2; contradiction|].
      reflexivity.
  - apply dict_update_keys. cbn [map fst].
    repeat constructor; cbn; intuition discriminate.
Qed.

Lemma create_character_payload_merges_kwargs_witness :
  lookup_key "image_size"
    (create_character_payload "knight" (Some 32) None
       [("outline", JStr "thin"); ("image_size", JNum 7)]) =
  Some (JNum 7).
Proof.
  destruct (create_character_payload_merges_kwargs "knight" (Some 32) None
              [("outline", JStr "thin"); ("image_size", JNum 7)])
    as (_ & _ & H & _).
  - repeat constructor; cbn; intuition discriminate.
  - reflexivity.
  - exact H.
Defined.

(** X11.  [create_character_4_directions] starts the job and comes back: it
    prints its line, sends the one POST, takes only the time of that reply
    (it never sleeps or polls) and writes no file.  From a reply that is no
    error and is a JSON object it reads the two identifiers, [None] for each
    that is missing, when ["data"] is missing or is an object; a ["data"]
    that is anything else ([null] included) raises [AttributeError]. *)
Theorem create_character_does_not_wait (env : Env) (self : PixelLabClient)
    (description : string) (width height : option Z)
    (kwargs : list (string * JSON)) (st : State) (status : Z)
    (fields : list (string * JSON)) :
  requests_installed env = true ->
  str_truthy (api_key self) = true ->
  let r := post_request self "/create-character-with-4-directions"
             (Some (JObj (create_character_payload description width height
                            kwargs))) in
  let run := create_character_4_directions env self description width height
               kwargs st in
  outcome (server env (length (calls st)) r) =
    Response status (Some (JObj fields)) ->
  status < 400 \/ 600 <= status ->
  calls (snd run) = calls st ++ [(now st, r)] /\
  now (snd run) =
    now st + Z.of_N (latency (server env (length (calls st)) r)) /\
  stdout (snd run) = stdout st ++ [LiveCreating (py_prefix 50 description)] /\
  files (snd run) = files st /\
  fst run =
    match lookup_key "data" fields with
    | None =>
        Ret {| character_id := JNull; background_job_id := JNull;
               character_usage := default (JObj []) (lookup_key "usage" fields);
               character_success :=
                 default (JBool false) (lookup_key "success" fields) |}
    | Some (JObj d) =>
        Ret {| character_id := default JNull (lookup_key "character_id" d);
               background_job_id :=
                 default JNull (lookup_key "background_job_id" d);
               character_usage := default (JObj []) (lookup_key "usage" fields);
               character_success :=
                 default (JBool false) (lookup_key "success" fields) |}
    | Some _ => Raise AttributeError
    end.
Proof.
  intros Hi Hk r run Hreply Hstatus. unfold run.
  unfold create_character_4_directions, bind, print.
  rewrite (make_request_post env self Hi Hk). fold r.
  change (length (calls (emit _ st))) with (length (calls st)).
  rewrite Hreply. unfold read_reply.
  replace ((400 <=? status) && (status <? 600)) with false
    by (symmetry; apply andb_false_iff; lia).
  unfold lift. cbn [fst snd].
  split; [reflexivity|]. split; [reflexivity|].
  split; [reflexivity|]. split; [reflexivity|].
  unfold character_result, py_get.
  destruct (lookup_key "data" fields) as [[| | | | |d]|].
  1-5: reflexivity.
  - destruct (lookup_key "character_id" d), (lookup_key "background_job_id" d),
      (lookup_key "usage" fields), (lookup_key "success" fields); reflexivity.
  - cbn. destruct (lookup_key "usage" fields), (lookup_key "success" fields);
      reflexivity.
Qed.

Lemma create_character_does_not_wait_witness :
  now (snd (create_character_4_directions Samples.env_mixed Samples.client
              "knight" None None [] Samples.st0)) = 10 /\
  stdout (snd (create_character_4_directions Samples.env_mixed Samples.client
                 "knight" None None [] Samples.st0)) = [LiveCreating "knight"].
Proof.
  destruct (create_character_does_not_wait Samples.env_mixed Samples.client
              "knight" None None [] Samples.st0 200
              [("data", JObj [("credits", JNum 5)])])
    as (_ & Hn & Ho & _).
  - reflexivity.
  - reflexivity.
  - reflexivity.
  - left. lia.
  - split; [rewrite Hn | rewrite Ho]; reflexivity.
Defined.

(** ** The default client *)

(** X12.  The module's default client is made once: after the first
    [get_client()] every later call hands back that same client, so a key
    that was missing from the environment at first use stays missing for
    the module-level [generate_image], whatever the environment holds
    later, and that call sends nothing. *)
Theorem default_client_is_created_once (env1 env2 : Env) (a : GenerateArgs)
    (st : State) :
  requests_installed env2 = true ->
  str_truthy (getenv env1 "PIXELLAB_API_KEY") = false ->
  let g1 := snd (get_client env1 None) in
  get_client env2 g1 = (PixelLabClient_init env1 None None, g1) /\
  fst (fst (module_generate_image env2 g1 a st)) =
    Raise (ValueError
      "PIXELLAB_API_KEY not found. Set it in .env or pass to constructor.") /\
  calls (snd (fst (module_generate_image env2 g1 a st))) = calls st /\
  snd (module_generate_image env2 g1 a st) = g1.
Proof.
  intros Hi Hk g1. split; [reflexivity|].
  unfold module_generate_image, g1. cbn [get_client snd fst].
  assert (Hoff : requests_installed env2 &&
                 str_truthy (api_key (PixelLabClient_init env1 None None)) = false).
  { rewrite Hi. cbn. exact Hk. }
  unfold generate_image, bind, print.
  rewrite (make_request_offline env2 _ _ _ _ _ _ Hoff).
  unfold offline_error. rewrite Hi. repeat split.
Qed.

Lemma default_client_is_created_once_witness :
  get_client Samples.env_mixed (snd (get_client Samples.env_no_key None)) =
  ({| api_key := None; base_url := BASE_URL |},
   Some {| api_key := None; base_url := BASE_URL |}).
Proof.
  destruct (default_client_is_created_once Samples.env_no_key Samples.env_mixed
              Samples.wizard_args Samples.st0 eq_refl eq_refl) as (H & _).
  exact H.
Defined.

(** * Further properties of the driver *)

(** ** Saving one image, the other cases *)

(** X14.  A save that fails before writing leaves no trace on disk: when the
    image is no string, or its payload is no base64, or the file cannot be
    opened, [save_base64_image] answers [False], prints one error line,
    sends nothing and changes no file.  Values that are no strings never
    decode. *)
Theorem save_failure_leaves_disk (env : Env) (img : JSON) (path : string)
    (st : State) :
  decoded img = None \/ disk env path = OpenFails ->
  let st' := snd (save_base64_image env img path st) in
  fst (save_base64_image env img path st) = false /\
  files st' = files st /\
  calls st' = calls st /\
  (exists e, stdout st' = stdout st ++ [ErrorSavingImage e]) /\
  decoded JNull = None /\
  (forall b, decoded (JBool b) = None) /\
  (forall n, decoded (JNum n) = None) /\
  (forall l, decoded (JArr l) = None) /\
  (forall d, decoded (JObj d) = None).
Proof.
  intros H. cbv zeta. unfold save_base64_image.
  pose proof (save_base64_image_try_spec env img path st) as Htry.
  destruct (decoded img) as [b|].
  - destruct H as [H|H]; [discriminate|].
    rewrite Htry. unfold write_file. rewrite H. cbn.
    repeat split. eexists. reflexivity.
  - destruct Htry as [e ->]. cbn. repeat split. eexists. reflexivity.
Qed.

Lemma save_failure_leaves_disk_witness :
  fst (save_base64_image Samples.env_mixed (JStr "a") "out.png" Samples.st0) =
  false.
Proof.
  apply (save_failure_leaves_disk Samples.env_mixed (JStr "a") "out.png"
           Samples.st0).
  left. reflexivity.
Defined.

(** X15.  A save that succeeds writes the decoded bytes, all of them and nothing
    else: the file at the output path then holds exactly those bytes,
    every other file is as before, nothing is printed and nothing sent. *)
Theorem save_writes_decoded_bytes (env : Env) (img : JSON) (path : string)
    (st : State) (b : list Z) :
  decoded img = Some b ->
  disk env path = NoFault ->
  save_base64_image env img path st = (true, put_file path (Bytes b) st) /\
  files (put_file path (Bytes b) st) !! path = Some (Bytes b) /\
  (forall p, p <> path -> files (put_file path (Bytes b) st) !! p = files st !! p) /\
  stdout (put_file path (Bytes b) st) = stdout st /\
  calls (put_file path (Bytes b) st) = calls st.
Proof.
  intros Hd Hdisk. unfold save_base64_image.
  pose proof (save_base64_image_try_spec env img path st) as Htry.
  rewrite Hd in Htry. rewrite Htry. unfold write_file. rewrite Hdisk.
  split; [reflexivity|]. cbn. split; [apply lookup_insert_eq|].
  split; [|split; reflexivity].
  intros p Hp. apply lookup_insert_ne. congruence.
Qed.

Lemma save_writes_decoded_bytes_witness :
  save_base64_image Samples.env_mixed (JStr "data:image/png;base64,aGVsbG8=")
    "out.png" Samples.st0 =
  (true, put_file "out.png" (Bytes [104; 101; 108; 108; 111]) Samples.st0).
Proof.
  apply (save_writes_decoded_bytes Samples.env_mixed
           (JStr "data:image/png;base64,aGVsbG8=") "out.png" Samples.st0
           [104; 101; 108; 108; 111]); reflexivity.
Defined.

(** X16.  A string that ends in its only comma is saved as an empty file: what
    stands before the comma is dropped, the empty rest decodes to no
    bytes, and the save answers [True]. *)
Theorem save_of_trailing_comma_is_empty (env : Env) (s path : string)
    (st : State) :
  contains_char comma s = false ->
  disk env path = NoFault ->
  save_base64_image env (JStr (s +:+ ",")) path st =
  (true, put_file path (Bytes []) st).
Proof.
  intros Hs Hdisk.
  assert (Hstrip : strip_data_url (s +:+ ",") = Ret "").
  { change (s +:+ ",") with (s +:+ String comma "").
    apply strip_data_url_segments with (rest := []); [exact Hs | reflexivity]. }
  assert (Hdec : decoded (JStr (s +:+ ",")) = Some []).
  { unfold decoded. rewrite Hstrip. reflexivity. }
  unfold save_base64_image.
  pose proof (save_base64_image_try_spec env (JStr (s +:+ ",")) path st) as Htry.
  rewrite Hdec in Htry.
  rewrite Htry. unfold write_file. rewrite Hdisk. reflexivity.
Qed.

Lemma save_of_trailing_comma_is_empty_witness :
  save_base64_image Samples.env_mixed (JStr "aGVsbG8=,") "out.png" Samples.st0 =
  (true, put_file "out.png" (Bytes []) Samples.st0).
Proof.
  apply (save_of_trailing_comma_is_empty Samples.env_mixed "aGVsbG8=" "out.png"
           Samples.st0); reflexivity.
Defined.

(** ** One turn of the loop, file by file *)

(** The ways one turn can end, with the state each leaves. *)
Lemma generate_one_cases (env : Env) (client : PixelLabClient)
    (config : Config) (t : Tally) (st : State) :
  let g := generate_image env client (config_args config) (announced config st) in
  let run := generate_one env client config t st in
  (fst run = count_failed t /\
   exists o, snd run = emit o (snd g)) \/
  (exists img,
     fst (save_base64_image env img (output_path config) (snd g)) = false /\
     fst run = count_failed t /\
     snd run = emit (FailedToSave (cfg_id config))
                 (snd (save_base64_image env img (output_path config) (snd g)))) \/
  (exists img stamp,
     fst (save_base64_image env img (output_path config) (snd g)) = true /\
     fst run = count_successful (entry_of config stamp) t /\
     snd run = emit (Saved (path_name (output_path config)))
                 (snd (save_base64_image env img (output_path config) (snd g)))).
Proof.
  cbv zeta. rewrite generate_one_eq.
  destruct (generate_image env client _ _) as [[r|e] st1]; cbn [fst snd];
    [|left; split; [reflexivity | eexists; reflexivity]].
  destruct (truthy (result_images r));
    [|left; split; [reflexivity | eexists; reflexivity]].
  destruct (py_index0 (result_images r)) as [img|e];
    [|left; split; [reflexivity | eexists; reflexivity]].
  cbv zeta.
  destruct (fst (save_base64_image env img (output_path config) st1)) eqn:E.
  - right. right. exists img. eexists. split; [exact E|]. split; reflexivity.
  - right. left. exists img. split; [exact E|]. split; reflexivity.
Qed.

(** A turn touches no file but its own output path. *)
Lemma generate_one_other_files (env : Env) (client : PixelLabClient)
    (config : Config) (t : Tally) (st : State) (p : string) :
  p <> output_path config ->
  files (snd (generate_one env client config t st)) !! p = files st !! p.
Proof.
  intros Hp.
  pose proof (generate_image_frame env client (config_args config)
                (announced config st)) as (Ff & _).
  change (files (announced config st)) with (files st) in Ff.
  assert (Hsave : forall img,
            files (snd (save_base64_image env img (output_path config)
                          (snd (generate_image env client (config_args config)
                                  (announced config st))))) !! p =
            files st !! p).
  { intros img.
    destruct (save_base64_image_spec env img (output_path config)
                (snd (generate_image env client (config_args config)
                        (announced config st))))
      as (_ & _ & _ & _ & _ & Sp & _).
    rewrite (Sp p Hp), Ff. reflexivity. }
  destruct (generate_one_cases env client config t st)
    as [(_ & o & ->) | [(img & _ & _ & ->) | (img & stamp & _ & _ & ->)]].
  - cbn [files emit]. rewrite Ff. reflexivity.
  - apply Hsave.
  - apply Hsave.
Qed.

(** A turn that fails leaves the disk as it was, unless the write itself
    broke off. *)
Lemma generate_one_failed_files (env : Env) (client : PixelLabClient)
    (config : Config) (t : Tally) (st : State) :
  item_ok env client (length (calls st)) config = false ->
  disk env (output_path config) <> WriteFails ->
  fst (generate_one env client config t st) = count_failed t /\
  files (snd (generate_one env client config t st)) = files st.
Proof.
  intros Hok Hdisk.
  destruct (generate_one_item_ok env client config t st) as (stamp0 & Ht).
  rewrite Hok in Ht. split; [exact Ht|].
  pose proof (generate_image_frame env client (config_args config)
                (announced config st)) as (Ff & _).
  change (files (announced config st)) with (files st) in Ff.
  destruct (generate_one_cases env client config t st)
    as [(_ & o & ->) | [(img & Hs & _ & ->) | (img & stamp & _ & Ht' & _)]].
  - cbn [files emit]. exact Ff.
  - cbn [files emit]. rewrite <- Ff.
    unfold save_base64_image in *.
    pose proof (save_base64_image_try_spec env img (output_path config)
                  (snd (generate_image env client (config_args config)
                          (announced config st)))) as Htry.
    destruct (decoded img) as [b|].
    + rewrite Htry in *. unfold write_file in *.
      destruct (disk env (output_path config)); cbn in *;
        [discriminate | reflexivity | contradiction].
    + destruct Htry as [e ->]. reflexivity.
  - rewrite Ht in Ht'. exfalso.
    apply (f_equal successful) in Ht'. cbn in Ht'. lia.
Qed.

(** A turn that succeeds leaves its decoded image at its output path. *)
Lemma generate_one_ok_file (env : Env) (client : PixelLabClient)
    (config : Config) (t : Tally) (st : State) :
  item_ok env client (length (calls st)) config = true ->
  exists b, files (snd (generate_one env client config t st))
              !! output_path config = Some (Bytes b).
Proof.
  intros Hok.
  destruct (generate_one_item_ok env client config t st) as (stamp0 & Ht).
  rewrite Hok in Ht.
  assert (Hw : writable env (output_path config) = true).
  { unfold item_ok in Hok. apply andb_prop in Hok as [_ Hok].
    destruct (generated env client _ config) as [img|]; [|discriminate].
    destruct (decoded img); [exact Hok | discriminate]. }
  destruct (generate_one_cases env client config t st)
    as [(Hf & _) | [(img & _ & Hf & _) | (img & stamp & Hs & _ & ->)]].
  - rewrite Hf in Ht. apply (f_equal failed) in Ht. cbn in Ht. lia.
  - rewrite Hf in Ht. apply (f_equal failed) in Ht. cbn in Ht. lia.
  - cbn [files emit]. unfold save_base64_image in *.
    pose proof (save_base64_image_try_spec env img (output_path config)
                  (snd (generate_image env client (config_args config)
                          (announced config st)))) as Htry.
    destruct (decoded img) as [b|].
    + rewrite Htry in *. unfold write_file, writable in *.
      destruct (disk env (output_path config)); cbn in *; try discriminate.
      exists b. apply lookup_insert_eq.
    + destruct Htry as [e Htry]. rewrite Htry in Hs. discriminate.
Qed.

(** A file of image bytes at a path the disk accepts is still a file of
    image bytes after any turn. *)
Lemma generate_one_keeps_image (env : Env) (client : PixelLabClient)
    (config : Config) (t : Tally) (st : State) (p : string) :
  writable env p = true ->
  (exists b, files st !! p = Some (Bytes b)) ->
  exists b, files (snd (generate_one env client config t st)) !! p =
            Some (Bytes b).
Proof.
  intros Hw Hb.
  destruct (decide (p = output_path config)) as [->|Hne];
    [|rewrite (generate_one_other_files env client config t st p Hne); exact Hb].
  pose proof (generate_image_frame env client (config_args config)
                (announced config st)) as (Ff & _).
  change (files (announced config st)) with (files st) in Ff.
  assert (Hsave : forall img,
            exists b,
              files (snd (save_base64_image env img (output_path config)
                            (snd (generate_image env client (config_args config)
                                    (announced config st)))))
                !! output_path config = Some (Bytes b)).
  { intros img. unfold save_base64_image.
    pose proof (save_base64_image_try_spec env img (output_path config)
                  (snd (generate_image env client (config_args config)
                          (announced config st)))) as Htry.
    destruct (decoded img) as [b|].
    - rewrite Htry. unfold write_file, writable in *.
      destruct (disk env (output_path config)); try discriminate.
      cbn. exists b. apply lookup_insert_eq.
    - destruct Htry as [e ->]. cbn [snd files emit]. rewrite Ff. exact Hb. }
  destruct (generate_one_cases env client config t st)
    as [(_ & o & ->) | [(img & _ & _ & ->) | (img & stamp & _ & _ & ->)]].
  - cbn [files emit]. rewrite Ff. exact Hb.
  - apply Hsave.
  - apply Hsave.
Qed.

Lemma generate_one_calls (env : Env) (client : PixelLabClient)
    (config : Config) (t : Tally) (st : State) :
  requests_installed env = true ->
  str_truthy (api_key client) = true ->
  calls (snd (generate_one env client config t st)) =
  calls st ++ [(now st, config_request client config)].
Proof.
  intros Hi Hk.
  assert (Hg : calls (snd (generate_image env client (config_args config)
                             (announced config st))) =
               calls st ++ [(now st, config_request client config)]).
  { rewrite (generate_image_spec env client Hi Hk). reflexivity. }
  assert (Hsave : forall img,
            calls (snd (save_base64_image env img (output_path config)
                          (snd (generate_image env client (config_args config)
                                  (announced config st))))) =
            calls st ++ [(now st, config_request client config)]).
  { intros img.
    destruct (save_base64_image_spec env img (output_path config)
                (snd (generate_image env client (config_args config)
                        (announced config st)))) as (_ & Sc & _).
    rewrite Sc. exact Hg. }
  destruct (generate_one_cases env client config t st)
    as [(_ & o & ->) | [(img & _ & _ & ->) | (img & stamp & _ & _ & ->)]].
  - cbn [calls emit]. exact Hg.
  - cbn [calls emit]. apply Hsave.
  - cbn [calls emit]. apply Hsave.
Qed.

(** ** The loop, file by file *)

Lemma gallery_loop_other_files (env : Env) (client : PixelLabClient)
    (gallery : list Config) (t : Tally) (st : State) (p : string) :
  (forall c, In c gallery -> p <> output_path c) ->
  files (snd (gallery_loop env client gallery t st)) !! p = files st !! p.
Proof.
  revert t st. induction gallery as [|c l IH]; intros t st Hp; [reflexivity|].
  rewrite gallery_loop_cons, IH.
  - apply generate_one_other_files. apply Hp. left. reflexivity.
  - intros c' Hc'. apply Hp. right. exact Hc'.
Qed.

Lemma gallery_loop_keeps_image (env : Env) (client : PixelLabClient)
    (gallery : list Config) (t : Tally) (st : State) (p : string) :
  writable env p = true ->
  (exists b, files st !! p = Some (Bytes b)) ->
  exists b, files (snd (gallery_loop env client gallery t st)) !! p =
            Some (Bytes b).
Proof.
  intros Hw. revert t st. induction gallery as [|c l IH]; intros t st Hb;
    [exact Hb|].
  rewrite gallery_loop_cons. apply IH.
  apply generate_one_keeps_image; assumption.
Qed.

Lemma item_ok_writable (env : Env) (client : PixelLabClient) (n : nat)
    (config : Config) :
  item_ok env client n config = true ->
  requests_installed env && str_truthy (api_key client) = true /\
  writable env (output_path config) = true.
Proof.
  unfold item_ok. intros H. apply andb_prop in H as [Hon H].
  split; [exact Hon|].
  destruct (generated env client n config) as [img|]; [|discriminate].
  destruct (decoded img); [exact H | discriminate].
Qed.

(** After the loop every request that succeeded has its image on disk. *)
Lemma gallery_loop_images (env : Env) (client : PixelLabClient)
    (gallery : list Config) (t : Tally) (st : State) (n : nat) :
  (requests_installed env && str_truthy (api_key client) = true ->
   n = length (calls st)) ->
  forall c, In c (successful_items env client n gallery) ->
  exists b, files (snd (gallery_loop env client gallery t st))
              !! output_path c = Some (Bytes b).
Proof.
  revert t st n. induction gallery as [|c0 l IH]; intros t st n Hn c Hc;
    [contradiction|].
  cbn [successful_items] in Hc. apply in_app_or in Hc.
  rewrite gallery_loop_cons.
  destruct Hc as [Hc | Hc].
  - destruct (item_ok env client n c0) eqn:Hok; [|contradiction].
    destruct Hc as [<- | []].
    destruct (item_ok_writable env client n c0 Hok) as [Hon Hw].
    apply gallery_loop_keeps_image; [exact Hw|].
    apply generate_one_ok_file. rewrite <- (Hn Hon). exact Hok.
  - apply (IH _ _ (S n)); [|exact Hc].
    intros Hon.
    destruct (generate_one_frame env client c0 t st) as (Hcalls & _).
    cbv zeta in Hcalls. rewrite Hcalls, Hon, (Hn Hon). reflexivity.
Qed.

Lemma gallery_loop_calls (env : Env) (client : PixelLabClient)
    (gallery : list Config) (t : Tally) (st : State) :
  requests_installed env = true ->
  str_truthy (api_key client) = true ->
  map snd (calls (snd (gallery_loop env client gallery t st))) =
  map snd (calls st) ++ map (config_request client) gallery.
Proof.
  intros Hi Hk. revert t st.
  induction gallery as [|c l IH]; intros t st.
  - cbn. symmetry. apply app_nil_r.
  - rewrite gallery_loop_cons, IH, (generate_one_calls env client c t st Hi Hk).
    rewrite map_app, <- app_assoc. reflexivity.
Qed.

Lemma successful_items_offline (env : Env) (client : PixelLabClient) (n : nat)
    (gallery : list Config) :
  requests_installed env && str_truthy (api_key client) = false ->
  successful_items env client n gallery = [].
Proof.
  intros H. revert n. induction gallery as [|c l IH]; intros n; [reflexivity|].
  cbn [successful_items]. rewrite (item_ok_offline env client n c H), IH.
  reflexivity.
Qed.

(** ** Paths *)

Lemma contains_char_app (c : ascii) (a b : string) :
  contains_char c (a +:+ b) = contains_char c a || contains_char c b.
Proof.
  induction a as [|x a IH]; simpl; [reflexivity|].
  destruct (Ascii.eqb x c); [reflexivity | exact IH].
Qed.

(** A character that is not the separator is in a string exactly when it
    is in one of the pieces. *)
Lemma contains_char_split (c sep : ascii) (s : string) :
  Ascii.eqb sep c = false ->
  existsb (contains_char c) (split_on sep s) = contains_char c s.
Proof.
  intros Hne. induction s as [|x s IH]; simpl; [reflexivity|].
  destruct (Ascii.eqb x sep) eqn:E.
  - apply Ascii.eqb_eq in E. subst x. rewrite Hne. simpl. exact IH.
  - destruct (split_on sep s) as [|hd tl]; simpl in *.
    + destruct (Ascii.eqb x c); [reflexivity | rewrite <- IH; reflexivity].
    + destruct (Ascii.eqb x c); [reflexivity | exact IH].
Qed.

Lemma is_part_true (x : string) :
  is_part x = true <-> x <> "" /\ x <> ".".
Proof.
  unfold is_part.
  destruct (String.eqb_spec x ""), (String.eqb_spec x "."); cbn;
    intuition congruence.
Qed.

Lemma is_part_of_char (c : ascii) (x : string) :
  Ascii.eqb c "." = false -> contains_char c x = true -> is_part x = true.
Proof.
  intros Hne H. apply is_part_true. split; intros ->.
  - discriminate H.
  - change (contains_char c ".")
      with (if Ascii.eqb "." c then true else false) in H.
    rewrite Ascii.eqb_sym, Hne in H. discriminate H.
Qed.

Lemma existsb_filter_parts (c : ascii) (l : list string) :
  Ascii.eqb c "." = false ->
  existsb (contains_char c) (List.filter is_part l) =
  existsb (contains_char c) l.
Proof.
  intros Hne. induction l as [|x l IH]; cbn [List.filter existsb]; [reflexivity|].
  destruct (contains_char c x) eqn:E.
  - rewrite (is_part_of_char c x Hne E). cbn [existsb]. rewrite E. reflexivity.
  - destruct (is_part x); cbn [existsb orb]; [rewrite E|]; exact IH.
Qed.

Lemma contains_char_join (c : ascii) (l : list string) :
  Ascii.eqb "/" c = false ->
  contains_char c (join_slash l) = existsb (contains_char c) l.
Proof.
  intros Hne. induction l as [|x l IH]; [reflexivity|].
  destruct l as [|y rest].
  - cbn [join_slash existsb]. rewrite orb_false_r. reflexivity.
  - change (join_slash (x :: y :: rest))
      with (x +:+ String "/" (join_slash (y :: rest))).
    rewrite contains_char_app. cbn [contains_char]. rewrite Hne, IH.
    reflexivity.
Qed.

(** Normalising a path loses no character but slashes and dots. *)
Lemma contains_char_path_str (c : ascii) (s : string) :
  Ascii.eqb "/" c = false -> Ascii.eqb c "." = false ->
  contains_char c s = true -> contains_char c (path_str s) = true.
Proof.
  intros Hs Hd H. unfold path_str.
  assert (Hp : contains_char c (path_root s +:+ join_slash (path_parts s)) = true).
  { rewrite contains_char_app, (contains_char_join c _ Hs).
    unfold path_parts.
    rewrite (existsb_filter_parts c _ Hd), (contains_char_split c "/" s Hs), H.
    apply orb_true_r. }
  destruct (String.eqb_spec (path_root s +:+ join_slash (path_parts s)) "")
    as [E|_]; [|exact Hp].
  rewrite E in Hp. discriminate Hp.
Qed.

Lemma contains_char_path_join (c : ascii) (d name : string) :
  Ascii.eqb "/" c = false -> Ascii.eqb c "." = false ->
  contains_char c name = true -> contains_char c (path_join d name) = true.
Proof.
  intros Hs Hd H. unfold path_join. apply contains_char_path_str; try assumption.
  unfold posix_join. destruct (starts_with_slash name); [exact H|].
  destruct (_ || _); rewrite !contains_char_app, H, ?orb_true_r; reflexivity.
Qed.

Lemma output_name_underscore (image_id : string) (width height : Z) :
  contains_char "_" (output_name image_id width height) = true.
Proof. unfold output_name. apply contains_char_app_sep. Qed.

(** No image is ever written over the manifest. *)
Lemma output_path_not_metadata (config : Config) :
  output_path config <> METADATA_FILE.
Proof.
  intros E.
  assert (H : contains_char "_" (output_path config) = true).
  { unfold output_path. apply contains_char_path_join; try reflexivity.
    apply output_name_underscore. }
  rewrite E in H. vm_compute in H. discriminate H.
Qed.

Lemma pretty_N_go_no_char (c : ascii) :
  (forall n : N, pretty_N_char n <> c) ->
  forall (x : N) (s : string),
  contains_char c s = false -> contains_char c (pretty_N_go x s) = false.
Proof.
  intros Hc x. induction x as [x IH] using (well_founded_induction N.lt_wf_0).
  intros s Hs. destruct (decide (x = 0%N)) as [->|Hx].
  - rewrite pretty_N_go_0. exact Hs.
  - rewrite pretty_N_go_step by lia. apply IH.
    + apply N.div_lt; lia.
    + cbn [contains_char].
      destruct (Ascii.eqb _ c) eqn:E; [|exact Hs].
      apply Ascii.eqb_eq in E. destruct (Hc _ E).
Qed.

Lemma pretty_N_char_not_slash (n : N) : pretty_N_char n <> "/"%char.
Proof.
  unfold pretty_N_char.
  repeat (match goal with |- context [match ?x with _ => _ end] => destruct x end);
    discriminate.
Qed.

Lemma pretty_Z_no_slash (z : Z) : contains_char "/" (pretty z) = false.
Proof.
  assert (HN : forall n : N, contains_char "/" (pretty n) = false).
  { intros n. unfold pretty, pretty_N. destruct (decide (n = 0%N)); [reflexivity|].
    apply pretty_N_go_no_char; [exact pretty_N_char_not_slash | reflexivity]. }
  destruct z as [|p|p].
  - reflexivity.
  - exact (HN (N.pos p)).
  - change (contains_char "/" ("-" +:+ pretty (N.pos p)) = false).
    rewrite contains_char_app, HN. reflexivity.
Qed.

Lemma output_name_no_slash (image_id : string) (width height : Z) :
  contains_char "/" image_id = false ->
  contains_char "/" (output_name image_id width height) = false.
Proof.
  intros H. unfold output_name.
  rewrite !contains_char_app, H, !pretty_Z_no_slash. reflexivity.
Qed.

Lemma starts_with_slash_contains (s : string) :
  starts_with_slash s = true -> contains_char "/" s = true.
Proof.
  destruct s as [|a rest]; [discriminate|]. unfold starts_with_slash.
  destruct a as [[] [] [] [] [] [] [] []]; try discriminate. reflexivity.
Qed.

(** A name with no slash in it is one component under the images
    directory, and the name of the path it gives. *)
Lemma path_join_images (name : string) :
  contains_char "/" name = false ->
  is_part name = true ->
  path_join IMAGES_DIR name = IMAGES_DIR +:+ "/" +:+ name /\
  path_name (path_join IMAGES_DIR name) = name.
Proof.
  intros Hs Hp.
  assert (Hsplit : split_on "/" ("assets/gallery/images" +:+ String "/" name) =
                   ["assets"; "gallery"; "images"; name]).
  { change ("assets/gallery/images" +:+ String "/" name)
      with ("assets" +:+ String "/" ("gallery" +:+ String "/"
              ("images" +:+ String "/" name))).
    rewrite !split_on_segment by reflexivity.
    rewrite (split_on_no_sep _ _ Hs). reflexivity. }
  assert (Hparts : path_parts ("assets/gallery/images" +:+ String "/" name) =
                   ["assets"; "gallery"; "images"; name]).
  { unfold path_parts. rewrite Hsplit. cbn [List.filter].
    change (is_part "assets") with true. change (is_part "gallery") with true.
    change (is_part "images") with true. rewrite Hp. reflexivity. }
  assert (Hjoin : path_join IMAGES_DIR name =
                  "assets/gallery/images" +:+ String "/" name).
  { unfold path_join, posix_join.
    destruct (starts_with_slash name) eqn:E;
      [apply starts_with_slash_contains in E; congruence|].
    change (String.eqb IMAGES_DIR "" || ends_with_slash IMAGES_DIR) with false.
    cbv iota. change (IMAGES_DIR +:+ "/" +:+ name)
      with ("assets/gallery/images" +:+ String "/" name).
    unfold path_str. rewrite Hparts. reflexivity. }
  split.
  - rewrite Hjoin. reflexivity.
  - rewrite Hjoin. unfold path_name. rewrite Hparts. reflexivity.
Qed.

(** ** A whole run, again *)

Lemma check_balance_calls (env : Env) (client : PixelLabClient) (st : State) :
  requests_installed env = true ->
  str_truthy (api_key client) = true ->
  calls (check_balance env client st) =
  calls st ++ [(now st, get_request client "/balance" None)].
Proof.
  intros Hi Hk. unfold check_balance, get_balance, bind, lift.
  rewrite (make_request_get env client Hi Hk).
  destruct (read_reply _) as [response|e]; [|reflexivity].
  destruct (py_get response "data" (JObj [])); reflexivity.
Qed.

(** X17.  A full run sends the balance request and then one request per entry of
    the list, in the order of the list: no entry is asked for twice, none
    is skipped, nothing else goes out. *)
Theorem run_sends_one_request_per_item (env : Env) (gallery : list Config)
    (st : State) :
  str_truthy (getenv env "PIXELLAB_API_KEY") = true ->
  requests_installed env = true ->
  disk env IMAGES_DIR = NoFault ->
  disk env METADATA_FILE = NoFault ->
  let client := PixelLabClient_init env (getenv env "PIXELLAB_API_KEY") None in
  map snd (calls (snd (generate_gallery_on env gallery st))) =
  map snd (calls st) ++
  get_request client "/balance" None :: map (config_request client) gallery.
Proof.
  intros Hkey Hi Hdir Hmeta client.
  assert (Hk : str_truthy (api_key client) = true).
  { unfold client. rewrite (client_init_key env _ Hkey). exact Hkey. }
  rewrite (generate_gallery_on_run env gallery st Hkey Hdir Hmeta). cbv zeta.
  fold client. cbn [snd].
  assert (Hloop : forall s0,
            map snd (calls (snd (gallery_loop env client gallery zero_tally
                                   (check_balance env client s0)))) =
            map snd (calls s0) ++
            get_request client "/balance" None ::
            map (config_request client) gallery).
  { intros s0. rewrite (gallery_loop_calls env client gallery _ _ Hi Hk),
      (check_balance_calls env client s0 Hi Hk), map_app, <- app_assoc.
    reflexivity. }
  destruct (0 <? _); cbn [calls emit put_file]; rewrite Hloop; reflexivity.
Qed.

Lemma run_sends_one_request_per_item_witness :
  length (calls (snd (generate_gallery Samples.env_mixed Samples.st0))) = 7%nat.
Proof.
  pose proof (run_sends_one_request_per_item Samples.env_mixed GALLERY_IMAGES
                Samples.st0 eq_refl eq_refl eq_refl eq_refl) as H.
  apply (f_equal (@length _)) in H.
  rewrite length_map in H. unfold generate_gallery. rewrite H. reflexivity.
Defined.

(** X18.  Files are told apart by their paths from the project root, and
    when no id of the list has a slash in it the output path of an entry is
    the file [<id>_<width>x<height>.png] right under the images directory.
    Whatever happens in a run of such a list, it changes no file but the
    manifest and those output files. *)
Theorem run_touches_only_gallery_files (env : Env) (gallery : list Config)
    (st : State) (p : string) :
  (forall c, In c gallery -> contains_char "/" (cfg_id c) = false) ->
  p <> METADATA_FILE ->
  (forall c, In c gallery ->
     p <> IMAGES_DIR +:+ "/" +:+
          output_name (cfg_id c) (default 128 (cfg_width c))
            (default 128 (cfg_height c))) ->
  files (snd (generate_gallery_on env gallery st)) !! p = files st !! p.
Proof.
  intros Hid Hm Hp0.
  assert (Hp : forall c, In c gallery -> p <> output_path c).
  { intros c Hc. unfold output_path.
    destruct (path_join_images
                (output_name (cfg_id c) (default 128 (cfg_width c))
                   (default 128 (cfg_height c)))) as [Hj _].
    - apply output_name_no_slash, Hid, Hc.
    - apply (is_part_of_char "_"); [reflexivity | apply output_name_underscore].
    - rewrite Hj. apply Hp0, Hc. }
  unfold generate_gallery_on.
  destruct (negb (str_truthy (getenv env "PIXELLAB_API_KEY"))); [reflexivity|].
  unfold mkdir_images. destruct (disk env IMAGES_DIR); try reflexivity.
  match goal with
  | |- context [gallery_loop env ?c gallery ?t0 ?s0] =>
      pose proof (gallery_loop_other_files env c gallery t0 s0 p Hp) as Hloop;
      destruct (gallery_loop env c gallery t0 s0) as [t st3]
  end.
  cbn [snd] in Hloop.
  assert (Hbal : files st3 !! p = files st !! p).
  { rewrite Hloop.
    match goal with
    | |- context [check_balance env ?c ?s0] =>
        destruct (check_balance_frame env c s0) as (Hf & _)
    end.
    cbv zeta in Hf. rewrite Hf. reflexivity. }
  unfold write_file.
  destruct (disk env METADATA_FILE); cbn [snd].
  - destruct (0 <? successful t); cbn [files emit put_file];
      rewrite lookup_insert_ne by congruence; exact Hbal.
  - exact Hbal.
  - cbn [files put_file]. rewrite lookup_insert_ne by congruence. exact Hbal.
Qed.

Lemma run_touches_only_gallery_files_witness :
  files (snd (generate_gallery Samples.env_mixed
                (put_file "notes.txt" (Bytes [1; 2; 3]) Samples.st0)))
    !! "notes.txt" =
  Some (Bytes [1; 2; 3]).
Proof.
  unfold generate_gallery.
  rewrite (run_touches_only_gallery_files Samples.env_mixed GALLERY_IMAGES
             (put_file "notes.txt" (Bytes [1; 2; 3]) Samples.st0) "notes.txt").
  - reflexivity.
  - intros c Hc. cbn in Hc.
    repeat (destruct Hc as [<- | Hc]; [reflexivity|]). destruct Hc.
  - discriminate.
  - intros c Hc.
    repeat (destruct Hc as [<- | Hc]; [discriminate|]). contradiction.
Defined.

(** X19.  When a run finishes, every request that succeeded has a file of image
    bytes at its output path: a later entry of the list or the manifest
    never takes it away. *)
Theorem run_leaves_an_image_per_entry (env : Env) (gallery : list Config)
    (st : State) :
  str_truthy (getenv env "PIXELLAB_API_KEY") = true ->
  disk env IMAGES_DIR = NoFault ->
  disk env METADATA_FILE = NoFault ->
  let client := PixelLabClient_init env (getenv env "PIXELLAB_API_KEY") None in
  forall c,
    In c (successful_items env client (S (length (calls st))) gallery) ->
    exists b,
      files (snd (generate_gallery_on env gallery st)) !! output_path c =
      Some (Bytes b).
Proof.
  intros Hkey Hdir Hmeta client c Hc.
  rewrite (generate_gallery_on_run env gallery st Hkey Hdir Hmeta). cbv zeta.
  fold client.
  match goal with
  | |- context [gallery_loop env client gallery zero_tally ?s0] =>
      destruct (gallery_loop_images env client gallery zero_tally s0
                  (S (length (calls st)))) with (c := c) as [b Hb];
        [|exact Hc|]
  end.
  - intros Hon.
    match goal with
    | |- _ = length (calls (check_balance _ _ ?s)) =>
        destruct (check_balance_frame env client s) as (_ & _ & Hcalls & _)
    end.
    cbv zeta in Hcalls. rewrite Hcalls, Hon. reflexivity.
  - exists b. cbn [snd].
    destruct (0 <? _); cbn [files emit put_file];
      (rewrite lookup_insert_ne;
       [exact Hb | intros E; symmetry in E; exact (output_path_not_metadata c E)]).
Qed.

Lemma run_leaves_an_image_per_entry_witness :
  let c := nth 0 GALLERY_IMAGES
             {| cfg_id := ""; cfg_description := ""; cfg_width := None;
                cfg_height := None; cfg_seed := None |} in
  exists b,
    files (snd (generate_gallery_on Samples.env_mixed GALLERY_IMAGES Samples.st0))
      !! output_path c = Some (Bytes b).
Proof.
  intros c.
  assert (Hc : In c (successful_items Samples.env_mixed
                       (PixelLabClient_init Samples.env_mixed
                          (getenv Samples.env_mixed "PIXELLAB_API_KEY") None)
                       (S (length (calls Samples.st0))) GALLERY_IMAGES))
    by (vm_compute; left; reflexivity).
  exact (run_leaves_an_image_per_entry Samples.env_mixed GALLERY_IMAGES
           Samples.st0 eq_refl eq_refl eq_refl c Hc).
Defined.

(** X20.  When the images directory cannot be made, the run dies of that
    [OSError] before it sends anything: no request, no file, no line. *)
Theorem run_crashes_when_mkdir_fails (env : Env) (gallery : list Config)
    (st : State) :
  str_truthy (getenv env "PIXELLAB_API_KEY") = true ->
  disk env IMAGES_DIR <> NoFault ->
  generate_gallery_on env gallery st = (Crashed OSError, st).
Proof.
  intros Hkey Hdir. unfold generate_gallery_on, mkdir_images. rewrite Hkey.
  cbn [negb]. destruct (disk env IMAGES_DIR); [contradiction| |]; reflexivity.
Qed.

Lemma run_crashes_when_mkdir_fails_witness :
  generate_gallery_on
    {| getenv := getenv Samples.env_mixed; requests_installed := true;
       server := server Samples.env_mixed; disk := fun _ => OpenFails |}
    GALLERY_IMAGES Samples.st0 =
  (Crashed OSError, Samples.st0).
Proof.
  apply (run_crashes_when_mkdir_fails
           {| getenv := getenv Samples.env_mixed; requests_installed := true;
              server := server Samples.env_mixed; disk := fun _ => OpenFails |}
           GALLERY_IMAGES Samples.st0).
  - reflexivity.
  - discriminate.
Defined.

(** X21.  When the manifest cannot be opened for writing, the run dies of that
    [OSError] after the loop: every request has been sent, the images of
    the requests that succeeded are on disk, and the manifest file is what
    it was before the run. *)
Theorem run_crashes_when_manifest_fails (env : Env) (gallery : list Config)
    (st : State) :
  str_truthy (getenv env "PIXELLAB_API_KEY") = true ->
  disk env IMAGES_DIR = NoFault ->
  disk env METADATA_FILE = OpenFails ->
  let client := PixelLabClient_init env (getenv env "PIXELLAB_API_KEY") None in
  let st' := snd (generate_gallery_on env gallery st) in
  fst (generate_gallery_on env gallery st) = Crashed OSError /\
  files st' !! METADATA_FILE = files st !! METADATA_FILE /\
  (forall c,
     In c (successful_items env client (S (length (calls st))) gallery) ->
     exists b, files st' !! output_path c = Some (Bytes b)) /\
  (forall c, In c gallery -> In (Generating (cfg_id c)) (stdout st')).
Proof.
  intros Hkey Hdir Hmeta client. cbv zeta.
  unfold generate_gallery_on, mkdir_images, write_file.
  rewrite Hkey, Hdir, Hmeta. cbn [negb]. fold client. fold zero_tally.
  set (st1 := add_dirs _ st).
  set (st2 := check_balance env client st1).
  destruct (check_balance_frame env client st1) as (Bf & _ & Bc & _).
  fold st2 in Bf, Bc.
  pose proof (gallery_loop_other_files env client gallery zero_tally st2
                METADATA_FILE) as Hother.
  pose proof (gallery_loop_images env client gallery zero_tally st2
                (S (length (calls st)))) as Himg.
  destruct (gallery_loop_frame env client gallery zero_tally st2)
    as (_ & _ & _ & Hin).
  destruct (gallery_loop env client gallery zero_tally st2) as [t st3].
  cbn [fst snd] in *.
  split; [reflexivity|]. split; [|split].
  - rewrite Hother, Bf; [reflexivity|].
    intros c _ E. exact (output_path_not_metadata c (eq_sym E)).
  - intros c Hc. apply Himg; [|exact Hc].
    intros Hon. rewrite Bc, Hon. reflexivity.
  - exact Hin.
Qed.

Lemma run_crashes_when_manifest_fails_witness :
  fst (generate_gallery_on
         {| getenv := getenv Samples.env_mixed; requests_installed := true;
            server := server Samples.env_mixed;
            disk := fun p => if String.eqb p METADATA_FILE then OpenFails
                             else NoFault |}
         GALLERY_IMAGES Samples.st0) =
  Crashed OSError.
Proof.
  destruct (run_crashes_when_manifest_fails
              {| getenv := getenv Samples.env_mixed; requests_installed := true;
                 server := server Samples.env_mixed;
                 disk := fun p => if String.eqb p METADATA_FILE then OpenFails
                                  else NoFault |}
              GALLERY_IMAGES Samples.st0 eq_refl eq_refl eq_refl) as (H & _).
  exact H.
Defined.

(** X22.  Without the [requests] package a run still finishes: every entry fails
    on its [ImportError], nothing is sent, the summary counts no success
    and as many failures as there are entries, and the manifest is written
    with no entry in it. *)
Theorem run_without_requests_package (env : Env) (gallery : list Config)
    (st : State) :
  str_truthy (getenv env "PIXELLAB_API_KEY") = true ->
  requests_installed env = false ->
  disk env IMAGES_DIR = NoFault ->
  disk env METADATA_FILE = NoFault ->
  let total := Z.of_nat (length gallery) in
  let st' := snd (generate_gallery_on env gallery st) in
  fst (generate_gallery_on env gallery st) = Finished 0 total total /\
  calls st' = calls st /\
  (exists stamp,
     files st' !! METADATA_FILE =
     Some (JsonText {| generated_at := stamp; images := [] |})) /\
  (forall c, In c gallery ->
     In (ErrorGenerating (cfg_id c) ImportError) (stdout st')).
Proof.
  intros Hkey Hi Hdir Hmeta total.
  rewrite (generate_gallery_on_run env gallery st Hkey Hdir Hmeta). cbv zeta.
  set (client := PixelLabClient_init env (getenv env "PIXELLAB_API_KEY") None).
  set (st1 := add_dirs _ st).
  assert (Hoff : requests_installed env && str_truthy (api_key client) = false)
    by (rewrite Hi; reflexivity).
  assert (Hbal : check_balance env client st1 =
                 emit (BalanceWarning ImportError) (emit CheckingBalance st1)).
  { unfold check_balance, get_balance, bind.
    rewrite (make_request_offline env client _ _ _ _ _ Hoff).
    unfold offline_error. rewrite Hi. reflexivity. }
  rewrite Hbal.
  set (st2 := emit (BalanceWarning ImportError) (emit CheckingBalance st1)).
  assert (Hloop : forall (l : list Config) (t : Tally) (s0 : State),
            let run := gallery_loop env client l t s0 in
            metadata_images (fst run) = metadata_images t /\
            successful (fst run) = successful t /\
            failed (fst run) = failed t + Z.of_nat (length l) /\
            calls (snd run) = calls s0 /\
            (forall o, In o (stdout s0) -> In o (stdout (snd run))) /\
            (forall c, In c l ->
               In (ErrorGenerating (cfg_id c) ImportError) (stdout (snd run)))).
  { induction l as [|c l IH]; intros t s0.
    - cbn. repeat split; try lia; tauto.
    - cbv zeta. rewrite gallery_loop_cons.
      assert (Hone : generate_one env client c t s0 =
                     (count_failed t,
                      emit (ErrorGenerating (cfg_id c) ImportError)
                        (emit (LiveCalling (py_prefix 50 (cfg_description c)))
                           (announced c s0)))).
      { rewrite generate_one_eq.
        destruct (generate_image_cases env client (config_args c)
                    (announced c s0)) as [(_ & ->) | (Hi' & _)].
        - unfold offline_error. rewrite Hi. reflexivity.
        - rewrite Hi in Hi'. discriminate. }
      rewrite Hone. cbn [fst snd].
      destruct (IH (count_failed t)
                  (emit (ErrorGenerating (cfg_id c) ImportError)
                     (emit (LiveCalling (py_prefix 50 (cfg_description c)))
                        (announced c s0))))
        as (I1 & I2 & I3 & I4 & I5 & I6).
      cbv zeta in *. rewrite I1, I2, I3, I4.
      cbn [count_failed metadata_images successful failed calls emit announced
           length].
      repeat split; try lia.
      + intros o Ho. apply I5. cbn. rewrite !in_app_iff. tauto.
      + intros c' [<- | Hc']; [|apply I6, Hc'].
        apply I5. cbn. rewrite !in_app_iff. cbn. tauto. }
  destruct (Hloop gallery zero_tally st2) as (L1 & L2 & L3 & L4 & L5 & L6).
  cbv zeta in *.
  destruct (gallery_loop env client gallery zero_tally st2) as [t st3].
  cbn [fst snd] in *. rewrite L1, L2, L3. cbn [zero_tally metadata_images
    successful failed]. fold total.
  replace (0 + total) with total by lia.
  change (0 <? 0) with false. cbv iota.
  split; [reflexivity|]. split; [cbn; exact L4|]. split.
  - eexists. cbn. apply lookup_insert_eq.
  - intros c Hc. cbn. rewrite !in_app_iff. left. left. apply L6, Hc.
Qed.

Lemma run_without_requests_package_witness :
  fst (generate_gallery_on
         {| getenv := getenv Samples.env_mixed; requests_installed := false;
            server := server Samples.env_mixed; disk := fun _ => NoFault |}
         GALLERY_IMAGES Samples.st0) =
  Finished 0 (Z.of_nat (length GALLERY_IMAGES))
    (Z.of_nat (length GALLERY_IMAGES)).
Proof.
  destruct (run_without_requests_package
              {| getenv := getenv Samples.env_mixed; requests_installed := false;
                 server := server Samples.env_mixed; disk := fun _ => NoFault |}
              GALLERY_IMAGES Samples.st0 eq_refl eq_refl eq_refl eq_refl)
    as (H & _).
  exact H.
Defined.

(** X23.  A request that fails is set aside whole: unless the write itself broke
    off half way, its turn changes no file, appends no manifest entry,
    adds one to the failures and none to the successes. *)
Theorem failed_item_changes_no_file (env : Env) (client : PixelLabClient)
    (config : Config) (t : Tally) (st : State) :
  item_ok env client (length (calls st)) config = false ->
  disk env (output_path config) <> WriteFails ->
  let t' := fst (generate_one env client config t st) in
  let st' := snd (generate_one env client config t st) in
  files st' = files st /\
  metadata_images t' = metadata_images t /\
  failed t' = failed t + 1 /\
  successful t' = successful t /\
  dirs st' = dirs st.
Proof.
  intros Hok Hdisk. cbv zeta.
  destruct (generate_one_failed_files env client config t st Hok Hdisk)
    as (Ht & Hf).
  destruct (generate_one_frame env client config t st) as (_ & Hd & _).
  rewrite Ht. repeat split; assumption.
Qed.

Lemma failed_item_changes_no_file_witness :
  let st1 := after_polls Samples.env_mixed
               (poll_request Samples.client "job-1") 4 Samples.st0 in
  let config := nth 3 GALLERY_IMAGES
                  {| cfg_id := ""; cfg_description := ""; cfg_width := None;
                     cfg_height := None; cfg_seed := None |} in
  files (snd (generate_one Samples.env_mixed Samples.client config zero_tally
                st1)) =
  files st1.
Proof.
  intros st1 config.
  assert (H1 : item_ok Samples.env_mixed Samples.client (length (calls st1))
                 config = false) by (vm_compute; reflexivity).
  assert (H2 : disk Samples.env_mixed (output_path config) <> WriteFails)
    by discriminate.
  destruct (failed_item_changes_no_file Samples.env_mixed Samples.client config
              zero_tally st1 H1 H2) as (H & _).
  exact H.
Defined.

(** ** What the comma test guarantees *)

Lemma split_on_length (c : ascii) (s : string) :
  length (split_on c s) = S (count_char c s).
Proof.
  induction s as [|x s IH]; [reflexivity|].
  cbn [split_on count_char]. destruct (Ascii.eqb x c).
  - cbn. rewrite IH. reflexivity.
  - destruct (split_on c s) as [|hd tl]; cbn in *; lia.
Qed.

(** X24.  The subscript [[1]] after the test for a comma never raises: the strip
    step hands a string to [b64decode] for every input, the whole input
    when it has no comma and the second piece of the split when it has. *)
Theorem strip_data_url_never_fails (s : string) :
  exists payload,
    strip_data_url s = Ret payload /\
    (contains_char comma s = false -> payload = s) /\
    (contains_char comma s = true ->
     nth_error (split_on comma s) 1 = Some payload /\
     contains_char comma payload = false).
Proof.
  unfold strip_data_url. destruct (contains_char comma s) eqn:E.
  - assert (Hc : (1 <= count_char comma s)%nat).
    { destruct (count_char comma s) eqn:Ec; [|lia].
      apply contains_char_count in Ec. congruence. }
    destruct (first_segment comma s Hc) as (a & rest & -> & Ha & _).
    rewrite (split_on_segment comma a rest Ha).
    destruct (split_on comma rest) as [|b tl] eqn:Er.
    + pose proof (split_on_length comma rest) as Hl. rewrite Er in Hl.
      discriminate.
    + exists b. cbn. split; [reflexivity|]. split; [discriminate|].
      intros _. split; [reflexivity|].
      destruct (count_char comma rest) as [|n] eqn:Ecr.
      * apply contains_char_count in Ecr.
        rewrite (split_on_no_sep comma rest Ecr) in Er.
        injection Er as <- _. exact Ecr.
      * destruct (first_segment comma rest) as (b' & rest' & -> & Hb' & _);
          [lia|].
        rewrite (split_on_segment comma b' rest' Hb') in Er.
        injection Er as <- _. exact Hb'.
  - exists s. split; [reflexivity|]. split; [reflexivity | discriminate].
Qed.

(** ** How long a poll can take *)

Lemma poll_body_time (env : Env) (self : PixelLabClient) (job_id : string)
    (L : Z) (st : State) :
  (forall n r, Z.of_N (latency (server env n r)) <= L) ->
  0 <= L ->
  let res := fst (poll_body env self job_id st) in
  let st' := snd (poll_body env self job_id st) in
  now st' <= now st + L + 2000 /\
  (res <> Ret Continue -> now st' <= now st + L).
Proof.
  intros HL HL0. cbv zeta.
  destruct (requests_installed env && str_truthy (api_key self)) eqn:Hon.
  - apply andb_prop in Hon as [Hi Hk].
    rewrite (poll_body_read env self job_id Hi Hk).
    pose proof (HL (length (calls st)) (poll_request self job_id)) as Hl.
    destruct (read_reply _) as [response|e]; [|cbn; split; intros; lia].
    destruct (py_get response "data" (JObj [])) as [data|e];
      [|cbn; split; intros; lia].
    destruct (py_get data "status" JNull) as [status|e];
      [|cbn; split; intros; lia].
    destruct (is_str "completed" status); [cbn; split; intros; lia|].
    destruct (is_str "failed" status); cbn; (split; [lia|]); intros H;
      [lia | contradiction].
  - unfold poll_body, bind.
    rewrite (make_request_offline env self _ _ _ _ _ Hon). cbn.
    split; intros; lia.
Qed.

Lemma poll_loop_time (env : Env) (self : PixelLabClient) (job_id : string)
    (max_wait start_time L : Z) (f : nat) :
  (forall n r, Z.of_N (latency (server env n r)) <= L) ->
  0 <= L ->
  forall (st st' : State) (res : Res JSON),
  poll_loop env f self job_id max_wait start_time st = Some (res, st') ->
  now st' - start_time <=
  Z.max (now st - start_time) (max_wait * 1000 - 1 + L + 2000).
Proof.
  intros HL HL0. induction f as [|f IH]; intros st st' res H; [discriminate|].
  cbn [poll_loop] in H.
  destruct (now st - start_time <? max_wait * 1000) eqn:Ht.
  - apply Z.ltb_lt in Ht.
    destruct (poll_body_time env self job_id L st HL HL0) as [Hn Hr].
    destruct (poll_body env self job_id st) as [[[d|]|e] st1]; cbn [fst snd] in *.
    + injection H as <- <-. assert (now st1 <= now st + L) by (apply Hr; discriminate). lia.
    + specialize (IH _ _ _ H). lia.
    + injection H as <- <-. assert (now st1 <= now st + L) by (apply Hr; discriminate). lia.
  - injection H as <- <-. lia.
Qed.

(** X25.  A call comes back in bounded time: when no reply takes longer than [L]
    milliseconds and [max_wait] is not negative, the call is over less
    than [max_wait] seconds plus one reply and one sleep after it began. *)
Theorem poll_returns_within_bound (env : Env) (self : PixelLabClient)
    (job_id : string) (max_wait : option Z) (L : Z) (st st' : State)
    (res : Res JSON) :
  (forall n r, Z.of_N (latency (server env n r)) <= L) ->
  0 <= L ->
  0 <= default 300 max_wait ->
  _poll_background_job env self job_id max_wait st = Some (res, st') ->
  now st' - now st < default 300 max_wait * 1000 + L + 2000.
Proof.
  intros HL HL0 HW H. unfold _poll_background_job in H.
  apply (poll_loop_time env self job_id _ _ L _ HL HL0) in H. lia.
Qed.

Lemma poll_returns_within_bound_witness :
  let run := _poll_background_job (Samples.env_job "pending") Samples.client
               "job-1" (Some 7) Samples.st0 in
  let st' := match run with Some (_, s) => s | None => Samples.st0 end in
  now st' - now Samples.st0 < 7 * 1000 + 500 + 2000.
Proof.
  intros run st'.
  assert (H : run = Some (Raise (TimeoutError "job-1" 7), st'))
    by (vm_compute; reflexivity).
  apply (poll_returns_within_bound (Samples.env_job "pending") Samples.client
           "job-1" (Some 7) 500 Samples.st0 st'
           (Raise (TimeoutError "job-1" 7))).
  - intros n r. cbn. lia.
  - lia.
  - cbn. lia.
  - exact H.
Defined.

(** ** The manifest names the files *)

Lemma entry_of_filename (config : Config) (stamp : Z) :
  contains_char "/" (cfg_id config) = false ->
  entry_filename (entry_of config stamp) =
  output_name (cfg_id config) (default 128 (cfg_width config))
    (default 128 (cfg_height config)) /\
  path_join IMAGES_DIR (entry_filename (entry_of config stamp)) =
  output_path config.
Proof.
  intros H. cbn [entry_of entry_filename]. unfold output_path.
  destruct (path_join_images
              (output_name (cfg_id config) (default 128 (cfg_width config))
                 (default 128 (cfg_height config)))) as [Hj Hn].
  - apply output_name_no_slash, H.
  - apply (is_part_of_char "_"); [reflexivity | apply output_name_underscore].
  - rewrite Hn. split; reflexivity.
Qed.

Lemma gallery_loop_entries (env : Env) (client : PixelLabClient)
    (gallery : list Config) (t : Tally) (st : State) (n : nat) :
  (requests_installed env && str_truthy (api_key client) = true ->
   n = length (calls st)) ->
  forall e, In e (metadata_images (fst (gallery_loop env client gallery t st))) ->
  In e (metadata_images t) \/
  exists c stamp, In c (successful_items env client n gallery) /\
                  e = entry_of c stamp.
Proof.
  revert t st n. induction gallery as [|c l IH]; intros t st n Hn e He.
  - left. exact He.
  - rewrite gallery_loop_cons in He.
    destruct (generate_one_frame env client c t st) as (Hc & _).
    destruct (generate_one_item_ok env client c t st) as (stamp & Ht).
    cbv zeta in Hc.
    apply (IH _ _ (S n)) in He.
    + cbn [successful_items].
      destruct (requests_installed env && str_truthy (api_key client)) eqn:Hon.
      * rewrite <- (Hn eq_refl) in Ht.
        destruct He as [He | (c' & s' & Hin & ->)].
        -- rewrite Ht in He. destruct (item_ok env client n c).
           ++ cbn [count_successful metadata_images] in He.
              apply in_app_or in He. destruct He as [He | [<- | []]].
              ** left. exact He.
              ** right. exists c, stamp. split; [left; reflexivity | reflexivity].
           ++ left. exact He.
        -- right. exists c', s'. split; [apply in_or_app; right; exact Hin | reflexivity].
      * destruct He as [He | (c' & s' & Hin & ->)].
        -- rewrite Ht in He.
           assert (Hno : item_ok env client (length (calls st)) c = false).
           { unfold item_ok. rewrite Hon. reflexivity. }
           rewrite Hno in He. left. exact He.
        -- right. exists c', s'. split; [apply in_or_app; right; exact Hin | reflexivity].
    + intros Hon. rewrite Hc, Hon, (Hn Hon). reflexivity.
Qed.

(** X26.  Every record of the manifest names a file of the images directory that
    the run left with bytes in it: when no id of the list has a slash in
    it, the [filename] of a record is [<id>_<width>x<height>.png] of its
    entry and that name under the images directory is a file on disk. *)
Theorem manifest_names_existing_files (env : Env) (gallery : list Config)
    (st : State) :
  str_truthy (getenv env "PIXELLAB_API_KEY") = true ->
  disk env IMAGES_DIR = NoFault ->
  disk env METADATA_FILE = NoFault ->
  (forall c, In c gallery -> contains_char "/" (cfg_id c) = false) ->
  let st' := snd (generate_gallery_on env gallery st) in
  exists metadata,
    files st' !! METADATA_FILE = Some (JsonText metadata) /\
    forall e, In e (images metadata) ->
      (exists c, In c gallery /\
         entry_id e = cfg_id c /\
         entry_filename e =
         output_name (cfg_id c) (default 128 (cfg_width c))
           (default 128 (cfg_height c))) /\
      exists b,
        files st' !! path_join IMAGES_DIR (entry_filename e) = Some (Bytes b).
Proof.
  intros Hkey Hdir Hmeta Hid. cbv zeta.
  rewrite (generate_gallery_on_run env gallery st Hkey Hdir Hmeta). cbv zeta.
  set (client := PixelLabClient_init env (getenv env "PIXELLAB_API_KEY") None).
  set (s0 := check_balance env client _).
  assert (Hn : requests_installed env && str_truthy (api_key client) = true ->
               S (length (calls st)) = length (calls s0)).
  { intros Hon. subst s0.
    match goal with
    | |- _ = length (calls (check_balance _ _ ?s)) =>
        destruct (check_balance_frame env client s) as (_ & _ & Hcalls & _)
    end.
    cbv zeta in Hcalls. rewrite Hcalls, Hon. reflexivity. }
  eexists. split.
  - cbn [snd]. destruct (0 <? _); cbn [files emit put_file];
      apply lookup_insert_eq.
  - cbn [images]. intros e He.
    destruct (gallery_loop_entries env client gallery zero_tally s0 _ Hn e He)
      as [[] | (c & stamp & Hin & ->)].
    assert (Hg : In c gallery).
    { clear - Hin. revert Hin. generalize (S (length (calls st))).
      induction gallery as [|c0 l IH]; intros n Hin; [contradiction|].
      cbn [successful_items] in Hin. apply in_app_or in Hin.
      destruct Hin as [Hin | Hin].
      - destruct (item_ok env client n c0); [|contradiction].
        destruct Hin as [<- | []]. left. reflexivity.
      - right. exact (IH _ Hin). }
    destruct (entry_of_filename c stamp (Hid c Hg)) as [Hname Hpath].
    split.
    + exists c. split; [exact Hg|]. split; [reflexivity | exact Hname].
    + rewrite Hpath.
      destruct (gallery_loop_images env client gallery zero_tally s0 _ Hn c Hin)
        as [b Hb].
      exists b. cbn [snd].
      destruct (0 <? _); cbn [files emit put_file];
        (rewrite lookup_insert_ne;
         [exact Hb | intros E; symmetry in E; exact (output_path_not_metadata c E)]).
Qed.

Lemma manifest_names_existing_files_witness :
  let st' := snd (generate_gallery_on Samples.env_mixed GALLERY_IMAGES Samples.st0) in
  exists metadata,
    files st' !! METADATA_FILE = Some (JsonText metadata) /\
    forall e, In e (images metadata) ->
      (exists c, In c GALLERY_IMAGES /\
         entry_id e = cfg_id c /\
         entry_filename e =
         output_name (cfg_id c) (default 128 (cfg_width c))
           (default 128 (cfg_height c))) /\
      exists b,
        files st' !! path_join IMAGES_DIR (entry_filename e) = Some (Bytes b).
Proof.
  assert (Hid : forall c, In c GALLERY_IMAGES ->
                          contains_char "/" (cfg_id c) = false).
  { intros c Hc. cbn in Hc.
    repeat (destruct Hc as [<- | Hc]; [reflexivity|]). destruct Hc. }
  exact (manifest_names_existing_files Samples.env_mixed GALLERY_IMAGES
           Samples.st0 eq_refl eq_refl eq_refl Hid).
Defined.
